(** * SSR theme runtime orchestrator: a shallow embedding

    The development models the three collaborating pieces of the
    Go sources:

    - package [ssr] (the [Manager]: registry of running theme processes,
      [Start], [Stop], [StopAll], the lookups, the exit reaper and the
      readiness prober [waitForReady]);
    - package [middleware] ([shouldSkipSSRProxy], [SSRProxyMiddleware]);
    - package [theme] ([SwitchToSSRTheme], [SwitchToOfficial],
      [GetCurrentSSRThemeName]).

    Go code that talks to the operating system or to the database is
    modelled by explicit state passing: every operation is a function from
    a [State] to an [outcome], which records the value returned, the new
    state and the external events the operation performed, in order.  An
    operation that blocks for ever yields [Hang].  The behaviour of the
    outside world (file system, spawned processes, the database driver, the
    iteration order of Go maps) is read from a [World] record. *)

From stdpp Require Import gmap strings list fin_maps.
From Stdlib Require Import ZArith String.

Local Open Scope string_scope.
Local Open Scope Z_scope.
Local Open Scope list_scope.

(** ** Data model (package ssr) *)

(** [exec.Cmd], reduced to the one field the manager inspects:
    [Process] is nil until the command has been started. *)
Record Cmd := { Process : option Z }.

(** [runningTheme]: one entry of the registry. *)
Record runningTheme := { cmd : Cmd; port : Z; startedAt : Z }.

(** [ThemeStatus] *)
Inductive ThemeStatus :=
| StatusNotInstalled
| StatusInstalled
| StatusRunning
| StatusError.

(** [ThemeInfo], with the fields that [GetRunningTheme] and the proxy
    middleware fill in. *)
Record ThemeInfo := { Name : string; Status : ThemeStatus; Port : Z }.

(** [Manager]: [processes] is the Go map [map[string]*runningTheme]. *)
Record Manager := {
  themesDir : string;
  processes : gmap string runningTheme;
  basePort : Z
}.

(** The errors of the manager, followed by those of the theme service. *)
Inductive error :=
| ErrAlreadyRunning
| ErrNotInstalled
| ErrSpawnFailed
| ErrNotRunning
| ErrSwitchNotInstalled
| ErrQueryFailed
| ErrBeginTx
| ErrClearCurrent
| ErrSetCurrent
| ErrStartSSR (cause : error)
| ErrCommit
| ErrUpdateStatus.

(** The text the manager hands to [errors.New] and [fmt.Errorf]. *)
Definition manager_error_text (e : error) : string :=
  match e with
  | ErrAlreadyRunning => "theme already running"
  | ErrNotInstalled => "theme not installed or server.js not found"
  | ErrSpawnFailed => "start node process failed"
  | ErrNotRunning => "theme not running"
  | _ => "(message of the theme service)"
  end.

(** ** Persisted state (package theme) *)

Inductive DeployType := DeployTypeStandard | DeployTypeSsr.

(** A row of the [UserInstalledTheme] table. *)
Record UserInstalledTheme := {
  ID : Z;
  UserID : Z;
  ThemeName : string;
  IsCurrent : bool;
  Deploy : DeployType
}.

(** ** The outside world *)

(** Result of [os.Stat] as seen through [os.IsNotExist]. *)
Inductive StatResult := StatOk | StatNotExist | StatOtherError.

(** The database statements the two switch operations issue. *)
Inductive DbStmt :=
| QueryTheme
| BeginTx
| TxClearCurrent
| TxSetCurrent
| TxCommit
| UpdateClearCurrent
| CountCurrent
| QueryCurrentSsr.

(** External events, in the order the code performs them. *)
Inductive event :=
| EvLock
| EvUnlock
| EvRLock
| EvRUnlock
| EvStat (path : string)
| EvOpenFile (path : string)
| EvSpawn (dir : string) (port : Z)
| EvSignalTerm (pid : Z)
| EvKill (pid : Z)
| EvWait (pid : Z)
| EvWaitTimeout (pid : Z) (timeout : Z)
| EvGoReaper (themeName : string) (pid : Z)
| EvGoWaitForReady (themeName : string) (port : Z)
| EvHttpGet (port : Z)
| EvSleep (d : Z)
| EvProxy (port : Z)
| EvDb (stmt : DbStmt) (ok : bool)
| EvTxRollback
| EvStaticBackup
| EvStaticRemove
| EvBackupRemove.

Record World := {
  (** [os.Stat path] *)
  os_Stat : string -> StatResult;
  (** [cmd.Start()] for [node server.js] in a directory with [PORT=port]:
      the pid of the child, or an error *)
  cmd_Start : string -> Z -> option Z;
  (** [Process.Signal(SIGTERM)] returns nil *)
  proc_Signal : Z -> bool;
  (** nanoseconds until [cmd.Wait()] returns once the stop sequence has
      begun; [None] when the process does not exit unless killed *)
  proc_Wait : Z -> option Z;
  (** [time.Now()] *)
  time_Now : Z;
  (** iteration order of [for name, rt := range m.processes] *)
  map_range : gmap string runningTheme -> list (string * runningTheme);
  (** themes whose process exits by itself, and whose reaper runs, between
      a listing of the running themes and the sweep that stops them *)
  exits_meanwhile : list string;
  (** which database statements fail (for the row lookups: with an error
      other than "not found") *)
  db_fails : DbStmt -> bool;
  (** [IsStaticModeActive()] *)
  static_mode_active : bool
}.

(** ** State and operations *)

Record State := { mgr : Manager; db : list UserInstalledTheme }.

Inductive outcome (A : Type) :=
| Ret (a : A) (s : State) (t : list event)
| Hang (s : State) (t : list event).
Arguments Ret {A} a s t.
Arguments Hang {A} s t.

Definition Op (A : Type) := State -> outcome A.

Definition ret {A} (a : A) : Op A := fun s => Ret a s [].

Definition bind {A B} (m : Op A) (f : A -> Op B) : Op B := fun s =>
  match m s with
  | Ret a s1 t1 =>
      match f a s1 with
      | Ret b s2 t2 => Ret b s2 (t1 ++ t2)
      | Hang s2 t2 => Hang s2 (t1 ++ t2)
      end
  | Hang s1 t1 => Hang s1 t1
  end.

Notation "x <- m ;; k" := (bind m (fun x => k))
  (at level 100, m at next level, right associativity).
Notation "m ;;; k" := (bind m (fun _ => k))
  (at level 100, right associativity).

Definition emit (e : event) : Op unit := fun s => Ret tt s [e].
Definition block_forever {A} : Op A := fun s => Hang s [].
Definition get_processes : Op (gmap string runningTheme) :=
  fun s => Ret (processes (mgr s)) s [].
Definition get_themesDir : Op string := fun s => Ret (themesDir (mgr s)) s [].
(** The state after an assignment to [m.processes]. *)
Definition with_processes (p : gmap string runningTheme) (s : State) : State :=
  {| mgr := {| themesDir := themesDir (mgr s); processes := p;
               basePort := basePort (mgr s) |};
     db := db s |}.
Definition set_processes (p : gmap string runningTheme) : Op unit := fun s =>
  Ret tt (with_processes p s) [].
Definition get_db : Op (list UserInstalledTheme) := fun s => Ret (db s) s [].
Definition set_db (d : list UserInstalledTheme) : Op unit := fun s =>
  Ret tt {| mgr := mgr s; db := d |} [].

Fixpoint foreach {A} (l : list A) (body : A -> Op unit) : Op unit :=
  match l with
  | [] => ret tt
  | x :: l' => body x ;;; foreach l' body
  end.

(** [m.mu.Lock(); defer m.mu.Unlock()] around a body. *)
Definition locked {A} (body : Op A) : Op A :=
  emit EvLock ;;; (r <- body ;; emit EvUnlock ;;; ret r).

(** [m.mu.RLock(); defer m.mu.RUnlock()] around a body. *)
Definition rlocked {A} (body : Op A) : Op A :=
  emit EvRLock ;;; (r <- body ;; emit EvRUnlock ;;; ret r).

(** [filepath.Join] of two components.  The result is only handed to the
    file-system oracle, so the normalisation done by [filepath.Clean] is
    left out. *)
Definition Join (a b : string) : string := (a ++ "/" ++ b)%string.

(** [rt, exists := m.processes[name]; exists && rt.cmd.Process != nil] *)
Definition live (o : option runningTheme) : bool :=
  match o with
  | Some rt => match Process (cmd rt) with Some _ => true | None => false end
  | None => false
  end.

Arguments live : simpl never.

Definition Second : Z := 1000000000.

Section Manager.
Variable w : World.

(** The goroutine started by [Start]: wait for the child, then delete the
    registry entry under the write lock. *)
Definition reaper (themeName : string) (pid : Z) : Op unit :=
  emit (EvWait pid) ;;;
  match proc_Wait w pid with
  | None => block_forever
  | Some _ =>
      emit EvLock ;;;
      ps <- get_processes ;;
      set_processes (delete themeName ps) ;;;
      emit EvUnlock
  end.

(** The log file is opened between the check of server.js and the spawn;
    whether that succeeds only decides where the output of the child goes. *)
Definition Start (themeName : string) (port : Z) : Op (option error) :=
  locked (
    ps <- get_processes ;;
    if live (ps !! themeName) then ret (Some ErrAlreadyRunning) else
    dir <- get_themesDir ;;
    let themePath := Join dir themeName in
    let serverJS := Join themePath "server.js" in
    emit (EvStat serverJS) ;;;
    match os_Stat w serverJS with
    | StatNotExist => ret (Some ErrNotInstalled)
    | _ =>
        emit (EvOpenFile (Join themePath "ssr.log")) ;;;
        emit (EvSpawn themePath port) ;;;
        match cmd_Start w themePath port with
        | None => ret (Some ErrSpawnFailed)
        | Some pid =>
            set_processes
              (<[themeName := {| cmd := {| Process := Some pid |};
                                 port := port;
                                 startedAt := time_Now w |}]> ps) ;;;
            emit (EvGoReaper themeName pid) ;;;
            emit (EvGoWaitForReady themeName port) ;;;
            ret None
        end
    end).

(** The [select] between the exit of the process and the five-second
    timer goes to the exit when [cmd.Wait()] returns first. *)
Definition Stop (themeName : string) : Op (option error) :=
  locked (
    ps <- get_processes ;;
    match ps !! themeName with
    | Some rt =>
        match Process (cmd rt) with
        | Some pid =>
            emit (EvSignalTerm pid) ;;;
            (if proc_Signal w pid then ret tt else emit (EvKill pid)) ;;;
            emit (EvWaitTimeout pid (5 * Second)) ;;;
            (match proc_Wait w pid with
             | Some d => if (d <? 5 * Second)%Z then ret tt else emit (EvKill pid)
             | None => emit (EvKill pid)
             end) ;;;
            set_processes (delete themeName ps) ;;;
            ret None
        | None => ret (Some ErrNotRunning)
        end
    | None => ret (Some ErrNotRunning)
    end).

Definition GetPort (themeName : string) : Op Z :=
  rlocked (
    ps <- get_processes ;;
    match ps !! themeName with
    | Some rt => if live (Some rt) then ret (port rt) else ret 0
    | None => ret 0
    end).

Definition IsRunning (themeName : string) : Op bool :=
  rlocked (ps <- get_processes ;; ret (live (ps !! themeName))).

Definition ListRunning : Op (list string) :=
  rlocked (
    ps <- get_processes ;;
    ret (map fst (filter (fun nr => live (Some (snd nr)) = true)
                         (map_range w ps)))).

Definition GetRunningTheme : Op (option ThemeInfo) :=
  rlocked (
    ps <- get_processes ;;
    match filter (fun nr => live (Some (snd nr)) = true) (map_range w ps) with
    | (name, rt) :: _ =>
        ret (Some {| Name := name; Status := StatusRunning; Port := port rt |})
    | [] => ret None
    end).

(** One turn of the loop of [StopAll], for the entry [nr] of the map:
    [Signal(SIGTERM)], then [cmd.Wait()], which returns when the process has
    exited. *)
Definition StopAll_body (nr : string * runningTheme) : Op unit :=
  match Process (cmd (snd nr)) with
  | Some pid =>
      emit (EvSignalTerm pid) ;;;
      emit (EvWait pid) ;;;
      match proc_Wait w pid with
      | Some _ => ret tt
      | None => block_forever
      end
  | None => ret tt
  end.

Definition StopAll : Op (option error) :=
  locked (
    ps <- get_processes ;;
    foreach (map_range w ps) StopAll_body ;;;
    set_processes ∅ ;;;
    ret None).

End Manager.

(** ** The readiness prober *)

(** What the prober meets on one turn of its loop.  It runs in a goroutine
    of its own, so the registry it reads is whatever the other goroutines
    have made of it by then. *)
Record tick := {
  (** time spent in [m.mu.RLock()] before the lock is granted *)
  tick_lock_wait : Z;
  (** [m.processes] as read under the lock *)
  tick_processes : gmap string runningTheme;
  (** duration of [client.Get(healthURL)] *)
  tick_probe_time : Z;
  (** [err != nil] *)
  tick_probe_err : bool;
  (** time by which [time.Sleep(checkInterval)] overshoots *)
  tick_oversleep : Z
}.

Inductive probe_result := ProbeTimedOut | ProbeAborted | ProbeReady.

(** How the prober ended: which of its three [return]s it took, the value
    of [time.Since(startTime)] there, and the events it performed, each
    with the time elapsed when it happened. *)
Record probe_report := {
  pr_result : probe_result;
  pr_elapsed : Z;
  pr_events : list (Z * event)
}.

Definition maxTimeout : Z := 30 * Second.
Definition checkInterval : Z := Second.
Definition httpTimeout : Z := 2 * Second.

(** The [for { ... }] loop of [waitForReady]; [elapsed] is
    [time.Since(startTime)] at the top of the loop, [i] counts the turns.
    The Go loop has no bound of its own: [fuel] bounds the turns here, and
    [None] means the fuel ran out. *)
Fixpoint waitForReady_loop (fuel : nat) (env : nat -> tick) (i : nat)
    (themeName : string) (port : Z) (elapsed : Z) (evs : list (Z * event))
    : option probe_report :=
  match fuel with
  | O => None
  | S fuel' =>
      if maxTimeout <=? elapsed then
        Some {| pr_result := ProbeTimedOut; pr_elapsed := elapsed;
                pr_events := evs |}
      else
        let e := env i in
        let t1 := elapsed + tick_lock_wait e in
        if negb (live (tick_processes e !! themeName)) then
          Some {| pr_result := ProbeAborted; pr_elapsed := t1;
                  pr_events := evs ++ [(t1, EvRLock); (t1, EvRUnlock)] |}
        else
          let t2 := t1 + tick_probe_time e in
          let evs1 :=
            evs ++ [(t1, EvRLock); (t1, EvRUnlock); (t1, EvHttpGet port)] in
          if negb (tick_probe_err e) then
            Some {| pr_result := ProbeReady; pr_elapsed := t2;
                    pr_events := evs1 |}
          else
            waitForReady_loop fuel' env (S i) themeName port
              (t2 + checkInterval + tick_oversleep e)
              (evs1 ++ [(t2, EvSleep checkInterval)])
  end.

Definition waitForReady (fuel : nat) (env : nat -> tick)
    (themeName : string) (port : Z) : option probe_report :=
  waitForReady_loop fuel env 0 themeName port 0 [].

(** ** The proxy middleware (package middleware) *)

Definition exactPaths : list string :=
  ["/robots.txt"; "/sitemap.xml"; "/rss.xml"; "/feed.xml"; "/atom.xml"].

Definition skipPrefixes : list string :=
  ["/api/"; "/admin"; "/login"; "/admin-static/"; "/admin-assets/";
   "/f/"; "/needcache/"].

Definition shouldSkipSSRProxy (path : string) : bool :=
  if existsb (fun exact => String.eqb path exact) exactPaths then true
  else if existsb (fun prefix => String.prefix prefix path) skipPrefixes then true
  else false.

(** What the handler does with the request: [c.Next()], or
    [proxy.ServeHTTP] towards the theme followed by [c.Abort()]. *)
Inductive action := Next | Proxy (target : ThemeInfo).

(** A value of interface or pointer type that may be nil: the manager
    handed to the middleware and to the theme service. *)
Inductive ManagerRef := NilManager | ManagerPtr.

(** [url.Parse(fmt.Sprintf("http://localhost:%d", port))] succeeds: the port
    of a URL must be a run of decimal digits, which [%d] prints exactly for
    the numbers that are not negative. *)
Definition url_Parse_ok (port : Z) : bool := 0 <=? port.

Section Middleware.
Variable w : World.

(** The tail of the handler, from [if runningTheme == nil] on. *)
Definition serve (runningTheme : option ThemeInfo) : Op action :=
  match runningTheme with
  | None => ret Next
  | Some ti =>
      if url_Parse_ok (Port ti) then
        emit (EvProxy (Port ti)) ;;; ret (Proxy ti)
      else ret Next
  end.

(** [ssrThemeChecker] is the package-level callback, nil until
    [SetSSRThemeChecker] has been called. *)
Definition SSRProxyMiddleware (ssrManager : ManagerRef)
    (ssrThemeChecker : option (Op (string * bool))) (path : string)
    : Op action :=
  match ssrManager with
  | NilManager => ret Next
  | ManagerPtr =>
      if shouldSkipSSRProxy path then ret Next else
      match ssrThemeChecker with
      | Some checker =>
          r <- checker ;;
          let themeName := fst r in
          let shouldProxy := snd r in
          if negb shouldProxy then ret Next else
          running <- IsRunning themeName ;;
          if (running : bool) then
            p <- GetPort themeName ;;
            serve (Some {| Name := themeName; Status := StatusRunning;
                           Port := p |})
          else serve None
      | None =>
          runningTheme <- GetRunningTheme w ;;
          serve runningTheme
      end
  end.

End Middleware.

(** ** The theme service (package theme) *)

Definition set_IsCurrent (b : bool) (r : UserInstalledTheme) : UserInstalledTheme :=
  {| ID := ID r; UserID := UserID r; ThemeName := ThemeName r;
     IsCurrent := b; Deploy := Deploy r |}.

Definition is_ssr (d : DeployType) : bool :=
  match d with DeployTypeSsr => true | DeployTypeStandard => false end.

(** [Update().Where(UserID(userID)).SetIsCurrent(false)] *)
Definition clear_current (userID : Z) (d : list UserInstalledTheme) :=
  map (fun r => if UserID r =? userID then set_IsCurrent false r else r) d.

(** [UpdateOneID(id).SetIsCurrent(true)] *)
Definition set_current (id : Z) (d : list UserInstalledTheme) :=
  map (fun r => if ID r =? id then set_IsCurrent true r else r) d.

(** [Query().Where(UserID(userID), ThemeName(themeName)).First(ctx)] *)
Definition find_theme (userID : Z) (themeName : string)
    (d : list UserInstalledTheme) : option UserInstalledTheme :=
  List.find (fun r => (UserID r =? userID)
                      && String.eqb (ThemeName r) themeName) d.

Section Service.
Variable w : World.

Definition db_stmt (stmt : DbStmt) : Op bool :=
  emit (EvDb stmt (negb (db_fails w stmt))) ;;;
  ret (negb (db_fails w stmt)).

(** Themes whose process exits while the service is between two calls of
    the manager: their reapers delete the entries.  The reapers are other
    goroutines, so their events are not part of the caller's. *)
Definition meanwhile : Op unit := fun s =>
  Ret tt
    (with_processes
       (foldr (fun name ps => delete name ps) (processes (mgr s))
              (exits_meanwhile w)) s) [].

Definition GetCurrentSSRThemeName (userID : Z) : Op (string * bool) :=
  d <- get_db ;;
  ok <- db_stmt QueryCurrentSsr ;;
  if negb ok then ret ("", false) else
  match List.find (fun r => (UserID r =? userID) && IsCurrent r
                            && is_ssr (Deploy r)) d with
  | Some theme => ret (ThemeName theme, true)
  | None => ret ("", false)
  end.

Definition SwitchToOfficial (userID : Z) (ssrManager : ManagerRef)
    : Op (option error) :=
  d <- get_db ;;
  ok <- db_stmt UpdateClearCurrent ;;
  if negb ok then ret (Some ErrUpdateStatus) else
  set_db (clear_current userID d) ;;;
  (if static_mode_active w then emit EvStaticBackup else ret tt) ;;;
  emit EvStaticRemove ;;;
  (match ssrManager with
   | NilManager => ret tt
   | ManagerPtr =>
       runningThemes <- ListRunning w ;;
       meanwhile ;;;
       foreach runningThemes (fun themeName => Stop w themeName ;;; ret tt)
   end) ;;;
  db_stmt CountCurrent ;;;
  (if static_mode_active w then emit EvBackupRemove else ret tt) ;;;
  ret None.

Definition SwitchToSSRTheme (userID : Z) (themeName : string)
    (ssrManager : ManagerRef) : Op (option error) :=
  d <- get_db ;;
  ok <- db_stmt QueryTheme ;;
  if negb ok then ret (Some ErrQueryFailed) else
  match find_theme userID themeName d with
  | None => ret (Some ErrSwitchNotInstalled)
  | Some theme =>
      (match ssrManager with
       | NilManager => ret tt
       | ManagerPtr =>
           runningThemes <- ListRunning w ;;
           meanwhile ;;;
           foreach runningThemes (fun name =>
             if negb (String.eqb name themeName)
             then Stop w name ;;; ret tt
             else ret tt)
       end) ;;;
      ok <- db_stmt BeginTx ;;
      if negb ok then ret (Some ErrBeginTx) else
      ok <- db_stmt TxClearCurrent ;;
      if negb ok then emit EvTxRollback ;;; ret (Some ErrClearCurrent) else
      let tx1 := clear_current userID d in
      ok <- db_stmt TxSetCurrent ;;
      if negb ok then emit EvTxRollback ;;; ret (Some ErrSetCurrent) else
      let tx2 := set_current (ID theme) tx1 in
      started <-
        (match ssrManager with
         | NilManager => ret None
         | ManagerPtr =>
             running <- IsRunning themeName ;;
             if (running : bool) then ret None else Start w themeName 3000
         end) ;;
      match started with
      | Some err => emit EvTxRollback ;;; ret (Some (ErrStartSSR err))
      | None =>
          ok <- db_stmt TxCommit ;;
          if negb ok then
            (match ssrManager with
             | NilManager => ret tt
             | ManagerPtr => Stop w themeName ;;; ret tt
             end) ;;;
            ret (Some ErrCommit)
          else
            set_db tx2 ;;;
            ret None
      end
  end.

End Service.

(** ** Reading outcomes and traces *)

Definition result {A} (o : outcome A) : option A :=
  match o with Ret a _ _ => Some a | Hang _ _ => None end.

Definition final {A} (o : outcome A) : State :=
  match o with Ret _ s _ => s | Hang s _ => s end.

Definition events {A} (o : outcome A) : list event :=
  match o with Ret _ _ t => t | Hang _ t => t end.

Definition returned {A} (o : outcome A) : bool :=
  match o with Ret _ _ _ => true | Hang _ _ => false end.

(** Calls that act on an operating-system process. *)
Definition process_action (e : event) : bool :=
  match e with
  | EvSpawn _ _ | EvSignalTerm _ | EvKill _ | EvWait _ | EvWaitTimeout _ _ => true
  | _ => false
  end.

(** Calls that block on something outside the program: spawning a child,
    waiting for a child to exit, HTTP exchanges, sleeping. *)
Definition blocking (e : event) : bool :=
  match e with
  | EvSpawn _ _ | EvWait _ | EvWaitTimeout _ _ | EvHttpGet _ | EvProxy _
  | EvSleep _ => true
  | _ => false
  end.

(** No blocking call happens while the registry lock is held; [held] tells
    whether it is held when the trace begins. *)
Fixpoint lock_discipline (held : bool) (t : list event) : bool :=
  match t with
  | [] => true
  | EvLock :: t' | EvRLock :: t' => lock_discipline true t'
  | EvUnlock :: t' | EvRUnlock :: t' => lock_discipline false t'
  | e :: t' => (negb held || negb (blocking e)) && lock_discipline held t'
  end.

(** The path [Start] hands to [os.Stat]. *)
Definition serverJS_path (s : State) (themeName : string) : string :=
  Join (Join (themesDir (mgr s)) themeName) "server.js".

(** The iteration order of a map ranges over exactly its entries. *)
Definition faithful_range (w : World) : Prop :=
  forall m : gmap string runningTheme, map_range w m ≡ₚ map_to_list m.

(** * Further operations *)

(** ** The rest of the manager (package ssr) *)

(** Result of [os.ReadDir]: the entries with their [IsDir()], or the error
    as seen through [os.IsNotExist]. *)
Inductive ReadDirResult :=
| DirEntries (entries : list (string * bool))
| DirNotExist
| DirOtherError.

(** More of the file system.  Calls answered from here are not recorded as
    events. *)
Record Host := {
  (** [os.RemoveAll path] returns nil *)
  os_RemoveAll : string -> bool;
  (** [stat.ModTime()] of a path whose [os.Stat] succeeded *)
  stat_ModTime : string -> Z;
  (** [strings.TrimSpace(string(data))] for the file at a path, when
      [os.ReadFile] succeeds *)
  read_version : string -> option string;
  (** [os.ReadDir path] *)
  os_ReadDir : string -> ReadDirResult;
  (** [backupDirectory(StaticDirName, backupPath)] returns nil *)
  backup_ok : bool;
  (** [copyThemeToStatic themeDir] returns nil *)
  copy_theme_ok : string -> bool
}.

Inductive manager_error := ErrRemoveTheme | ErrReadDir.

(** [ThemeInfo] as [GetStatus] fills it in. *)
Record StatusInfo := {
  Info : ThemeInfo;
  Version : string;
  InstalledAt : option Z;
  StartedAt : option Z
}.

(** [for _, x := range l] with [themes = append(themes, ...)] on some turns. *)
Fixpoint collect {A B} (l : list A) (body : A -> Op (option B)) : Op (list B) :=
  match l with
  | [] => ret []
  | x :: l' =>
      r <- body x ;;
      rest <- collect l' body ;;
      ret (match r with Some b => b :: rest | None => rest end)
  end.

Section ManagerRest.
Variable h : Host.
Variable w : World.

(** The process is signalled and waited for without a bound, as in
    [StopAll]; the directory is removed afterwards. *)
Definition Uninstall (themeName : string) : Op (option manager_error) :=
  locked (
    ps <- get_processes ;;
    (match ps !! themeName with
     | Some rt =>
         match Process (cmd rt) with
         | Some pid =>
             emit (EvSignalTerm pid) ;;;
             emit (EvWait pid) ;;;
             (match proc_Wait w pid with
              | Some _ => ret tt
              | None => block_forever
              end) ;;;
             set_processes (delete themeName ps)
         | None => ret tt
         end
     | None => ret tt
     end) ;;;
    dir <- get_themesDir ;;
    if os_RemoveAll h (Join dir themeName) then ret None
    else ret (Some ErrRemoveTheme)).

Definition getStatusUnlocked (themeName : string) : Op StatusInfo :=
  dir <- get_themesDir ;;
  let themePath := Join dir themeName in
  emit (EvStat themePath) ;;;
  match os_Stat w themePath with
  | StatNotExist =>
      ret {| Info := {| Name := themeName; Status := StatusNotInstalled;
                        Port := 0 |};
             Version := ""; InstalledAt := None; StartedAt := None |}
  | st =>
      let installedAt :=
        match st with
        | StatOk => Some (stat_ModTime h themePath)
        | _ => None
        end in
      let version :=
        match read_version h (Join themePath "version.txt") with
        | Some v => v
        | None => ""
        end in
      ps <- get_processes ;;
      match ps !! themeName with
      | Some rt =>
          if live (Some rt) then
            ret {| Info := {| Name := themeName; Status := StatusRunning;
                              Port := port rt |};
                   Version := version; InstalledAt := installedAt;
                   StartedAt := Some (startedAt rt) |}
          else
            ret {| Info := {| Name := themeName; Status := StatusInstalled;
                              Port := 0 |};
                   Version := version; InstalledAt := installedAt;
                   StartedAt := None |}
      | None =>
          ret {| Info := {| Name := themeName; Status := StatusInstalled;
                            Port := 0 |};
                 Version := version; InstalledAt := installedAt;
                 StartedAt := None |}
      end
  end.

(** [GetStatus] has the body of [getStatusUnlocked], under the read lock. *)
Definition GetStatus (themeName : string) : Op StatusInfo :=
  rlocked (getStatusUnlocked themeName).

Definition ListInstalled : Op (list StatusInfo + manager_error) :=
  rlocked (
    dir <- get_themesDir ;;
    match os_ReadDir h dir with
    | DirNotExist => ret (inl [])
    | DirOtherError => ret (inr ErrReadDir)
    | DirEntries entries =>
        themes <- collect entries (fun entry =>
          if (snd entry : bool) then
            let serverJS := Join (Join dir (fst entry)) "server.js" in
            emit (EvStat serverJS) ;;;
            match os_Stat w serverJS with
            | StatOk => st <- getStatusUnlocked (fst entry) ;; ret (Some st)
            | _ => ret None
            end
          else ret None) ;;
        ret (inl themes)
    end).

End ManagerRest.

(** ** The rest of the theme service (package theme) *)

(** The statements of the catalog functions below. *)
Inductive CatalogStmt :=
| ExistTheme
| UpdateThemeVersion
| CreateTheme
| QueryFirstTheme
| DeleteTheme
| ClearCurrentOfUser
| ExistCurrentSsr
| QueryCurrentThemes
| QuerySsrThemes
| UpdateDeployType.

Record Catalog := {
  (** which statements fail (for the row lookup: with an error other than
      "not found") *)
  stmt_fails : CatalogStmt -> bool;
  (** [UpdateOneID(id).SetIsCurrent(false)] fails *)
  update_one_fails : Z -> bool;
  (** which statements of the synchronisation fail, by theme name *)
  stmt_fails_for : CatalogStmt -> string -> bool;
  (** the ID the database gives to a new row *)
  fresh_id : list UserInstalledTheme -> Z
}.

Inductive catalog_error :=
| ErrExistCheck
| ErrUpdateRecord
| ErrCreateRecord
| ErrQuerySsr
| ErrUninstallCurrent
| ErrDeleteRecord
| ErrClearStatus
| ErrFixStatus
| ErrQueryCurrent
| ErrQueryStatus
| ErrThemeNotInstalled
| ErrQueryTheme
| ErrThemeFilesIncomplete
| ErrBackupFailed
| ErrCopyFailed
| ErrOpenTx
| ErrUpdateThemeStatus
| ErrSetCurrentTheme
| ErrCommitTx
| ErrOfficial (e : error)
| ErrUninstallOfficial
| ErrReadThemesDir.

Definition ThemesDirName : string := "themes".
Definition OfficialThemeName : string := "theme-anheyu".

Definition officialNames : list string :=
  [OfficialThemeName; "安和鱼官方主题"; "安知鱼官方主题"; "官方主题"].

Definition isOfficialTheme (themeName : string) : bool :=
  existsb (fun officialName => String.eqb themeName officialName) officialNames.

(** [Update().Where(UserID(userID), IsCurrent(true)).SetIsCurrent(false)] *)
Definition clear_current_true (userID : Z) (d : list UserInstalledTheme) :=
  map (fun r => if (UserID r =? userID) && IsCurrent r
                then set_IsCurrent false r else r) d.

(** [UpdateOneID(id).SetIsCurrent(false)] *)
Definition unset_current (id : Z) (d : list UserInstalledTheme) :=
  map (fun r => if ID r =? id then set_IsCurrent false r else r) d.

(** [DeleteOneID(id)] *)
Definition delete_row (id : Z) (d : list UserInstalledTheme) :=
  List.filter (fun r => negb (ID r =? id)) d.

(** [Update().Where(UserID(userID), ThemeName(themeName))
    .SetDeployType(DeployTypeSsr)] *)
Definition set_deploy_ssr (userID : Z) (themeName : string)
    (d : list UserInstalledTheme) :=
  map (fun r => if (UserID r =? userID) && String.eqb (ThemeName r) themeName
                then {| ID := ID r; UserID := UserID r; ThemeName := ThemeName r;
                        IsCurrent := IsCurrent r; Deploy := DeployTypeSsr |}
                else r) d.

(** The rows of the user marked current, in the order of the table. *)
Definition current_rows (userID : Z) (d : list UserInstalledTheme) :=
  List.filter (fun r => (UserID r =? userID) && IsCurrent r) d.

Section ServiceRest.
Variable h : Host.
Variable w : World.
Variable c : Catalog.

(** The version, the install time and the market id are columns the
    activation logic never reads; the rows here do not carry them. *)
Definition InstallSSRTheme (userID : Z) (themeName : string)
    (version : string) (marketID : Z) : Op (option catalog_error) :=
  d <- get_db ;;
  if stmt_fails c ExistTheme then ret (Some ErrExistCheck) else
  match find_theme userID themeName d with
  | Some _ =>
      if stmt_fails c UpdateThemeVersion then ret (Some ErrUpdateRecord)
      else ret None
  | None =>
      if stmt_fails c CreateTheme then ret (Some ErrCreateRecord) else
      set_db (d ++ [{| ID := fresh_id c d; UserID := userID;
                       ThemeName := themeName; IsCurrent := false;
                       Deploy := DeployTypeSsr |}]) ;;;
      ret None
  end.

Definition UninstallSSRTheme (userID : Z) (themeName : string)
    : Op (option catalog_error) :=
  d <- get_db ;;
  if stmt_fails c QueryFirstTheme then ret (Some ErrQuerySsr) else
  match find_theme userID themeName d with
  | None => ret None
  | Some theme =>
      if IsCurrent theme then ret (Some ErrUninstallCurrent) else
      if stmt_fails c DeleteTheme then ret (Some ErrDeleteRecord) else
      set_db (delete_row (ID theme) d) ;;;
      ret None
  end.

Definition ClearAllThemeCurrentStatus (userID : Z) : Op (option catalog_error) :=
  d <- get_db ;;
  if stmt_fails c ClearCurrentOfUser then ret (Some ErrClearStatus) else
  set_db (clear_current_true userID d) ;;;
  ret None.

(** The loop [for i := 1; i < len(currentThemes); i++] runs over the tail
    of [currentThemes]; a failed update is logged and the loop goes on. *)
Definition FixThemeCurrentStatus (userID : Z) : Op (option catalog_error) :=
  d <- get_db ;;
  let staticModeActive := static_mode_active w in
  let hasCurrentSSRTheme :=
    if stmt_fails c ExistCurrentSsr then false
    else existsb (fun r => (UserID r =? userID) && IsCurrent r
                           && is_ssr (Deploy r)) d in
  if negb staticModeActive && negb hasCurrentSSRTheme then
    if stmt_fails c ClearCurrentOfUser then ret (Some ErrFixStatus) else
    set_db (clear_current_true userID d) ;;;
    ret None
  else if staticModeActive then
    if stmt_fails c QueryCurrentThemes then ret (Some ErrQueryCurrent) else
    foreach (tl (current_rows userID d)) (fun theme =>
      if update_one_fails c (ID theme) then ret tt
      else d' <- get_db ;; set_db (unset_current (ID theme) d')) ;;;
    ret None
  else ret None.

Definition GetSSRThemeCurrentStatus (userID : Z)
    : Op (gmap string bool + catalog_error) :=
  d <- get_db ;;
  if stmt_fails c QuerySsrThemes then ret (inr ErrQueryStatus) else
  ret (inl (fold_left (fun (m : gmap string bool) theme =>
                         <[ThemeName theme := IsCurrent theme]> m)
                      (List.filter (fun r => (UserID r =? userID)
                                             && is_ssr (Deploy r)) d)
                      ∅)).

(** [validateThemeFiles] *)
Definition validateThemeFiles (themeDir : string) : bool :=
  match os_Stat w (Join themeDir "index.html") with
  | StatNotExist => false
  | _ =>
      match os_Stat w (Join themeDir "static") with
      | StatNotExist => false
      | _ => true
      end
  end.

(** [restoreFromBackup(backupPath, StaticDirName)], when there is a backup:
    it clears the static directory before it copies the backup back. *)
Definition restore_backup (backed_up : bool) : Op unit :=
  if backed_up then emit EvStaticRemove else ret tt.

(** The manager is used on the official branch only.  Of the calls on the
    file system, those that clear, back up or restore the static directory
    are in the trace. *)
Definition SwitchToTheme (userID : Z) (themeName : string)
    (ssrManager : ManagerRef) : Op (option catalog_error) :=
  if isOfficialTheme themeName then
    r <- SwitchToOfficial w userID ssrManager ;;
    ret (match r with Some e => Some (ErrOfficial e) | None => None end)
  else
  d <- get_db ;;
  ok <- db_stmt w QueryTheme ;;
  if negb ok then ret (Some ErrQueryTheme) else
  match find_theme userID themeName d with
  | None => ret (Some ErrThemeNotInstalled)
  | Some theme =>
      let themeDir := Join ThemesDirName themeName in
      if negb (validateThemeFiles themeDir)
      then ret (Some ErrThemeFilesIncomplete) else
      let backed_up := static_mode_active w in
      (if backed_up then emit EvStaticBackup else ret tt) ;;;
      if backed_up && negb (backup_ok h) then ret (Some ErrBackupFailed) else
      emit EvStaticRemove ;;;
      if negb (copy_theme_ok h themeDir) then
        restore_backup backed_up ;;; ret (Some ErrCopyFailed)
      else
      ok <- db_stmt w BeginTx ;;
      if negb ok then ret (Some ErrOpenTx) else
      ok <- db_stmt w TxClearCurrent ;;
      if negb ok then
        emit EvTxRollback ;;; restore_backup backed_up ;;;
        ret (Some ErrUpdateThemeStatus)
      else
      ok <- db_stmt w TxSetCurrent ;;
      if negb ok then
        emit EvTxRollback ;;; restore_backup backed_up ;;;
        ret (Some ErrSetCurrentTheme)
      else
      ok <- db_stmt w TxCommit ;;
      if negb ok then restore_backup backed_up ;;; ret (Some ErrCommitTx) else
      set_db (set_current (ID theme) (clear_current userID d)) ;;;
      db_stmt w CountCurrent ;;;
      (if backed_up then emit EvBackupRemove else ret tt) ;;;
      ret None
  end.

(** [UninstallTheme]: outside static mode a row marked current is not
    taken to be in use; its flag is lowered (a failure of that update is
    logged) and the uninstall goes on.  The result of removing the files is
    logged and otherwise ignored. *)
Definition UninstallTheme (userID : Z) (themeName : string)
    : Op (option catalog_error) :=
  if isOfficialTheme themeName then ret (Some ErrUninstallOfficial) else
  d <- get_db ;;
  if stmt_fails c QueryFirstTheme then ret (Some ErrQueryTheme) else
  match find_theme userID themeName d with
  | None => ret (Some ErrThemeNotInstalled)
  | Some theme =>
      let staticModeActive := static_mode_active w in
      let isReallyCurrentTheme :=
        if staticModeActive then IsCurrent theme else false in
      (if negb staticModeActive && IsCurrent theme then
         if update_one_fails c (ID theme) then ret tt
         else set_db (unset_current (ID theme) d)
       else ret tt) ;;;
      if isReallyCurrentTheme then ret (Some ErrUninstallCurrent) else
      if stmt_fails c DeleteTheme then ret (Some ErrDeleteRecord) else
      d' <- get_db ;;
      set_db (delete_row (ID theme) d') ;;;
      ret None
  end.

(** One turn of the loop of [SyncSSRThemesFromFileSystem]; every failure
    of a statement is logged and the loop goes on. *)
Definition sync_entry (userID : Z) (themesDir : string)
    (entry : string * bool) : Op unit :=
  if negb (snd entry) then ret tt else
  let themeName := fst entry in
  let themePath := Join themesDir themeName in
  match os_Stat w (Join themePath "server.js") with
  | StatNotExist => ret tt
  | _ =>
      d <- get_db ;;
      if stmt_fails_for c ExistTheme themeName then ret tt else
      match find_theme userID themeName d with
      | Some _ =>
          if stmt_fails_for c UpdateDeployType themeName then ret tt
          else set_db (set_deploy_ssr userID themeName d)
      | None =>
          if stmt_fails_for c CreateTheme themeName then ret tt else
          set_db (d ++ [{| ID := fresh_id c d; UserID := userID;
                           ThemeName := themeName; IsCurrent := false;
                           Deploy := DeployTypeSsr |}])
      end
  end.

Definition SyncSSRThemesFromFileSystem (userID : Z) (themesDir : string)
    : Op (option catalog_error) :=
  match os_ReadDir h themesDir with
  | DirNotExist => ret None
  | DirOtherError => ret (Some ErrReadThemesDir)
  | DirEntries entries =>
      foreach entries (sync_entry userID themesDir) ;;;
      ret None
  end.

End ServiceRest.

(** ** Path helpers of the router (package router) *)

Definition adminPrefixes : list string := ["/admin"; "/login"].

Definition isAdminPath (path : string) : bool :=
  existsb (fun prefix =>
             String.eqb path prefix || String.prefix (prefix ++ "/")%string path)
          adminPrefixes.

(** [IsStaticModeActive()] is read from the world. *)
Definition shouldUseExternalTheme (w : World) (path : string) : bool :=
  if isAdminPath path then false else static_mode_active w.

(** ** More hosts and catalogs *)

(** A file system on which removals succeed and /themes holds the
    directory theme-a and the file notes.txt. *)
Definition host_a : Host := {|
  os_RemoveAll := fun _ => true;
  stat_ModTime := fun _ => 0;
  read_version := fun _ => Some "1.0.0";
  os_ReadDir := fun _ => DirEntries [("theme-a", true); ("notes.txt", false)];
  backup_ok := true;
  copy_theme_ok := fun _ => true
|}.

(** A database on which every statement succeeds; a new row gets an ID
    above all the others. *)
Definition catalog_ok : Catalog := {|
  stmt_fails := fun _ => false;
  update_one_fails := fun _ => false;
  stmt_fails_for := fun _ _ => false;
  fresh_id := fun d => 1 + fold_right Z.max 0 (map ID d)
|}.

(** The host of [world_a] with a static directory in place; every file
    asked for exists. *)
Definition world_static : World := {|
  os_Stat := fun _ => StatOk;
  cmd_Start := fun _ _ => Some 4242;
  proc_Signal := fun _ => true;
  proc_Wait := fun _ => Some 1000000000;
  time_Now := 0;
  map_range := fun m => map_to_list m;
  exits_meanwhile := [];
  db_fails := fun _ => false;
  static_mode_active := true
|}.

(** Two rows of user 1, the SSR theme-a and the static theme-b, over an
    empty registry. *)
Definition rows_ab (a b : bool) : list UserInstalledTheme :=
  [ {| ID := 1; UserID := 1; ThemeName := "theme-a"; IsCurrent := a;
       Deploy := DeployTypeSsr |};
    {| ID := 2; UserID := 1; ThemeName := "theme-b"; IsCurrent := b;
       Deploy := DeployTypeStandard |} ].

Definition state_ab (a b : bool) : State :=
  {| mgr := {| themesDir := "/themes"; processes := ∅; basePort := 3000 |};
     db := rows_ab a b |}.

(** ** Vocabulary of the properties *)

(** What [Stop] does to a live entry: the calls on the process. *)
Definition stop_calls (w : World) (pid : Z) : list event :=
  [EvSignalTerm pid]
  ++ (if proc_Signal w pid then [] else [EvKill pid])
  ++ [EvWaitTimeout pid (5 * Second)]
  ++ (match proc_Wait w pid with
      | Some d => if d <? 5 * Second then [] else [EvKill pid]
      | None => [EvKill pid]
      end).

(** The events of a [Stop]: the lock and the calls that end a process. *)
Definition stop_event (e : event) : bool :=
  match e with
  | EvLock | EvUnlock | EvSignalTerm _ | EvKill _ | EvWaitTimeout _ _ => true
  | _ => false
  end.

(** Nothing is spawned in a trace. *)
Definition no_spawn (t : list event) : Prop :=
  forall dir p, EvSpawn dir p ∉ t.

(** The reference is not nil. *)
Definition is_ptr (r : ManagerRef) : bool :=
  match r with ManagerPtr => true | NilManager => false end.

(** The timed event is an HTTP probe. *)
Definition is_probe (te : Z * event) : bool :=
  match snd te with EvHttpGet _ => true | _ => false end.

(** Number of HTTP probes among the events of the prober. *)
Definition probes (evs : list (Z * event)) : nat :=
  List.length (List.filter is_probe evs).

(** Durations cannot be negative. *)
Definition causal (env : nat -> tick) : Prop :=
  forall k, 0 <= tick_lock_wait (env k) /\ 0 <= tick_probe_time (env k)
            /\ 0 <= tick_oversleep (env k).

(** The registry lock is free when the prober asks for it, a probe takes no
    longer than the timeout of its HTTP client, and [time.Sleep] sleeps for
    exactly the interval. *)
Definition punctual (env : nat -> tick) : Prop :=
  forall k, tick_lock_wait (env k) = 0
            /\ 0 <= tick_probe_time (env k) <= httpTimeout
            /\ tick_oversleep (env k) = 0.

(** The prober is granted the registry lock within [lockSlack], a probe
    takes no longer than the timeout of its HTTP client, and [time.Sleep]
    overshoots the interval by no more than [sleepSlack]. *)
Definition timely (lockSlack sleepSlack : Z) (env : nat -> tick) : Prop :=
  forall k, 0 <= tick_lock_wait (env k) <= lockSlack
            /\ 0 <= tick_probe_time (env k) <= httpTimeout
            /\ 0 <= tick_oversleep (env k) <= sleepSlack.

(** Taking or releasing the registry lock. *)
Definition lock_event (e : event) : bool :=
  match e with
  | EvLock | EvUnlock | EvRLock | EvRUnlock => true
  | _ => false
  end.

(** Whether the lock is held at the end of a trace. *)
Fixpoint held_after (held : bool) (t : list event) : bool :=
  match t with
  | [] => held
  | EvLock :: t' | EvRLock :: t' => held_after true t'
  | EvUnlock :: t' | EvRUnlock :: t' => held_after false t'
  | _ :: t' => held_after held t'
  end.

(** The write lock is taken first and released last, if at all, and
    everything else the operation does happens in between. *)
Definition holds_lock_throughout (t : list event) (returned : bool) : Prop :=
  exists body,
    Forall (fun e => lock_event e = false) body
    /\ t = EvLock :: body ++ (if returned then [EvUnlock] else []).

(** A directory entry that [ListInstalled] keeps: a directory in which
    [os.Stat] of server.js succeeds. *)
Definition listable (w : World) (dir : string) (entry : string * bool) : bool :=
  snd entry
  && match os_Stat w (Join (Join dir (fst entry)) "server.js") with
     | StatOk => true
     | _ => false
     end.

(** What one turn of the synchronisation does to the table. *)
Definition sync_step (w : World) (c : Catalog) (userID : Z) (themesDir : string)
    (d : list UserInstalledTheme) (entry : string * bool)
    : list UserInstalledTheme :=
  if negb (snd entry) then d else
  match os_Stat w (Join (Join themesDir (fst entry)) "server.js") with
  | StatNotExist => d
  | _ =>
      if stmt_fails_for c ExistTheme (fst entry) then d else
      match find_theme userID (fst entry) d with
      | Some _ =>
          if stmt_fails_for c UpdateDeployType (fst entry) then d
          else set_deploy_ssr userID (fst entry) d
      | None =>
          if stmt_fails_for c CreateTheme (fst entry) then d else
          d ++ [{| ID := fresh_id c d; UserID := userID;
                   ThemeName := fst entry; IsCurrent := false;
                   Deploy := DeployTypeSsr |}]
      end
  end.

(** The user has a row of that name, and each of their rows of that name
    is an SSR row. *)
Definition registered_as_ssr (userID : Z) (themeName : string)
    (d : list UserInstalledTheme) : Prop :=
  (exists theme, find_theme userID themeName d = Some theme)
  /\ forall r, In r d -> UserID r = userID -> ThemeName r = themeName ->
               Deploy r = DeployTypeSsr.

(** The columns of a row apart from the deploy type. *)
Definition row_key (r : UserInstalledTheme) : Z * Z * string * bool :=
  (ID r, UserID r, ThemeName r, IsCurrent r).

(** ** Concrete hosts and states *)

(** A host on which theme-a is installed under /themes, every spawn gives
    process 4242, and that process exits one second after the termination
    signal.  The database never fails. *)
Definition world_a : World := {|
  os_Stat := fun path =>
    if String.eqb path "/themes/theme-a/server.js" then StatOk else StatNotExist;
  cmd_Start := fun _ _ => Some 4242;
  proc_Signal := fun _ => true;
  proc_Wait := fun _ => Some Second;
  time_Now := 0;
  map_range := fun m => map_to_list m;
  exits_meanwhile := [];
  db_fails := fun _ => false;
  static_mode_active := false
|}.

(** The same host, with a process that ignores the termination signal. *)
Definition world_stubborn : World := {|
  os_Stat := os_Stat world_a;
  cmd_Start := cmd_Start world_a;
  proc_Signal := proc_Signal world_a;
  proc_Wait := fun _ => None;
  time_Now := time_Now world_a;
  map_range := map_range world_a;
  exits_meanwhile := [];
  db_fails := db_fails world_a;
  static_mode_active := false
|}.

(** The same host, with a database whose commits fail. *)
Definition world_commit_fails : World := {|
  os_Stat := os_Stat world_a;
  cmd_Start := cmd_Start world_a;
  proc_Signal := proc_Signal world_a;
  proc_Wait := proc_Wait world_a;
  time_Now := time_Now world_a;
  map_range := map_range world_a;
  exits_meanwhile := [];
  db_fails := fun stmt => match stmt with TxCommit => true | _ => false end;
  static_mode_active := false
|}.

(** The same host, on which no process can be spawned. *)
Definition world_spawn_fails : World := {|
  os_Stat := os_Stat world_a;
  cmd_Start := fun _ _ => None;
  proc_Signal := proc_Signal world_a;
  proc_Wait := proc_Wait world_a;
  time_Now := time_Now world_a;
  map_range := map_range world_a;
  exits_meanwhile := [];
  db_fails := db_fails world_a;
  static_mode_active := false
|}.

(** The same host, on which theme-a exits by itself while a switch is
    stopping the other themes, and cannot be spawned again. *)
Definition world_exit_then_spawn_fails : World := {|
  os_Stat := os_Stat world_a;
  cmd_Start := fun _ _ => None;
  proc_Signal := proc_Signal world_a;
  proc_Wait := proc_Wait world_a;
  time_Now := time_Now world_a;
  map_range := map_range world_a;
  exits_meanwhile := ["theme-a"];
  db_fails := db_fails world_a;
  static_mode_active := false
|}.

Definition theme_a_running : runningTheme :=
  {| cmd := {| Process := Some 4242 |}; port := 3001; startedAt := 0 |}.

Definition row_a (current : bool) : UserInstalledTheme :=
  {| ID := 1; UserID := 1; ThemeName := "theme-a"; IsCurrent := current;
     Deploy := DeployTypeSsr |}.

Definition state_of (ps : gmap string runningTheme) (current : bool) : State :=
  {| mgr := {| themesDir := "/themes"; processes := ps; basePort := 3000 |};
     db := [row_a current] |}.

(** theme-a installed, not current, not running *)
Definition state_idle : State := state_of ∅ false.
(** theme-a running on port 3001 while no theme is marked current *)
Definition state_running_not_current : State :=
  state_of {[ "theme-a" := theme_a_running ]} false.
(** theme-a marked current and running *)
Definition state_active : State :=
  state_of {[ "theme-a" := theme_a_running ]} true.
(** theme-a marked current, with no registry entry *)
Definition state_current_not_running : State := state_of ∅ true.

(** A runtime that never answers while the registry is busy: the prober
    waits 4 seconds for the lock on every turn, and every probe runs into
    the 2 seconds of the HTTP client. *)
Definition env_contended : nat -> tick := fun _ =>
  {| tick_lock_wait := 4000000000;
     tick_processes := {[ "theme-a" := theme_a_running ]};
     tick_probe_time := 2000000000;
     tick_probe_err := true;
     tick_oversleep := 0 |}.

(** A runtime that never answers: every probe fails after 1.9 seconds. *)
Definition env_slow : nat -> tick := fun _ =>
  {| tick_lock_wait := 0;
     tick_processes := {[ "theme-a" := theme_a_running ]};
     tick_probe_time := 1900000000;
     tick_probe_err := true;
     tick_oversleep := 0 |}.

(** * Properties *)

Ltac run_op :=
  unfold locked, rlocked, bind, ret, emit, block_forever, get_processes,
    get_themesDir, set_processes, get_db, set_db; simpl.

(** ** The manager, one call at a time *)

Lemma live_Some_true (o : option runningTheme) :
  live o = true <-> exists rt pid, o = Some rt /\ Process (cmd rt) = Some pid.
Proof.
  unfold live. split.
  - destruct o as [rt|]; [|discriminate].
    destruct (Process (cmd rt)) as [pid|] eqn:E; [|discriminate].
    intros _. by exists rt, pid.
  - intros (rt & pid & -> & ->). reflexivity.
Qed.

Lemma Start_unfold (w : World) (themeName : string) (port : Z) (s : State) :
  Start w themeName port s =
  let ps := processes (mgr s) in
  let themePath := Join (themesDir (mgr s)) themeName in
  if live (ps !! themeName) then Ret (Some ErrAlreadyRunning) s [EvLock; EvUnlock]
  else
    match os_Stat w (serverJS_path s themeName) with
    | StatNotExist =>
        Ret (Some ErrNotInstalled) s
            [EvLock; EvStat (serverJS_path s themeName); EvUnlock]
    | _ =>
        match cmd_Start w themePath port with
        | None =>
            Ret (Some ErrSpawnFailed) s
                [EvLock; EvStat (serverJS_path s themeName);
                 EvOpenFile (Join themePath "ssr.log");
                 EvSpawn themePath port; EvUnlock]
        | Some pid =>
            Ret None
                (with_processes
                   (<[themeName := {| cmd := {| Process := Some pid |};
                                      port := port;
                                      startedAt := time_Now w |}]> ps) s)
                [EvLock; EvStat (serverJS_path s themeName);
                 EvOpenFile (Join themePath "ssr.log");
                 EvSpawn themePath port; EvGoReaper themeName pid;
                 EvGoWaitForReady themeName port; EvUnlock]
        end
    end.
Proof.
  unfold Start, serverJS_path. run_op.
  destruct (live (processes (mgr s) !! themeName)); simpl; [reflexivity|].
  destruct (os_Stat w _); simpl; try reflexivity;
    destruct (cmd_Start w _ port); reflexivity.
Qed.

Lemma Stop_unfold (w : World) (themeName : string) (s : State) :
  Stop w themeName s =
  match processes (mgr s) !! themeName with
  | Some rt =>
      match Process (cmd rt) with
      | Some pid =>
          Ret None (with_processes (delete themeName (processes (mgr s))) s)
              (EvLock :: stop_calls w pid ++ [EvUnlock])
      | None => Ret (Some ErrNotRunning) s [EvLock; EvUnlock]
      end
  | None => Ret (Some ErrNotRunning) s [EvLock; EvUnlock]
  end.
Proof.
  unfold Stop, stop_calls. run_op.
  destruct (processes (mgr s) !! themeName) as [rt|]; simpl; [|reflexivity].
  destruct (Process (cmd rt)) as [pid|]; simpl; [|reflexivity].
  destruct (proc_Signal w pid); simpl;
    destruct (proc_Wait w pid) as [d|]; simpl; try reflexivity;
    destruct (d <? 5 * Second); reflexivity.
Qed.

Lemma IsRunning_unfold (themeName : string) (s : State) :
  IsRunning themeName s =
  Ret (live (processes (mgr s) !! themeName)) s [EvRLock; EvRUnlock].
Proof. reflexivity. Qed.

Lemma GetPort_unfold (themeName : string) (s : State) :
  GetPort themeName s =
  Ret (match processes (mgr s) !! themeName with
       | Some rt => if live (Some rt) then port rt else 0
       | None => 0
       end) s [EvRLock; EvRUnlock].
Proof.
  unfold GetPort. run_op.
  destruct (processes (mgr s) !! themeName) as [rt|]; simpl; [|reflexivity].
  destruct (live (Some rt)); reflexivity.
Qed.

(** C4. [Start] answers "theme already running" exactly when the registry
    holds an entry for the name whose process handle is not nil, and
    "theme not installed or server.js not found" exactly when there is no
    such entry and [os.Stat] reports that server.js does not exist.  A
    successful [Start] records one entry under the name and leaves every
    other name alone, and a second [Start] of the same name, on any port,
    then fails with "theme already running" and changes nothing. *)
Theorem Start_already_running_or_not_installed
    (w : World) (s : State) (themeName : string) (port : Z) :
  let o := Start w themeName port s in
  (result o = Some (Some ErrAlreadyRunning)
     <-> live (processes (mgr s) !! themeName) = true)
  /\ (result o = Some (Some ErrNotInstalled)
     <-> live (processes (mgr s) !! themeName) = false
         /\ os_Stat w (serverJS_path s themeName) = StatNotExist)
  /\ (result o = Some None ->
        (exists pid,
           processes (mgr (final o)) !! themeName =
             Some {| cmd := {| Process := Some pid |}; port := port;
                     startedAt := time_Now w |})
        /\ (forall other, other <> themeName ->
              processes (mgr (final o)) !! other = processes (mgr s) !! other)
        /\ forall port',
             Start w themeName port' (final o) =
               Ret (Some ErrAlreadyRunning) (final o) [EvLock; EvUnlock]).
Proof.
  intros o. subst o. rewrite Start_unfold. cbv zeta.
  destruct (live (processes (mgr s) !! themeName)) eqn:Hlive.
  { simpl. intuition congruence. }
  destruct (os_Stat w (serverJS_path s themeName)) eqn:Hstat;
    try (simpl; intuition congruence).
  all: destruct (cmd_Start w (Join (themesDir (mgr s)) themeName) port)
         as [pid|] eqn:Hspawn; simpl; try (intuition congruence).
  all: split; [intuition congruence|]; split; [intuition congruence|].
  all: intros _; split; [exists pid; apply lookup_insert_eq|].
  all: split; [intros other Hne; by apply lookup_insert_ne|].
  all: intros port'; rewrite Start_unfold; cbv zeta; simpl;
       rewrite lookup_insert_eq; reflexivity.
Qed.

(** C5. [Stop] on a name without a live entry returns "theme not running",
    leaves the state as it was and touches no process: its only events are
    taking and releasing the lock.  On a live entry it returns nil, whether
    the process went away in time or had to be killed.  It always returns,
    and afterwards [IsRunning] is false and [GetPort] is 0. *)
Theorem Stop_not_running_or_stopped (w : World) (s : State) (themeName : string) :
  let o := Stop w themeName s in
  (if live (processes (mgr s) !! themeName)
   then result o = Some None
   else o = Ret (Some ErrNotRunning) s [EvLock; EvUnlock]
        /\ List.filter process_action (events o) = [])
  /\ (exists r, result o = Some r)
  /\ result (IsRunning themeName (final o)) = Some false
  /\ result (GetPort themeName (final o)) = Some 0.
Proof.
  intros o. subst o. rewrite Stop_unfold.
  rewrite IsRunning_unfold, GetPort_unfold. unfold live.
  destruct (processes (mgr s) !! themeName) as [rt|] eqn:Hrt; simpl.
  - destruct (Process (cmd rt)) as [pid|] eqn:Hp; simpl.
    + rewrite lookup_delete_eq. eauto.
    + rewrite Hrt, Hp. simpl. eauto 10.
  - rewrite Hrt. eauto 10.
Qed.

Lemma range_elem (w : World) (ps : gmap string runningTheme)
    (name : string) (rt : runningTheme) :
  faithful_range w -> (name, rt) ∈ map_range w ps <-> ps !! name = Some rt.
Proof.
  intros Hr. rewrite (Hr ps). apply elem_of_map_to_list.
Qed.

Lemma ListRunning_unfold (w : World) (s : State) :
  ListRunning w s =
  Ret (map fst (filter (fun nr => live (Some (snd nr)) = true)
                       (map_range w (processes (mgr s))))) s
      [EvRLock; EvRUnlock].
Proof. reflexivity. Qed.

Lemma ListRunning_elem (w : World) (s : State) (name : string) :
  faithful_range w ->
  name ∈ map fst (filter (fun nr => live (Some (snd nr)) = true)
                         (map_range w (processes (mgr s))))
  <-> live (processes (mgr s) !! name) = true.
Proof.
  intros Hr. change (map fst ?l) with (fst <$> l).
  rewrite list_elem_of_fmap. split.
  - intros ([n rt] & -> & [Hl Hin]%list_elem_of_filter). simpl in *.
    apply (range_elem w) in Hin; [|done]. by rewrite Hin.
  - intros Hl. destruct (processes (mgr s) !! name) as [rt|] eqn:E;
      [|discriminate].
    exists (name, rt). split; [done|]. apply list_elem_of_filter.
    split; [done|]. by apply range_elem.
Qed.

Lemma GetRunningTheme_unfold (w : World) (s : State) :
  GetRunningTheme w s =
  Ret (match filter (fun nr => live (Some (snd nr)) = true)
                    (map_range w (processes (mgr s))) with
       | (name, rt) :: _ =>
           Some {| Name := name; Status := StatusRunning; Port := port rt |}
       | [] => None
       end) s [EvRLock; EvRUnlock].
Proof.
  unfold GetRunningTheme. run_op.
  destruct (filter _ _) as [|[name rt] l]; reflexivity.
Qed.

Lemma GetRunningTheme_live (w : World) (s : State) (ti : ThemeInfo) :
  faithful_range w ->
  result (GetRunningTheme w s) = Some (Some ti) ->
  exists rt, processes (mgr s) !! Name ti = Some rt
             /\ live (Some rt) = true /\ Port ti = port rt.
Proof.
  intros Hr. rewrite GetRunningTheme_unfold. simpl.
  destruct (filter _ _) as [|[name rt] l] eqn:E; [discriminate|].
  intros [= <-]. simpl. exists rt.
  assert (Hin : (name, rt) ∈ filter (fun nr => live (Some (snd nr)) = true)
                               (map_range w (processes (mgr s)))).
  { rewrite E. apply elem_of_cons. by left. }
  apply list_elem_of_filter in Hin as [Hl Hin].
  apply (range_elem w) in Hin; done.
Qed.

(** ** The proxy middleware *)

(** The exclusion set, spelled out: the five well-known files, and every
    path that begins with one of the seven reserved prefixes. *)
Lemma shouldSkipSSRProxy_spec (path : string) :
  shouldSkipSSRProxy path = true
  <-> path ∈ exactPaths
      \/ exists prefix, prefix ∈ skipPrefixes /\ String.prefix prefix path = true.
Proof.
  unfold shouldSkipSSRProxy.
  destruct (existsb _ exactPaths) eqn:E1.
  - split; [intros _|done]. left.
    apply existsb_exists in E1 as (x & Hin & Heq).
    apply String.eqb_eq in Heq. subst. by apply list_elem_of_In.
  - destruct (existsb _ skipPrefixes) eqn:E2.
    + split; [intros _|done]. right.
      apply existsb_exists in E2 as (x & Hin & Hp).
      exists x. split; [by apply list_elem_of_In|done].
    + split; [discriminate|]. intros [Hin|(x & Hin & Hp)].
      * assert (existsb (fun exact => String.eqb path exact) exactPaths = true)
          as Hc; [|congruence].
        apply existsb_exists. exists path.
        split; [by apply list_elem_of_In|apply String.eqb_refl].
      * assert (existsb (fun prefix => String.prefix prefix path) skipPrefixes
                = true) as Hc; [|congruence].
        apply existsb_exists. exists x. split; [by apply list_elem_of_In|done].
Qed.

(** C8. A request whose path is in the exclusion set is handed to the next
    handler: whatever the manager, the checker and the registry say, the
    middleware answers [Next], performs no event (in particular no proxying)
    and leaves the state alone. *)
Theorem excluded_path_never_proxied (w : World) (ssrManager : ManagerRef)
    (ssrThemeChecker : option (Op (string * bool))) (path : string) (s : State) :
  shouldSkipSSRProxy path = true ->
  SSRProxyMiddleware w ssrManager ssrThemeChecker path s = Ret Next s [].
Proof.
  intros Hskip. unfold SSRProxyMiddleware.
  destruct ssrManager; [reflexivity|]. rewrite Hskip. reflexivity.
Qed.

Lemma serve_Proxy (rt : option ThemeInfo) (s : State) (ti : ThemeInfo) :
  result (serve rt s) = Some (Proxy ti) -> rt = Some ti.
Proof.
  unfold serve. destruct rt as [t|]; [|discriminate].
  destruct (url_Parse_ok (Port t)); [|discriminate].
  run_op. by intros [= ->].
Qed.

Lemma result_bind {A B} (m : Op A) (f : A -> Op B) (s : State) (b : B) :
  result (bind m f s) = Some b ->
  exists a s1 t1, m s = Ret a s1 t1 /\ result (f a s1) = Some b.
Proof.
  unfold bind. destruct (m s) as [a s1 t1|]; [|discriminate].
  intros H. exists a, s1, t1. split; [done|].
  destruct (f a s1); [done|discriminate].
Qed.

(** A forwarded request, with a checker installed: the checker named the
    theme, and the registry had a live entry for it. *)
Lemma forwarded_with_checker (w : World) (checker : Op (string * bool))
    (path : string) (s : State) (ti : ThemeInfo) :
  result (SSRProxyMiddleware w ManagerPtr (Some checker) path s)
    = Some (Proxy ti) ->
  shouldSkipSSRProxy path = false
  /\ exists s1 rt t1,
       checker s = Ret (Name ti, true) s1 t1
       /\ processes (mgr s1) !! Name ti = Some rt
       /\ live (Some rt) = true
       /\ Port ti = port rt.
Proof.
  unfold SSRProxyMiddleware.
  destruct (shouldSkipSSRProxy path); [discriminate|].
  intros H. split; [done|].
  apply result_bind in H as ([name b] & s1 & t1 & Hc & H).
  cbn [fst snd] in H.
  destruct b; cbn [negb] in H; [|discriminate].
  apply result_bind in H as (running & s2 & t2 & Hrun & H).
  rewrite IsRunning_unfold in Hrun. injection Hrun as <- <- <-.
  destruct (live (processes (mgr s1) !! name)) eqn:Hl.
  - apply result_bind in H as (p & s3 & t3 & Hp & H).
    rewrite GetPort_unfold in Hp. injection Hp as <- <- <-.
    apply serve_Proxy in H. injection H as <-. simpl.
    destruct (processes (mgr s1) !! name) as [rt|] eqn:E; [|discriminate].
    exists s1, rt, t1. rewrite Hl. eauto.
  - apply serve_Proxy in H. discriminate.
Qed.

(** A forwarded request, with no checker installed: the target is a live
    entry of the registry. *)
Lemma forwarded_without_checker (w : World) (path : string) (s : State)
    (ti : ThemeInfo) :
  faithful_range w ->
  result (SSRProxyMiddleware w ManagerPtr None path s) = Some (Proxy ti) ->
  shouldSkipSSRProxy path = false
  /\ exists rt, processes (mgr s) !! Name ti = Some rt
                /\ live (Some rt) = true /\ Port ti = port rt.
Proof.
  intros Hr. unfold SSRProxyMiddleware.
  destruct (shouldSkipSSRProxy path); [discriminate|].
  intros H. split; [done|].
  apply result_bind in H as (rt & s1 & t1 & Hg & H).
  apply serve_Proxy in H. subst rt.
  apply (GetRunningTheme_live w s ti Hr). by rewrite Hg.
Qed.

(** C1, as the code has it.  The middleware forwards a request only when
    its path is outside the exclusion set and the registry holds a live
    entry for the theme, to the port of that entry.  When a checker has been
    installed, the checker must also have named that theme with
    [shouldProxy = true]; without a checker the registry alone decides. *)
Theorem proxy_only_to_live_theme (w : World) (ssrManager : ManagerRef)
    (ssrThemeChecker : option (Op (string * bool))) (path : string)
    (s : State) (ti : ThemeInfo) :
  faithful_range w ->
  result (SSRProxyMiddleware w ssrManager ssrThemeChecker path s)
    = Some (Proxy ti) ->
  ssrManager = ManagerPtr
  /\ shouldSkipSSRProxy path = false
  /\ exists s1 rt,
       match ssrThemeChecker with
       | Some checker => exists t1, checker s = Ret (Name ti, true) s1 t1
       | None => s1 = s
       end
       /\ processes (mgr s1) !! Name ti = Some rt
       /\ live (Some rt) = true
       /\ Port ti = port rt.
Proof.
  intros Hr H.
  destruct ssrManager; [discriminate|]. split; [done|].
  destruct ssrThemeChecker as [checker|].
  - apply forwarded_with_checker in H
      as (Hskip & s1 & rt & t1 & Hc & Hrt & Hl & Hp).
    split; [done|]. exists s1, rt. eauto.
  - apply forwarded_without_checker in H as (Hskip & rt & Hrt & Hl & Hp);
      [|done].
    split; [done|]. exists s, rt. eauto.
Qed.

Lemma GetCurrentSSRThemeName_true (w : World) (userID : Z) (s s1 : State)
    (name : string) (t1 : list event) :
  GetCurrentSSRThemeName w userID s = Ret (name, true) s1 t1 ->
  s1 = s
  /\ exists row, row ∈ db s /\ UserID row = userID /\ ThemeName row = name
                 /\ IsCurrent row = true /\ Deploy row = DeployTypeSsr.
Proof.
  unfold GetCurrentSSRThemeName, db_stmt. run_op.
  destruct (db_fails w QueryCurrentSsr); simpl; [discriminate|].
  destruct (List.find _ (db s)) as [row|] eqn:Hfind; simpl; [|discriminate].
  intros [= <- <- _]. split; [done|].
  apply List.find_some in Hfind as [Hin Hrow].
  apply andb_prop in Hrow as [Hrow Hssr].
  apply andb_prop in Hrow as [Huid Hcur].
  exists row. split; [by apply list_elem_of_In|].
  split; [by apply Z.eqb_eq|]. split; [done|]. split; [done|].
  by destruct (Deploy row).
Qed.

(** With the catalog lookup as the checker, the two sources of C1 are the
    stored flag and the registry: a forwarded request has a row of the user
    marked current for the theme, and a live registry entry for it. *)
Corollary proxy_needs_current_row_and_live_entry (w : World) (userID : Z)
    (path : string) (s : State) (ti : ThemeInfo) :
  faithful_range w ->
  result (SSRProxyMiddleware w ManagerPtr
            (Some (GetCurrentSSRThemeName w userID)) path s)
    = Some (Proxy ti) ->
  (exists row, row ∈ db s /\ UserID row = userID /\ ThemeName row = Name ti
               /\ IsCurrent row = true /\ Deploy row = DeployTypeSsr)
  /\ live (processes (mgr s) !! Name ti) = true.
Proof.
  intros Hr H.
  apply forwarded_with_checker in H as (_ & s1 & rt & t1 & Hc & Hrt & Hl & _).
  apply GetCurrentSSRThemeName_true in Hc as [-> Hrow].
  split; [done|]. by rewrite Hrt.
Qed.


(** ** Sweeps of [Stop] over a list of names *)

Lemma stop_calls_stop_event (w : World) (pid : Z) :
  Forall (fun e => stop_event e = true) (stop_calls w pid).
Proof.
  unfold stop_calls.
  destruct (proc_Signal w pid), (proc_Wait w pid) as [d|];
    try destruct (d <? 5 * Second); simpl; repeat constructor.
Qed.

Lemma Stop_outcome (w : World) (name : string) (s : State) :
  exists r t,
    Stop w name s =
      Ret r (if live (processes (mgr s) !! name)
             then with_processes (delete name (processes (mgr s))) s
             else s) t
    /\ Forall (fun e => stop_event e = true) t
    /\ (forall rt pid, processes (mgr s) !! name = Some rt ->
          Process (cmd rt) = Some pid -> r = None /\ EvSignalTerm pid ∈ t).
Proof.
  rewrite Stop_unfold. unfold live.
  destruct (processes (mgr s) !! name) as [rt|] eqn:E.
  - destruct (Process (cmd rt)) as [pid|] eqn:Ep.
    + eexists _, _. split; [reflexivity|]. split.
      * constructor; [done|]. apply Forall_app. split.
        -- apply stop_calls_stop_event.
        -- by repeat constructor.
      * intros rt' pid' [= <-] Hp. rewrite Ep in Hp. injection Hp as <-.
        split; [done|]. apply elem_of_cons. right. apply elem_of_app. left.
        unfold stop_calls. apply elem_of_app. left. apply elem_of_cons. by left.
    + eexists _, _. split; [reflexivity|]. split; [by repeat constructor|].
      intros rt' pid' [= <-] Hp. congruence.
  - eexists _, _. split; [reflexivity|]. split; [by repeat constructor|].
    intros; discriminate.
Qed.

Lemma sweep_outcome (w : World) (sel : string -> bool) (l : list string) :
  forall s : State,
  exists s' t,
    foreach l (fun name => if sel name then Stop w name ;;; ret tt else ret tt) s
      = Ret tt s' t
    /\ db s' = db s
    /\ themesDir (mgr s') = themesDir (mgr s)
    /\ (forall n, processes (mgr s') !! n =
          if live (processes (mgr s) !! n) && sel n && bool_decide (n ∈ l)
          then None else processes (mgr s) !! n)
    /\ Forall (fun e => stop_event e = true) t.
Proof.
  induction l as [|x l IH]; intros s.
  - exists s, []. split; [reflexivity|]. repeat split; try done.
    intros n. rewrite andb_false_r. reflexivity.
  - cbn [foreach]. unfold bind at 1.
    destruct (sel x) eqn:Hsel.
    + destruct (Stop_outcome w x s) as (r & t1 & HS & Ht1 & _).
      unfold bind at 1. rewrite HS. cbn [ret].
      set (s1 := if live (processes (mgr s) !! x)
                 then with_processes (delete x (processes (mgr s))) s else s).
      destruct (IH s1) as (s' & t2 & HF & Hdb & Hdir & Hps & Ht2).
      rewrite HF. exists s', ((t1 ++ []) ++ t2).
      split; [reflexivity|].
      assert (Hs1 : db s1 = db s /\ themesDir (mgr s1) = themesDir (mgr s)).
      { subst s1. destruct (live _); done. }
      destruct Hs1 as [Hdb1 Hdir1].
      split; [congruence|]. split; [congruence|]. split.
      * intros n. rewrite Hps. subst s1.
        destruct (decide (n = x)) as [->|Hne].
        -- rewrite Hsel. rewrite (bool_decide_eq_true_2 (x ∈ x :: l));
             [|apply elem_of_cons; by left].
           destruct (live (processes (mgr s) !! x)) eqn:Hl; simpl.
           ++ rewrite lookup_delete_eq. unfold live at 1. reflexivity.
           ++ rewrite Hl. reflexivity.
        -- assert (Hin : bool_decide (n ∈ x :: l) = bool_decide (n ∈ l)).
           { apply bool_decide_ext. rewrite elem_of_cons. tauto. }
           rewrite Hin.
           destruct (live (processes (mgr s) !! x)); simpl;
             rewrite ?lookup_delete_ne by done; reflexivity.
      * rewrite app_nil_r. apply Forall_app. done.
    + cbn [ret].
      destruct (IH s) as (s' & t2 & HF & Hdb & Hdir & Hps & Ht2).
      rewrite HF. exists s', ([] ++ t2). split; [reflexivity|].
      repeat split; try done.
      intros n. rewrite Hps.
      destruct (decide (n = x)) as [->|Hne].
      * rewrite Hsel, !andb_false_r. reflexivity.
      * assert (Hin : bool_decide (n ∈ x :: l) = bool_decide (n ∈ l)).
        { apply bool_decide_ext. rewrite elem_of_cons. tauto. }
        by rewrite Hin.
Qed.

Lemma foldr_delete_lookup (l : list string) (ps : gmap string runningTheme)
    (n : string) :
  foldr (fun name ps => delete name ps) ps l !! n =
  if bool_decide (n ∈ l) then None else ps !! n.
Proof.
  induction l as [|x l IH]; simpl; [reflexivity|].
  rewrite lookup_delete. destruct (decide (x = n)) as [->|Hne].
  - rewrite bool_decide_eq_true_2; [done|]. apply elem_of_cons. by left.
  - rewrite IH. apply (f_equal (fun b : bool => if b then None else ps !! n)).
    apply bool_decide_ext. rewrite elem_of_cons. split; [tauto|].
    intros [->|?]; [done|tauto].
Qed.

Lemma live_None : live None = false.
Proof. reflexivity. Qed.

(** Listing the running themes, letting some of them exit, and stopping
    those listed that pass [sel]: nothing that [sel] accepts is live
    afterwards, the others are as the exits left them. *)
Lemma list_then_sweep (w : World) (sel : string -> bool) (s : State) :
  exists s' t,
    (runningThemes <- ListRunning w ;;
     meanwhile w ;;;
     foreach runningThemes
       (fun name => if sel name then Stop w name ;;; ret tt else ret tt)) s
      = Ret tt s' t
    /\ db s' = db s
    /\ themesDir (mgr s') = themesDir (mgr s)
    /\ (faithful_range w -> forall n,
          processes (mgr s') !! n =
            if bool_decide (n ∈ exits_meanwhile w) then None
            else if live (processes (mgr s) !! n) && sel n then None
            else processes (mgr s) !! n)
    /\ (forall n, sel n = false ->
          processes (mgr s') !! n =
            if bool_decide (n ∈ exits_meanwhile w) then None
            else processes (mgr s) !! n)
    /\ Forall (fun e => stop_event e = true \/ e = EvRLock \/ e = EvRUnlock) t.
Proof.
  unfold bind at 1. rewrite ListRunning_unfold.
  set (l := map fst _).
  unfold bind at 1. unfold meanwhile at 1.
  set (s1 := with_processes _ s).
  destruct (sweep_outcome w sel l s1) as (s' & t & HF & Hdb & Hdir & Hps & Ht).
  rewrite HF. eexists _, _. split; [reflexivity|].
  split; [done|]. split; [done|]. split; [|split].
  - intros Hr n. rewrite Hps. subst s1. simpl.
    rewrite foldr_delete_lookup.
    destruct (bool_decide (n ∈ exits_meanwhile w)); simpl.
    { rewrite ?live_None. done. }
    destruct (live (processes (mgr s) !! n)) eqn:Hl; simpl; [|done].
    destruct (sel n); simpl; [|done].
    rewrite bool_decide_eq_true_2; [done|].
    subst l. by apply ListRunning_elem.
  - intros n Hsel. rewrite Hps, Hsel, andb_false_r. subst s1. simpl.
    apply foldr_delete_lookup.
  - simpl. constructor; [tauto|]. constructor; [tauto|].
    eapply Forall_impl; [exact Ht|]. simpl. tauto.
Qed.

(** A sweep stops what it is asked to stop: a theme of the list that [sel]
    accepts and that has a process when the sweep begins gets the whole
    stop sequence of [Stop] for that process, under the write lock. *)
Lemma sweep_stops (w : World) (sel : string -> bool) (name : string)
    (rt : runningTheme) (pid : Z) (l : list string) :
  name ∈ l -> sel name = true ->
  forall (s s' : State) (t : list event),
  processes (mgr s) !! name = Some rt -> Process (cmd rt) = Some pid ->
  foreach l (fun name => if sel name then Stop w name ;;; ret tt else ret tt) s
    = Ret tt s' t ->
  exists pre post, t = pre ++ EvLock :: stop_calls w pid ++ EvUnlock :: post.
Proof.
  intros Hin Hsel. induction l as [|x l IH]; intros s s' t Hrt Hp H.
  { by apply elem_of_nil in Hin. }
  cbn [foreach] in H. unfold bind at 1 in H.
  destruct (decide (x = name)) as [->|Hne].
  - rewrite Hsel in H. unfold bind at 1 in H.
    rewrite Stop_unfold, Hrt, Hp in H. cbn [ret] in H.
    destruct (foreach l _ _) as [[] s2 t2|s2 t2]; [|discriminate].
    injection H as _ <-. exists [], t2. simpl.
    by rewrite app_nil_r, <- app_assoc.
  - apply elem_of_cons in Hin as [Hin|Hin]; [congruence|].
    destruct (sel x).
    + destruct (Stop_outcome w x s) as (r & t1 & HS & _ & _).
      unfold bind at 1 in H. rewrite HS in H. cbn [ret] in H.
      destruct (foreach l _ _) as [[] s2 t2|s2 t2] eqn:E; [|discriminate].
      injection H as _ <-.
      apply (IH Hin) in E as (pre & post & ->); [| |done].
      * exists ((t1 ++ []) ++ pre), post. by rewrite (app_assoc (t1 ++ [])).
      * destruct (live (processes (mgr s) !! x)); [|done].
        simpl. by rewrite lookup_delete_ne.
    + cbn [ret] in H.
      destruct (foreach l _ _) as [[] s2 t2|s2 t2] eqn:E; [|discriminate].
      injection H as _ <-.
      apply (IH Hin) in E as (pre & post & ->); [|done..].
      by exists pre, post.
Qed.

(** The same for the themes that were live when the list was taken and
    have not exited since. *)
Lemma list_then_sweep_stops (w : World) (sel : string -> bool) (s s' : State)
    (t : list event) (name : string) (rt : runningTheme) (pid : Z) :
  faithful_range w ->
  (runningThemes <- ListRunning w ;;
   meanwhile w ;;;
   foreach runningThemes
     (fun name => if sel name then Stop w name ;;; ret tt else ret tt)) s
    = Ret tt s' t ->
  processes (mgr s) !! name = Some rt -> Process (cmd rt) = Some pid ->
  name ∉ exits_meanwhile w -> sel name = true ->
  exists pre post, t = pre ++ EvLock :: stop_calls w pid ++ EvUnlock :: post.
Proof.
  intros Hr H Hrt Hp Hnx Hsel.
  unfold bind at 1 in H. rewrite ListRunning_unfold in H.
  unfold bind at 1 in H. unfold meanwhile at 1 in H.
  destruct (foreach _ _ _) as [[] s2 t2|s2 t2] eqn:E; [|discriminate].
  injection H as _ <-.
  apply (sweep_stops w sel name rt pid) in E as (pre & post & ->); [| |done| |done].
  - by exists ([EvRLock; EvRUnlock] ++ [] ++ pre), post.
  - apply ListRunning_elem; [done|]. rewrite Hrt. unfold live. by rewrite Hp.
  - simpl. rewrite foldr_delete_lookup.
    by rewrite bool_decide_eq_false_2.
Qed.

Lemma find_clear_current (userID : Z) (d : list UserInstalledTheme) :
  List.find (fun r => (UserID r =? userID) && IsCurrent r && is_ssr (Deploy r))
            (clear_current userID d) = None.
Proof.
  induction d as [|r d IH]; simpl; [reflexivity|].
  destruct (UserID r =? userID) eqn:E; simpl.
  - rewrite E. simpl. exact IH.
  - rewrite E. simpl. exact IH.
Qed.

(** ** Deactivation *)

(** C3. [SwitchToOfficial] begins with the update that clears the current
    flag of every theme of the user.  If that update fails, the call returns
    the error at once: the state is untouched and the update is its only
    event, so no process is stopped.  Otherwise the call returns nil in
    every world, also when a listed theme has exited in the meantime and its
    [Stop] fails; the update is the first event; the stored flags are the
    cleared ones, for which the catalog lookup reports no current SSR theme.
    When a manager was passed, every theme that had a process before the
    call and has not exited by itself gets the whole stop sequence of
    [Stop] for that process (the termination signal, the bounded wait, the
    kill if need be) after the update, and no theme is live when the call
    returns.  When no manager was passed, the registry is left as it was
    and the call acts on no process. *)
Theorem SwitchToOfficial_clears_flag_then_stops (w : World) (userID : Z)
    (ssrManager : ManagerRef) (s : State) :
  faithful_range w ->
  let o := SwitchToOfficial w userID ssrManager s in
  if db_fails w UpdateClearCurrent
  then o = Ret (Some ErrUpdateStatus) s [EvDb UpdateClearCurrent false]
  else result o = Some None
       /\ (exists t, events o = EvDb UpdateClearCurrent true :: t)
       /\ db (final o) = clear_current userID (db s)
       /\ result (GetCurrentSSRThemeName w userID (final o)) = Some ("", false)
       /\ (ssrManager = ManagerPtr ->
           (forall name, live (processes (mgr (final o)) !! name) = false)
           /\ forall name rt pid,
                processes (mgr s) !! name = Some rt ->
                Process (cmd rt) = Some pid ->
                name ∉ exits_meanwhile w ->
                exists pre post,
                  events o = EvDb UpdateClearCurrent true :: pre
                             ++ EvLock :: stop_calls w pid ++ EvUnlock :: post)
       /\ (ssrManager = NilManager ->
           mgr (final o) = mgr s
           /\ Forall (fun e => process_action e = false) (events o)).
Proof.
  intros Hr o. subst o. unfold SwitchToOfficial, db_stmt.
  destruct (db_fails w UpdateClearCurrent) eqn:Hf.
  { run_op. reflexivity. }
  assert (Hsweep : forall s1, exists s' t,
    (match ssrManager with
     | NilManager => ret tt
     | ManagerPtr =>
         runningThemes <- ListRunning w ;;
         meanwhile w ;;;
         foreach runningThemes (fun themeName => Stop w themeName ;;; ret tt)
     end) s1 = Ret tt s' t
    /\ db s' = db s1
    /\ (ssrManager = ManagerPtr ->
        (forall name, live (processes (mgr s') !! name) = false)
        /\ forall name rt pid,
             processes (mgr s1) !! name = Some rt ->
             Process (cmd rt) = Some pid ->
             name ∉ exits_meanwhile w ->
             exists pre post,
               t = pre ++ EvLock :: stop_calls w pid ++ EvUnlock :: post)
    /\ (ssrManager = NilManager -> s' = s1 /\ t = [])).
  { intros s1. destruct ssrManager.
    - exists s1, []. split; [reflexivity|]. split; [done|]. split; done.
    - destruct (list_then_sweep w (fun _ => true) s1)
        as (s' & t & HF & Hdb & _ & Hps & _ & _).
      exists s', t. split; [exact HF|]. split; [done|]. split; [|done].
      intros _. split.
      + intros name. rewrite (Hps Hr).
        destruct (bool_decide _); [done|].
        destruct (live (processes (mgr s1) !! name)) eqn:Hl; simpl; done.
      + intros name rt pid Hrt Hp Hnx.
        by apply (list_then_sweep_stops w (fun _ => true) s1 s' t name rt pid). }
  revert Hsweep.
  generalize (match ssrManager with
     | NilManager => ret tt
     | ManagerPtr =>
         runningThemes <- ListRunning w ;;
         meanwhile w ;;;
         foreach runningThemes (fun themeName => Stop w themeName ;;; ret tt)
     end).
  intros sweep Hsweep.
  destruct (static_mode_active w); run_op;
    match goal with
    | |- context [sweep ?s1] =>
        destruct (Hsweep s1) as (s' & t & -> & Hdb & Hptr & Hnil)
    end; simpl.
  all: split; [done|]; split; [eauto|]; split; [exact Hdb|]; split.
  1,3: unfold GetCurrentSSRThemeName, db_stmt; run_op;
       destruct (db_fails w QueryCurrentSsr); simpl; [done|];
       rewrite Hdb; simpl; rewrite find_clear_current; done.
  all: split.
  1,3: intros Hp; destruct (Hptr Hp) as [Hlive Hstops];
       (split; [exact Hlive|]);
       intros name rt pid Hrt Hpid Hnx;
       destruct (Hstops name rt pid Hrt Hpid Hnx) as (pre & post & ->).
  - exists (EvStaticBackup :: EvStaticRemove :: pre),
      (post ++ [EvDb CountCurrent (negb (db_fails w CountCurrent));
                EvBackupRemove]).
    unfold stop_calls.
    repeat (progress (simpl; rewrite <- ?app_assoc)). reflexivity.
  - exists (EvStaticRemove :: pre),
      (post ++ [EvDb CountCurrent (negb (db_fails w CountCurrent))]).
    unfold stop_calls.
    repeat (progress (simpl; rewrite <- ?app_assoc)). reflexivity.
  - intros Hn. destruct (Hnil Hn) as [-> ->]. split; [done|].
    repeat constructor.
  - intros Hn. destruct (Hnil Hn) as [-> ->]. split; [done|].
    repeat constructor.
Qed.

(** ** Activation *)

Lemma stop_event_no_spawn (t : list event) :
  Forall (fun e => stop_event e = true \/ e = EvRLock \/ e = EvRUnlock) t ->
  no_spawn t.
Proof.
  intros Ht dir p Hin. rewrite Forall_forall in Ht.
  destruct (Ht _ Hin) as [H|[H|H]]; discriminate.
Qed.

Lemma no_spawn_app (t1 t2 : list event) :
  no_spawn t1 -> no_spawn t2 -> no_spawn (t1 ++ t2).
Proof.
  intros H1 H2 dir p [Hin|Hin]%elem_of_app; [by eapply H1|by eapply H2].
Qed.

Lemma no_spawn_cons (e : event) (t : list event) :
  (forall dir p, e <> EvSpawn dir p) -> no_spawn t -> no_spawn (e :: t).
Proof.
  intros He Ht dir p [Hin|Hin]%elem_of_cons; [by eapply He|by eapply Ht].
Qed.

Lemma no_spawn_nil : no_spawn [].
Proof. intros dir p Hin. by apply elem_of_nil in Hin. Qed.

(** Step 2 of [SwitchToSSRTheme] with a manager: the target is never
    stopped there, and nothing is spawned. *)
Lemma stop_others_outcome (w : World) (themeName : string) (s1 : State) :
  exists s' t,
    (runningThemes <- ListRunning w ;;
     meanwhile w ;;;
     foreach runningThemes (fun name =>
       if negb (String.eqb name themeName)
       then Stop w name ;;; ret tt
       else ret tt)) s1 = Ret tt s' t
    /\ db s' = db s1
    /\ themesDir (mgr s') = themesDir (mgr s1)
    /\ processes (mgr s') !! themeName =
         (if bool_decide (themeName ∈ exits_meanwhile w) then None
          else processes (mgr s1) !! themeName)
    /\ no_spawn t.
Proof.
  destruct (list_then_sweep w (fun name => negb (String.eqb name themeName)) s1)
    as (s' & t & HF & Hdb & Hdir & _ & Hps & Ht).
  exists s', t. split; [exact HF|]. split; [done|]. split; [done|]. split.
  - apply Hps. by rewrite String.eqb_refl.
  - by apply stop_event_no_spawn.
Qed.

(** Step 4 with a manager. *)
Lemma ensure_started_outcome (w : World) (themeName : string) (s1 : State) :
  exists r s' t,
    (running <- IsRunning themeName ;;
     if (running : bool) then ret None else Start w themeName 3000) s1
      = Ret r s' t
    /\ db s' = db s1
    /\ match r with
       | None =>
           live (processes (mgr s') !! themeName) = true
           /\ (live (processes (mgr s1) !! themeName) = true ->
                 s' = s1 /\ no_spawn t)
           /\ (live (processes (mgr s1) !! themeName) = false ->
                 os_Stat w (serverJS_path s1 themeName) <> StatNotExist
                 /\ cmd_Start w (Join (themesDir (mgr s1)) themeName) 3000 <> None)
       | Some e =>
           s' = s1
           /\ live (processes (mgr s1) !! themeName) = false
           /\ (os_Stat w (serverJS_path s1 themeName) = StatNotExist
               \/ cmd_Start w (Join (themesDir (mgr s1)) themeName) 3000 = None)
       end.
Proof.
  unfold bind at 1. rewrite IsRunning_unfold.
  destruct (live (processes (mgr s1) !! themeName)) eqn:Hl.
  - exists None, s1, ([EvRLock; EvRUnlock] ++ []). split; [reflexivity|].
    split; [done|]. split; [done|]. split; [|discriminate].
    intros _. split; [done|]. intros dir p Hin. simpl in Hin.
    repeat (apply elem_of_cons in Hin as [Hin|Hin]; [discriminate|]).
    by apply elem_of_nil in Hin.
  - rewrite Start_unfold. cbv zeta. rewrite Hl.
    destruct (os_Stat w (serverJS_path s1 themeName)) eqn:Hstat.
    2: { eexists _, _, _. split; [reflexivity|]. split; [done|]. tauto. }
    all: destruct (cmd_Start w (Join (themesDir (mgr s1)) themeName) 3000)
           as [pid|] eqn:Hsp.
    all: eexists _, _, _; (split; [reflexivity|]); (split; [done|]).
    all: try (split; [done|]; split; [done|]; tauto).
    all: split; [simpl; rewrite lookup_insert_eq; reflexivity|].
    all: split; [discriminate|]; intros _; split; congruence.
Qed.

(** The stop of the target after a failed commit, with a manager. *)
Lemma stop_target_outcome (w : World) (themeName : string) (s1 : State) :
  exists s' t,
    (Stop w themeName ;;; ret tt) s1 = Ret tt s' t
    /\ db s' = db s1
    /\ live (processes (mgr s') !! themeName) = false
    /\ no_spawn t
    /\ (forall rt pid, processes (mgr s1) !! themeName = Some rt ->
          Process (cmd rt) = Some pid ->
          processes (mgr s') !! themeName = None /\ EvSignalTerm pid ∈ t).
Proof.
  destruct (Stop_outcome w themeName s1) as (r & t & HS & Ht & Hsig).
  unfold bind. rewrite HS. cbn [ret].
  eexists _, _. split; [reflexivity|].
  destruct (live (processes (mgr s1) !! themeName)) eqn:Hl.
  - split; [done|]. split; [simpl; by rewrite lookup_delete_eq|]. split.
    + rewrite app_nil_r. apply stop_event_no_spawn.
      eapply Forall_impl; [exact Ht|]. simpl. tauto.
    + intros rt pid Hrt Hp. split; [simpl; apply lookup_delete_eq|].
      rewrite app_nil_r. by eapply Hsig.
  - split; [done|]. split; [done|]. split.
    + rewrite app_nil_r. apply stop_event_no_spawn.
      eapply Forall_impl; [exact Ht|]. simpl. tauto.
    + intros rt pid Hrt Hp. unfold live in Hl. rewrite Hrt, Hp in Hl.
      discriminate.
Qed.

Ltac solve_no_spawn :=
  repeat first
    [ assumption
    | apply no_spawn_nil
    | apply no_spawn_app
    | apply no_spawn_cons; [intros; discriminate|] ].

(** Every way [SwitchToSSRTheme] can end, with what is then known of the
    database, the registry and the events. *)
Lemma SwitchToSSRTheme_outcome (w : World) (userID : Z) (themeName : string)
    (ssrManager : ManagerRef) (s : State) :
  let o := SwitchToSSRTheme w userID themeName ssrManager s in
  exists r, result o = Some r /\
  match r with
  | None =>
      db_fails w QueryTheme = false /\ db_fails w BeginTx = false
      /\ db_fails w TxClearCurrent = false /\ db_fails w TxSetCurrent = false
      /\ db_fails w TxCommit = false
      /\ (exists theme, find_theme userID themeName (db s) = Some theme
            /\ db (final o) = set_current (ID theme) (clear_current userID (db s)))
      /\ (ssrManager = ManagerPtr ->
            live (processes (mgr (final o)) !! themeName) = true
            /\ (live (processes (mgr s) !! themeName) = false
                \/ themeName ∈ exits_meanwhile w ->
                  os_Stat w (serverJS_path s themeName) <> StatNotExist
                  /\ cmd_Start w (Join (themesDir (mgr s)) themeName) 3000 <> None))
  | Some ErrQueryFailed =>
      db_fails w QueryTheme = true /\ final o = s /\ no_spawn (events o)
  | Some ErrSwitchNotInstalled =>
      find_theme userID themeName (db s) = None /\ final o = s
      /\ no_spawn (events o)
  | Some ErrBeginTx =>
      db_fails w BeginTx = true /\ db (final o) = db s /\ no_spawn (events o)
  | Some ErrClearCurrent =>
      db_fails w TxClearCurrent = true /\ db (final o) = db s
      /\ no_spawn (events o) /\ last (events o) = Some EvTxRollback
  | Some ErrSetCurrent =>
      db_fails w TxSetCurrent = true /\ db (final o) = db s
      /\ no_spawn (events o) /\ last (events o) = Some EvTxRollback
  | Some (ErrStartSSR e) =>
      ssrManager = ManagerPtr /\ db (final o) = db s
      /\ last (events o) = Some EvTxRollback
      /\ live (processes (mgr (final o)) !! themeName) = false
      /\ (live (processes (mgr s) !! themeName) = false
          \/ themeName ∈ exits_meanwhile w)
      /\ (os_Stat w (serverJS_path s themeName) = StatNotExist
          \/ cmd_Start w (Join (themesDir (mgr s)) themeName) 3000 = None)
  | Some ErrCommit =>
      db_fails w TxCommit = true /\ db (final o) = db s
      /\ (ssrManager = ManagerPtr ->
            live (processes (mgr (final o)) !! themeName) = false)
      /\ (ssrManager = NilManager -> no_spawn (events o))
      /\ (forall rt pid,
            ssrManager = ManagerPtr ->
            processes (mgr s) !! themeName = Some rt ->
            Process (cmd rt) = Some pid ->
            themeName ∉ exits_meanwhile w ->
            processes (mgr (final o)) !! themeName = None
            /\ EvSignalTerm pid ∈ events o /\ no_spawn (events o))
      /\ (ssrManager = ManagerPtr ->
          live (processes (mgr s) !! themeName) = false
          \/ themeName ∈ exits_meanwhile w ->
            os_Stat w (serverJS_path s themeName) <> StatNotExist
            /\ cmd_Start w (Join (themesDir (mgr s)) themeName) 3000 <> None)
  | Some _ => False
  end.
Proof.
  intros o. subst o. unfold SwitchToSSRTheme, db_stmt.
  assert (H1 : forall s1, exists s' t,
    (match ssrManager with
     | NilManager => ret tt
     | ManagerPtr =>
         runningThemes <- ListRunning w ;;
         meanwhile w ;;;
         foreach runningThemes (fun name =>
           if negb (String.eqb name themeName)
           then Stop w name ;;; ret tt
           else ret tt)
     end) s1 = Ret tt s' t
    /\ db s' = db s1
    /\ themesDir (mgr s') = themesDir (mgr s1)
    /\ processes (mgr s') !! themeName =
         (if is_ptr ssrManager && bool_decide (themeName ∈ exits_meanwhile w)
          then None else processes (mgr s1) !! themeName)
    /\ no_spawn t).
  { intros s1. destruct ssrManager.
    - exists s1, []. repeat split; try done. apply no_spawn_nil.
    - apply stop_others_outcome. }
  assert (H2 : forall s1, exists r s' t,
    (match ssrManager with
     | NilManager => ret None
     | ManagerPtr =>
         running <- IsRunning themeName ;;
         if (running : bool) then ret None else Start w themeName 3000
     end) s1 = Ret r s' t
    /\ db s' = db s1
    /\ match r with
       | None =>
           (ssrManager = ManagerPtr ->
              live (processes (mgr s') !! themeName) = true)
           /\ (ssrManager = NilManager
               \/ live (processes (mgr s1) !! themeName) = true ->
                 s' = s1 /\ no_spawn t)
           /\ (ssrManager = ManagerPtr ->
               live (processes (mgr s1) !! themeName) = false ->
                 os_Stat w (serverJS_path s1 themeName) <> StatNotExist
                 /\ cmd_Start w (Join (themesDir (mgr s1)) themeName) 3000 <> None)
       | Some e =>
           ssrManager = ManagerPtr /\ s' = s1
           /\ live (processes (mgr s1) !! themeName) = false
           /\ (os_Stat w (serverJS_path s1 themeName) = StatNotExist
               \/ cmd_Start w (Join (themesDir (mgr s1)) themeName) 3000 = None)
       end).
  { intros s1. destruct ssrManager.
    - exists None, s1, []. split; [reflexivity|]. split; [done|].
      split; [discriminate|]. split; [|discriminate].
      intros _. split; [done|]. apply no_spawn_nil.
    - destruct (ensure_started_outcome w themeName s1)
        as (r & s' & t & HE & Hdb & Hr).
      exists r, s', t. split; [exact HE|]. split; [done|].
      destruct r; intuition discriminate. }
  assert (H3 : forall s1, exists s' t,
    (match ssrManager with
     | NilManager => ret tt
     | ManagerPtr => Stop w themeName ;;; ret tt
     end) s1 = Ret tt s' t
    /\ db s' = db s1
    /\ (ssrManager = ManagerPtr ->
          live (processes (mgr s') !! themeName) = false)
    /\ no_spawn t
    /\ (forall rt pid, ssrManager = ManagerPtr ->
          processes (mgr s1) !! themeName = Some rt ->
          Process (cmd rt) = Some pid ->
          processes (mgr s') !! themeName = None /\ EvSignalTerm pid ∈ t)).
  { intros s1. destruct ssrManager.
    - exists s1, []. split; [reflexivity|]. split; [done|].
      split; [discriminate|]. split; [apply no_spawn_nil|]. discriminate.
    - destruct (stop_target_outcome w themeName s1)
        as (s' & t & HE & Hdb & Hl & Hns & Hsig).
      exists s', t. eauto 10. }
  revert H1 H2 H3.
  generalize (match ssrManager with
     | NilManager => ret tt
     | ManagerPtr =>
         runningThemes <- ListRunning w ;;
         meanwhile w ;;;
         foreach runningThemes (fun name =>
           if negb (String.eqb name themeName)
           then Stop w name ;;; ret tt
           else ret tt)
     end).
  generalize (match ssrManager with
     | NilManager => ret None
     | ManagerPtr =>
         running <- IsRunning themeName ;;
         if (running : bool) then ret None else Start w themeName 3000
     end).
  generalize (match ssrManager with
     | NilManager => ret tt
     | ManagerPtr => Stop w themeName ;;; ret tt
     end).
  intros B3 B2 B1 H1 H2 H3.
  destruct (db_fails w QueryTheme) eqn:Fq.
  { run_op. eexists. split; [reflexivity|]. simpl.
    repeat split; solve_no_spawn. }
  run_op.
  destruct (find_theme userID themeName (db s)) as [theme|] eqn:Hfind.
  2: { eexists. split; [reflexivity|]. simpl.
       repeat split; solve_no_spawn. }
  destruct (H1 s) as (s1 & t1 & -> & Hdb1 & Hdir1 & Hps1 & Hns1).
  destruct (db_fails w BeginTx) eqn:Fb; simpl.
  { eexists. split; [reflexivity|]. simpl.
    repeat split; try done; solve_no_spawn. }
  destruct (db_fails w TxClearCurrent) eqn:Fc; simpl.
  { eexists. split; [reflexivity|]. simpl.
    repeat split; try done; solve_no_spawn.
    repeat (rewrite last_cons || rewrite last_app). reflexivity. }
  destruct (db_fails w TxSetCurrent) eqn:Fs; simpl.
  { eexists. split; [reflexivity|]. simpl.
    repeat split; try done; solve_no_spawn.
    repeat (rewrite last_cons || rewrite last_app). reflexivity. }
  destruct (H2 s1) as (r & s2 & t2 & -> & Hdb2 & Hr2).
  assert (Hpath : serverJS_path s1 themeName = serverJS_path s themeName).
  { unfold serverJS_path. by rewrite Hdir1. }
  rewrite Hpath, Hdir1 in Hr2.
  destruct r as [e|]; simpl.
  { destruct Hr2 as (Hptr & -> & Hl1 & Hfail).
    eexists. split; [reflexivity|]. simpl.
    split; [done|]. split; [done|]. split.
    { repeat (rewrite last_cons || rewrite last_app). reflexivity. }
    split; [done|]. split; [|done].
    rewrite Hps1 in Hl1. subst ssrManager. simpl in Hl1.
    destruct (bool_decide (themeName ∈ exits_meanwhile w)) eqn:Hx.
    - right. by apply bool_decide_eq_true in Hx.
    - by left. }
  destruct Hr2 as (Hlive2 & Hsame2 & Hstart2).
  assert (Hmust : ssrManager = ManagerPtr ->
            live (processes (mgr s) !! themeName) = false
            \/ themeName ∈ exits_meanwhile w ->
            os_Stat w (serverJS_path s themeName) <> StatNotExist
            /\ cmd_Start w (Join (themesDir (mgr s)) themeName) 3000 <> None).
  { intros Hptr Hnot. apply (Hstart2 Hptr). rewrite Hps1, Hptr. simpl.
    destruct Hnot as [Hl0|Hin].
    - by destruct (bool_decide _).
    - by rewrite bool_decide_eq_true_2. }
  destruct (db_fails w TxCommit) eqn:Fk; simpl.
  - destruct (H3 s2) as (s3 & t3 & -> & Hdb3 & Hl3 & Hns3 & Hsig3).
    eexists. split; [reflexivity|]. simpl.
    split; [done|]. split; [congruence|]. split; [done|].
    split; [|split; [|exact Hmust]].
    + intros Hnil. destruct (Hsame2 (or_introl Hnil)) as [_ Hns2].
      solve_no_spawn.
    + intros rt pid Hptr Hrt Hp Hnx.
      assert (Hrt1 : processes (mgr s1) !! themeName = Some rt).
      { rewrite Hps1. rewrite bool_decide_eq_false_2 by done.
        by rewrite andb_false_r. }
      assert (Hl1 : live (processes (mgr s1) !! themeName) = true).
      { rewrite Hrt1. unfold live. by rewrite Hp. }
      destruct (Hsame2 (or_intror Hl1)) as [-> Hns2].
      destruct (Hsig3 rt pid Hptr Hrt1 Hp) as [Hnone Hin].
      split; [done|]. split; [|solve_no_spawn].
      clear -Hin. set_solver.
  - eexists. split; [reflexivity|]. simpl.
    do 5 (split; [done|]). split.
    + exists theme. split; [done|]. reflexivity.
    + intros Hptr. split; [by apply Hlive2|]. by apply Hmust.
Qed.




(** C10. A failed commit stops the target even when this call did not
    start it.  Take a target that is live before the call and does not exit
    by itself during it, with a manager, a found row, and a transaction
    whose statements succeed up to the commit, which fails.  Then the call
    returns the commit error, spawns nothing, signals the process that was
    already running, and leaves the registry without an entry for the
    target, while the stored flags are the ones from before the call. *)
Theorem SwitchToSSRTheme_commit_failure_stops_running_target
    (w : World) (userID : Z) (themeName : string) (s : State)
    (theme : UserInstalledTheme) (rt : runningTheme) (pid : Z) :
  db_fails w QueryTheme = false ->
  find_theme userID themeName (db s) = Some theme ->
  db_fails w BeginTx = false ->
  db_fails w TxClearCurrent = false ->
  db_fails w TxSetCurrent = false ->
  db_fails w TxCommit = true ->
  processes (mgr s) !! themeName = Some rt ->
  Process (cmd rt) = Some pid ->
  themeName ∉ exits_meanwhile w ->
  let o := SwitchToSSRTheme w userID themeName ManagerPtr s in
  result o = Some (Some ErrCommit)
  /\ db (final o) = db s
  /\ no_spawn (events o)
  /\ EvSignalTerm pid ∈ events o
  /\ processes (mgr (final o)) !! themeName = None
  /\ result (IsRunning themeName (final o)) = Some false.
Proof.
  intros Fq Hfind Fb Fc Fs Fk Hrt Hp Hnx o.
  destruct (SwitchToSSRTheme_outcome w userID themeName ManagerPtr s)
    as (r & Hres & Hr).
  fold o in Hres, Hr.
  destruct r as [e|].
  2: { destruct Hr as (_ & _ & _ & _ & Fk' & _). congruence. }
  destruct e; try done; try (destruct Hr as (F & _); congruence).
  - destruct Hr as (_ & _ & _ & _ & [Hl|Hin] & _); [|done].
    unfold live in Hl. rewrite Hrt, Hp in Hl. discriminate.
  - destruct Hr as (_ & Hdb & _ & _ & Hsig & _).
    destruct (Hsig rt pid eq_refl Hrt Hp Hnx) as (Hnone & Hin & Hns).
    repeat split; try done.
    rewrite IsRunning_unfold. simpl. by rewrite Hnone.
Qed.

(** ** [StopAll] *)

Lemma range_empty (w : World) : faithful_range w -> map_range w ∅ = [].
Proof.
  intros Hr. apply Permutation_nil_r. rewrite (Hr ∅).
  by rewrite map_to_list_empty.
Qed.

(** The loop of [StopAll]: it returns when every process it waits for
    exits, and then has only signalled and waited. *)
Lemma StopAll_loop_returns (w : World) (l : list (string * runningTheme)) (s : State) :
  (forall nr pid, nr ∈ l -> Process (cmd (snd nr)) = Some pid ->
     proc_Wait w pid <> None) ->
  exists t, foreach l (StopAll_body w) s = Ret tt s t.
Proof.
  induction l as [|nr l IH]; intros Hall.
  - by exists [].
  - cbn [foreach]. destruct IH as [t Ht].
    { intros nr' pid' Hin. apply Hall. apply elem_of_cons. by right. }
    assert (Hb : exists t0, StopAll_body w nr s = Ret tt s t0).
    { unfold StopAll_body.
      destruct (Process (cmd (snd nr))) as [pid|] eqn:Hp; [|by exists []].
      assert (Hw : proc_Wait w pid <> None).
      { apply (Hall nr); [apply elem_of_cons; by left|done]. }
      destruct (proc_Wait w pid) as [d|] eqn:Hd; [|done].
      run_op. eauto. }
    destruct Hb as [t0 Hb]. unfold bind. rewrite Hb, Ht. eauto.
Qed.

Lemma StopAll_unfold (w : World) (s : State) :
  StopAll w s =
  match foreach (map_range w (processes (mgr s))) (StopAll_body w) s with
  | Ret _ s1 t1 => Ret None (with_processes ∅ s1) (EvLock :: t1 ++ [EvUnlock])
  | Hang s1 t1 => Hang s1 (EvLock :: t1)
  end.
Proof.
  unfold StopAll, StopAll_body. run_op.
  destruct (foreach _ _ _) as [[] s1 t1|s1 t1]; simpl; [|reflexivity].
  by rewrite app_nil_r.
Qed.

(** The part of C6 that the code keeps: when every live process exits after
    the termination signal, [StopAll] returns nil with an empty registry,
    and [ListRunning] then yields the empty list. *)
Lemma StopAll_clears_registry_when_processes_exit (w : World) (s : State) :
  faithful_range w ->
  (forall name rt pid, processes (mgr s) !! name = Some rt ->
     Process (cmd rt) = Some pid -> proc_Wait w pid <> None) ->
  result (StopAll w s) = Some None
  /\ processes (mgr (final (StopAll w s))) = ∅
  /\ result (ListRunning w (final (StopAll w s))) = Some [].
Proof.
  intros Hr Hall.
  destruct (StopAll_loop_returns w (map_range w (processes (mgr s))) s) as [t Ht].
  { intros [name rt] pid Hin Hp. apply (range_elem w) in Hin; [|done].
    by eapply Hall. }
  rewrite StopAll_unfold, Ht.
  split; [done|]. split; [done|].
  rewrite ListRunning_unfold. simpl. by rewrite range_empty.
Qed.

(** [StopAll] never kills and never bounds its wait: whatever the world
    and the registry, its events are the lock, termination signals and
    unbounded waits. *)
Lemma StopAll_loop_events (w : World) (l : list (string * runningTheme)) :
  forall s : State,
  Forall (fun e => match e with
                   | EvSignalTerm _ | EvWait _ => True
                   | _ => False
                   end)
         (events (foreach l (StopAll_body w) s)).
Proof.
  induction l as [|nr l IH]; intros s; [constructor|].
  cbn [foreach]. unfold bind at 1.
  assert (Hb : (exists t, StopAll_body w nr s = Ret tt s t
                 /\ Forall (fun e => match e with
                                     | EvSignalTerm _ | EvWait _ => True
                                     | _ => False
                                     end) t)
               \/ (exists t, StopAll_body w nr s = Hang s t
                 /\ Forall (fun e => match e with
                                     | EvSignalTerm _ | EvWait _ => True
                                     | _ => False
                                     end) t)).
  { unfold StopAll_body. destruct (Process (cmd (snd nr))) as [pid|].
    - destruct (proc_Wait w pid); run_op; [left|right];
        eexists; (split; [reflexivity|]); by repeat constructor.
    - left. exists []. split; [reflexivity|]. constructor. }
  destruct Hb as [(t & -> & Ht)|(t & -> & Ht)]; [|exact Ht].
  specialize (IH s). destruct (foreach l (StopAll_body w) s); simpl in *;
    apply Forall_app; done.
Qed.

(** ** The readiness prober *)

Lemma punctual_causal (env : nat -> tick) : punctual env -> causal env.
Proof. intros H k. destruct (H k) as (-> & [? ?] & ->). lia. Qed.

Lemma probes_app (a b : list (Z * event)) :
  probes (a ++ b) = (probes a + probes b)%nat.
Proof. unfold probes. by rewrite List.filter_app, length_app. Qed.

Lemma waitForReady_loop_more_fuel (env : nat -> tick) (themeName : string)
    (port : Z) (r : probe_report) :
  forall (n : nat) (i : nat) (elapsed : Z) (evs : list (Z * event)),
  waitForReady_loop n env i themeName port elapsed evs = Some r ->
  forall m : nat, (n <= m)%nat ->
  waitForReady_loop m env i themeName port elapsed evs = Some r.
Proof.
  induction n as [|n IH]; intros i elapsed evs H m Hm; [discriminate|].
  destruct m as [|m]; [lia|]. cbn [waitForReady_loop] in *.
  destruct (maxTimeout <=? elapsed); [done|].
  destruct (negb (live (tick_processes (env i) !! themeName))); [done|].
  destruct (negb (tick_probe_err (env i))); [done|].
  apply IH; [done|lia].
Qed.

(** The loop returns whenever time moves forward: each turn that does not
    return takes at least [checkInterval], so [n] further turns are enough
    once no more than [n] intervals are left of [maxTimeout]. *)
Lemma waitForReady_loop_returns (env : nat -> tick) (themeName : string)
    (port : Z) :
  causal env ->
  forall (n : nat) (i : nat) (elapsed : Z) (evs : list (Z * event)),
  maxTimeout - elapsed <= Z.of_nat n * checkInterval ->
  exists r, waitForReady_loop (S n) env i themeName port elapsed evs = Some r.
Proof.
  intros Hc. induction n as [|n IH]; intros i elapsed evs Hleft;
    cbn [waitForReady_loop].
  - destruct (Z.leb_spec maxTimeout elapsed) as [_|Hlt]; [eauto|].
    unfold checkInterval in *. lia.
  - destruct (Z.leb_spec maxTimeout elapsed) as [_|Hlt]; [eauto|].
    destruct (negb (live (tick_processes (env i) !! themeName))); [eauto|].
    destruct (negb (tick_probe_err (env i))); [eauto|].
    apply IH. destruct (Hc i) as (? & ? & ?).
    unfold checkInterval, Second in *. lia.
Qed.

(** The prober returns on every run in which durations are not negative,
    within the 31 turns that 30 seconds of one-second intervals allow. *)
Lemma waitForReady_always_returns (env : nat -> tick) (themeName : string)
    (port : Z) :
  causal env ->
  exists r, forall fuel : nat, (31 <= fuel)%nat ->
    waitForReady fuel env themeName port = Some r.
Proof.
  intros Hc.
  destruct (waitForReady_loop_returns env themeName port Hc 30 0%nat 0 [])
    as [r Hr].
  { unfold maxTimeout, checkInterval, Second. lia. }
  exists r. intros fuel Hf. unfold waitForReady.
  eapply waitForReady_loop_more_fuel; [exact Hr|lia].
Qed.

(** How the loop stops, whatever the durations: the timed-out return
    happens at or after [maxTimeout], and the loop does not go past a turn
    on which the entry is not live or the probe is answered. *)
Lemma waitForReady_loop_stops (env : nat -> tick) (themeName : string)
    (port : Z) :
  forall (n : nat) (i : nat) (elapsed : Z) (evs : list (Z * event))
         (r : probe_report),
  waitForReady_loop n env i themeName port elapsed evs = Some r ->
  (pr_result r = ProbeTimedOut -> maxTimeout <= pr_elapsed r)
  /\ (forall k, (i <= k)%nat ->
        live (tick_processes (env k) !! themeName) = false ->
        (probes (pr_events r) <= probes evs + (k - i))%nat)
  /\ (forall k, (i <= k)%nat -> tick_probe_err (env k) = false ->
        (probes (pr_events r) <= probes evs + (k - i) + 1)%nat).
Proof.
  induction n as [|n IH]; intros i elapsed evs r H; [discriminate|].
  cbn [waitForReady_loop] in H.
  destruct (Z.leb_spec maxTimeout elapsed) as [Hge|Hlt].
  { injection H as <-. simpl. repeat split; try done; intros; lia. }
  destruct (live (tick_processes (env i) !! themeName)) eqn:Hl; simpl in H.
  2: { injection H as <-. simpl. split; [discriminate|]. rewrite probes_app.
       change (probes [(elapsed + tick_lock_wait (env i), EvRLock);
                       (elapsed + tick_lock_wait (env i), EvRUnlock)])
         with 0%nat.
       split; intros; lia. }
  assert (Hpr1 : probes (evs ++ [(elapsed + tick_lock_wait (env i), EvRLock);
                                 (elapsed + tick_lock_wait (env i), EvRUnlock);
                                 (elapsed + tick_lock_wait (env i),
                                  EvHttpGet port)])
                 = (probes evs + 1)%nat).
  { rewrite probes_app. reflexivity. }
  destruct (tick_probe_err (env i)) eqn:Herr; simpl in H.
  2: { injection H as <-. simpl. split; [discriminate|]. rewrite Hpr1. split.
       - intros k Hk Hnl. destruct (decide (k = i)) as [->|Hne];
           [congruence|lia].
       - intros; lia. }
  apply IH in H as (Ht & Hlive & Hok).
  split; [done|].
  rewrite probes_app, Hpr1 in Hlive, Hok.
  change (probes [(elapsed + tick_lock_wait (env i) + tick_probe_time (env i),
                   EvSleep checkInterval)])
    with 0%nat in *.
  split.
  - intros k Hk Hnl. destruct (decide (k = i)) as [->|Hne]; [congruence|].
    specialize (Hlive k ltac:(lia) Hnl). lia.
  - intros k Hk Hnl. destruct (decide (k = i)) as [->|Hne]; [congruence|].
    specialize (Hok k ltac:(lia) Hnl). lia.
Qed.

(** The times of the loop on a timely run: a probe starts less than
    [lockSlack] after the 30 seconds, and the loop returns before the last
    probe that may start has run into its timeout and been slept on. *)
Lemma waitForReady_loop_timely (env : nat -> tick) (themeName : string)
    (port : Z) (lockSlack sleepSlack : Z) :
  timely lockSlack sleepSlack env ->
  forall (n : nat) (i : nat) (elapsed : Z) (evs : list (Z * event))
         (r : probe_report),
  waitForReady_loop n env i themeName port elapsed evs = Some r ->
  elapsed < maxTimeout + lockSlack + httpTimeout + checkInterval + sleepSlack ->
  (forall t p, (t, EvHttpGet p) ∈ evs -> t < maxTimeout + lockSlack) ->
  pr_elapsed r
    < maxTimeout + lockSlack + httpTimeout + checkInterval + sleepSlack
  /\ (forall t p, (t, EvHttpGet p) ∈ pr_events r -> t < maxTimeout + lockSlack).
Proof.
  intros Hp. induction n as [|n IH]; intros i elapsed evs r H Hel Hev;
    [discriminate|].
  cbn [waitForReady_loop] in H.
  destruct (Hp i) as ([Hlw0 Hlw] & [Hpt0 Hpt] & [Hos0 Hos]).
  assert (Hci : 0 < checkInterval) by (unfold checkInterval, Second; lia).
  assert (Hht : 0 < httpTimeout) by (unfold httpTimeout, Second; lia).
  destruct (Z.leb_spec maxTimeout elapsed) as [Hge|Hlt].
  { injection H as <-. simpl. by split. }
  destruct (live (tick_processes (env i) !! themeName)) eqn:Hl; simpl in H.
  2: { injection H as <-. simpl. split; [lia|].
       intros t p Hin. apply elem_of_app in Hin as [Hin|Hin]; [eauto|].
       repeat (apply elem_of_cons in Hin as [Hin|Hin]; [discriminate|]).
       by apply elem_of_nil in Hin. }
  assert (Hev1 : forall t p,
    (t, EvHttpGet p) ∈ evs ++ [(elapsed + tick_lock_wait (env i), EvRLock);
                               (elapsed + tick_lock_wait (env i), EvRUnlock);
                               (elapsed + tick_lock_wait (env i),
                                EvHttpGet port)] ->
    t < maxTimeout + lockSlack).
  { intros t p Hin. apply elem_of_app in Hin as [Hin|Hin]; [eauto|].
    repeat (apply elem_of_cons in Hin as [Hin|Hin];
            [try discriminate; injection Hin as -> _; lia|]).
    by apply elem_of_nil in Hin. }
  destruct (tick_probe_err (env i)) eqn:Herr; simpl in H.
  2: { injection H as <-. simpl. split; [lia|exact Hev1]. }
  apply IH in H; [done|lia|].
  intros t p Hin. apply elem_of_app in Hin as [Hin|Hin]; [eauto|].
  apply elem_of_cons in Hin as [Hin|Hin]; [discriminate|].
  by apply elem_of_nil in Hin.
Qed.

Lemma punctual_timely (env : nat -> tick) : punctual env -> timely 0 0 env.
Proof. intros H k. destruct (H k) as (-> & [? ?] & ->). lia. Qed.

(** C7, as the code has it.  As long as no duration is negative the prober
    returns (31 turns are enough, and more fuel changes nothing).  It stops
    early when the registry has lost the live entry (at most [k] probes if
    that is so on turn [k]) or when a probe gets a response (at most
    [k + 1] probes if the probe of turn [k] succeeds); the timed-out return
    happens only at or after [maxTimeout].  How late it returns depends on
    how long the lock, the probes and the sleeps take: when the lock is
    granted within [lockSlack], every probe ends within the timeout of the
    HTTP client and the sleeps overshoot by no more than [sleepSlack], no
    probe starts [lockSlack] or more after [maxTimeout], and the prober
    returns before
    [maxTimeout + lockSlack + httpTimeout + checkInterval + sleepSlack].
    On a punctual run (no wait for the lock, exact sleeps) that is: no
    probe once [maxTimeout] has elapsed, and a return before 33 seconds,
    the last probe starting just under the 30 seconds and being followed
    by its own timeout and one more sleep. *)
Theorem waitForReady_returns_within_33_seconds (env : nat -> tick)
    (themeName : string) (port : Z) :
  causal env ->
  exists r,
    (forall fuel : nat, (31 <= fuel)%nat ->
       waitForReady fuel env themeName port = Some r)
    /\ (pr_result r = ProbeTimedOut -> maxTimeout <= pr_elapsed r)
    /\ (forall k, live (tick_processes (env k) !! themeName) = false ->
          (probes (pr_events r) <= k)%nat)
    /\ (forall k, tick_probe_err (env k) = false ->
          (probes (pr_events r) <= k + 1)%nat)
    /\ (forall lockSlack sleepSlack, timely lockSlack sleepSlack env ->
          pr_elapsed r
            < maxTimeout + lockSlack + httpTimeout + checkInterval + sleepSlack
          /\ (forall t p, (t, EvHttpGet p) ∈ pr_events r ->
                t < maxTimeout + lockSlack))
    /\ (punctual env ->
          pr_elapsed r < maxTimeout + httpTimeout + checkInterval
          /\ (forall t p, (t, EvHttpGet p) ∈ pr_events r -> t < maxTimeout)).
Proof.
  intros Hc.
  destruct (waitForReady_always_returns env themeName port Hc) as [r Hr].
  exists r. split; [exact Hr|].
  specialize (Hr 31%nat ltac:(lia)). unfold waitForReady in Hr.
  destruct (waitForReady_loop_stops env themeName port _ _ _ _ _ Hr)
    as (Ht & Hl & Hok).
  assert (Htimely : forall lockSlack sleepSlack,
            timely lockSlack sleepSlack env ->
            pr_elapsed r
              < maxTimeout + lockSlack + httpTimeout + checkInterval + sleepSlack
            /\ (forall t p, (t, EvHttpGet p) ∈ pr_events r ->
                  t < maxTimeout + lockSlack)).
  { intros lockSlack sleepSlack Hti.
    apply (waitForReady_loop_timely env themeName port lockSlack sleepSlack Hti
             _ _ _ _ _ Hr).
    - destruct (Hti 0%nat) as ([? ?] & _ & [? ?]).
      unfold maxTimeout, httpTimeout, checkInterval, Second. lia.
    - intros t p Hin. by apply elem_of_nil in Hin. }
  split; [done|]. split; [|split; [|split; [exact Htimely|]]].
  - intros k Hk. specialize (Hl k ltac:(lia) Hk).
    change (probes []) with 0%nat in Hl. lia.
  - intros k Hk. specialize (Hok k ltac:(lia) Hk).
    change (probes []) with 0%nat in Hok. lia.
  - intros Hp. destruct (Htimely 0 0 (punctual_timely env Hp)) as [Hb He].
    split; [lia|]. intros t p Hin. specialize (He t p Hin). lia.
Qed.

(** ** The registry lock *)

Lemma lock_discipline_app (a b : list event) :
  forall held,
  lock_discipline held (a ++ b) =
  lock_discipline held a && lock_discipline (held_after held a) b.
Proof.
  induction a as [|e a IH]; intros held; [reflexivity|].
  destruct e; simpl; rewrite ?IH; try reflexivity;
    by rewrite andb_assoc.
Qed.

Lemma held_after_app (a b : list event) :
  forall held, held_after held (a ++ b) = held_after (held_after held a) b.
Proof.
  induction a as [|e a IH]; intros held; [reflexivity|].
  destruct e; simpl; by rewrite ?IH.
Qed.

(** One blocking call between taking and releasing the lock breaks the
    discipline. *)
Lemma blocking_under_lock (body : list event) (tail : list event) (e : event) :
  Forall (fun e => lock_event e = false) body ->
  e ∈ body -> blocking e = true ->
  lock_discipline false (EvLock :: body ++ tail) = false.
Proof.
  intros Hb Hin He. simpl. rewrite lock_discipline_app.
  apply andb_false_iff. left. clear tail.
  induction body as [|x body IH]; [by apply elem_of_nil in Hin|].
  apply Forall_cons in Hb as [Hx Hb].
  apply elem_of_cons in Hin as [->|Hin].
  - destruct x; try discriminate; simpl; reflexivity.
  - destruct x; try discriminate; simpl;
      rewrite ?(IH Hb Hin), ?andb_false_r; reflexivity.
Qed.

Lemma prober_lock_discipline (env : nat -> tick) (themeName : string)
    (port : Z) :
  forall (n : nat) (i : nat) (elapsed : Z) (evs : list (Z * event))
         (r : probe_report),
  waitForReady_loop n env i themeName port elapsed evs = Some r ->
  lock_discipline false (map snd evs) = true ->
  held_after false (map snd evs) = false ->
  lock_discipline false (map snd (pr_events r)) = true.
Proof.
  induction n as [|n IH]; intros i elapsed evs r H Hd Hh; [discriminate|].
  cbn [waitForReady_loop] in H.
  destruct (maxTimeout <=? elapsed); [by injection H as <-|].
  destruct (negb (live (tick_processes (env i) !! themeName))).
  { injection H as <-. simpl. rewrite map_app, lock_discipline_app, Hd, Hh.
    reflexivity. }
  destruct (negb (tick_probe_err (env i))).
  { injection H as <-. simpl. rewrite map_app, lock_discipline_app, Hd, Hh.
    reflexivity. }
  apply IH in H; [done| |].
  - rewrite !map_app, !lock_discipline_app, !held_after_app, Hd, Hh.
    reflexivity.
  - rewrite !map_app, !held_after_app, Hh. reflexivity.
Qed.

Lemma stop_calls_no_lock (w : World) (pid : Z) :
  Forall (fun e => lock_event e = false) (stop_calls w pid).
Proof.
  unfold stop_calls.
  destruct (proc_Signal w pid), (proc_Wait w pid) as [d|];
    try destruct (d <? 5 * Second); simpl; repeat constructor.
Qed.

(** C9, as the code has it.  The lookups take the read lock around the map
    access and do nothing else; the reaper waits for its process before it
    takes the lock, and the prober releases the lock before it probes and
    sleeps: these never block while they hold the lock.  [Start], [Stop]
    and [StopAll] are serialised by the write lock: each takes it first
    and releases it when it returns, and everything it does happens in
    between.  So the lock is held across the spawn whenever [Start] gets as
    far as spawning, across the bounded wait of [Stop] whenever the entry
    is live, and across whatever blocking call a [StopAll] that returns
    has made. *)
Theorem lock_scope_of_manager_operations (w : World) (s : State)
    (themeName : string) (port : Z) (pid : Z) :
  (events (IsRunning themeName s) = [EvRLock; EvRUnlock]
   /\ events (GetPort themeName s) = [EvRLock; EvRUnlock]
   /\ events (ListRunning w s) = [EvRLock; EvRUnlock]
   /\ events (GetRunningTheme w s) = [EvRLock; EvRUnlock])
  /\ lock_discipline false (events (reaper w themeName pid s)) = true
  /\ (forall fuel env r, waitForReady fuel env themeName port = Some r ->
        lock_discipline false (map snd (pr_events r)) = true)
  /\ (holds_lock_throughout (events (Start w themeName port s)) true
      /\ ((exists dir, EvSpawn dir port ∈ events (Start w themeName port s)) ->
          lock_discipline false (events (Start w themeName port s)) = false))
  /\ (holds_lock_throughout (events (Stop w themeName s)) true
      /\ (live (processes (mgr s) !! themeName) = true ->
          lock_discipline false (events (Stop w themeName s)) = false))
  /\ (returned (StopAll w s) = true ->
      holds_lock_throughout (events (StopAll w s)) true
      /\ ((exists e, e ∈ events (StopAll w s) /\ blocking e = true) ->
          lock_discipline false (events (StopAll w s)) = false)).
Proof.
  split.
  { rewrite IsRunning_unfold, GetPort_unfold, ListRunning_unfold,
      GetRunningTheme_unfold. done. }
  split.
  { unfold reaper. destruct (proc_Wait w pid); reflexivity. }
  split.
  { intros fuel env r Hr. by eapply prober_lock_discipline. }
  split; [|split].
  - assert (H : holds_lock_throughout (events (Start w themeName port s)) true).
    { rewrite Start_unfold. cbv zeta.
      destruct (live _); [|destruct (os_Stat w _)];
        try destruct (cmd_Start w _ port); simpl events.
      all: match goal with
           | |- holds_lock_throughout (EvLock :: ?t) true =>
               exists (removelast t)
           end.
      all: split; [simpl; repeat constructor|reflexivity]. }
    split; [exact H|]. intros [dir Hin].
    destruct H as (body & Hb & Heq). rewrite Heq in Hin |- *.
    apply (blocking_under_lock body [EvUnlock] (EvSpawn dir port)); try done.
    apply elem_of_cons in Hin as [Hin|Hin]; [discriminate|].
    apply elem_of_app in Hin as [Hin|Hin]; [done|].
    apply list_elem_of_singleton in Hin. discriminate.
  - assert (H : holds_lock_throughout (events (Stop w themeName s)) true).
    { rewrite Stop_unfold.
      destruct (processes (mgr s) !! themeName) as [rt|];
        [|exists []; split; [constructor|reflexivity]].
      destruct (Process (cmd rt)) as [p|];
        [|exists []; split; [constructor|reflexivity]].
      exists (stop_calls w p). split; [apply stop_calls_no_lock|reflexivity]. }
    split; [exact H|]. intros Hl.
    apply live_Some_true in Hl as (rt & p & Hrt & Hp).
    rewrite Stop_unfold, Hrt, Hp.
    change (lock_discipline false (EvLock :: stop_calls w p ++ [EvUnlock])
            = false).
    apply (blocking_under_lock _ [EvUnlock] (EvWaitTimeout p (5 * Second)));
      [apply stop_calls_no_lock| |reflexivity].
    unfold stop_calls. set_solver.
  - assert (Hloop : Forall (fun e => lock_event e = false)
              (events (foreach (map_range w (processes (mgr s)))
                               (StopAll_body w) s))).
    { eapply Forall_impl; [apply StopAll_loop_events|].
      intros e He. by destruct e. }
    intros Hret.
    assert (H : holds_lock_throughout (events (StopAll w s)) true).
    { rewrite StopAll_unfold in Hret |- *.
      destruct (foreach _ _ _) as [[] s1 t1|s1 t1]; simpl in *;
        [|discriminate].
      by exists t1. }
    split; [exact H|]. intros (e & Hin & He).
    destruct H as (body & Hb & Heq). rewrite Heq in Hin |- *.
    apply (blocking_under_lock body [EvUnlock] e); try done.
    apply elem_of_cons in Hin as [Hin|Hin]; [by subst e|].
    apply elem_of_app in Hin as [Hin|Hin]; [done|].
    apply list_elem_of_singleton in Hin. by subst e.
Qed.

(** * Scenarios *)

Lemma world_a_faithful : faithful_range world_a.
Proof. intros m. reflexivity. Defined.

(** C1, counterexample.  No checker has been installed, the stored flags
    name no current theme (the catalog lookup says so), and theme-a is in
    the registry: the request for / is forwarded to theme-a on port 3001. *)
Lemma proxy_without_current_flag :
  shouldSkipSSRProxy "/" = false
  /\ result (GetCurrentSSRThemeName world_a 1 state_running_not_current)
       = Some ("", false)
  /\ result (SSRProxyMiddleware world_a ManagerPtr None "/"
               state_running_not_current)
       = Some (Proxy {| Name := "theme-a"; Status := StatusRunning;
                        Port := 3001 |}).
Proof. vm_compute. repeat split. Qed.

(** The registry half of C1 on its own: the flag names theme-a as current,
    the registry has no entry for it, and the request falls through. *)
Lemma current_but_not_running_falls_through :
  SSRProxyMiddleware world_a ManagerPtr
    (Some (GetCurrentSSRThemeName world_a 1)) "/" state_current_not_running
  = Ret Next state_current_not_running
        [EvDb QueryCurrentSsr true; EvRLock; EvRUnlock].
Proof. vm_compute. reflexivity. Qed.

Lemma proxy_only_to_live_theme_witness :
  faithful_range world_a
  /\ result (SSRProxyMiddleware world_a ManagerPtr
               (Some (GetCurrentSSRThemeName world_a 1)) "/" state_active)
     = Some (Proxy {| Name := "theme-a"; Status := StatusRunning;
                      Port := 3001 |})
  /\ exists s1 rt,
       (exists t1, GetCurrentSSRThemeName world_a 1 state_active
                   = Ret ("theme-a", true) s1 t1)
       /\ processes (mgr s1) !! "theme-a" = Some rt
       /\ live (Some rt) = true
       /\ 3001 = port rt.
Proof.
  split; [exact world_a_faithful|]. split; [vm_compute; reflexivity|].
  apply (proxy_only_to_live_theme world_a ManagerPtr
           (Some (GetCurrentSSRThemeName world_a 1)) "/" state_active
           {| Name := "theme-a"; Status := StatusRunning; Port := 3001 |}
           world_a_faithful).
  vm_compute. reflexivity.
Defined.

Lemma excluded_path_never_proxied_witness :
  shouldSkipSSRProxy "/robots.txt" = true
  /\ SSRProxyMiddleware world_a ManagerPtr
       (Some (GetCurrentSSRThemeName world_a 1)) "/robots.txt" state_active
     = Ret Next state_active [].
Proof.
  split; [reflexivity|].
  apply (excluded_path_never_proxied world_a ManagerPtr
           (Some (GetCurrentSSRThemeName world_a 1)) "/robots.txt" state_active).
  reflexivity.
Defined.

Lemma SwitchToOfficial_clears_flag_then_stops_witness :
  faithful_range world_a
  /\ result (SwitchToOfficial world_a 1 ManagerPtr state_active) = Some None
  /\ (exists pre post,
        events (SwitchToOfficial world_a 1 ManagerPtr state_active)
        = EvDb UpdateClearCurrent true :: pre
          ++ EvLock :: stop_calls world_a 4242 ++ EvUnlock :: post)
  /\ live (processes (mgr (final (SwitchToOfficial world_a 1 ManagerPtr
                                    state_active))) !! "theme-a") = false.
Proof.
  split; [exact world_a_faithful|].
  destruct (SwitchToOfficial_clears_flag_then_stops world_a 1 ManagerPtr
              state_active world_a_faithful)
    as (Hres & _ & _ & _ & Hptr & _).
  destruct (Hptr eq_refl) as [Hlive Hstops].
  split; [exact Hres|]. split; [|apply Hlive].
  apply (Hstops "theme-a" theme_a_running 4242); [reflexivity|reflexivity|].
  intros Hin. by apply elem_of_nil in Hin.
Defined.

Lemma SwitchToSSRTheme_commit_failure_stops_running_target_witness :
  let o := SwitchToSSRTheme world_commit_fails 1 "theme-a" ManagerPtr
             state_running_not_current in
  result o = Some (Some ErrCommit)
  /\ db (final o) = db state_running_not_current
  /\ no_spawn (events o)
  /\ EvSignalTerm 4242 ∈ events o
  /\ processes (mgr (final o)) !! "theme-a" = None
  /\ result (IsRunning "theme-a" (final o)) = Some false.
Proof.
  apply (SwitchToSSRTheme_commit_failure_stops_running_target
           world_commit_fails 1 "theme-a" state_running_not_current
           (row_a false) theme_a_running 4242);
    try reflexivity.
  apply not_elem_of_nil.
Defined.

(** C2 in three runs from the idle state.  When the spawn fails, the call
    ends with the rollback and the wrapped error, and the flags are
    untouched. *)
Lemma switch_with_failing_spawn :
  SwitchToSSRTheme world_spawn_fails 1 "theme-a" ManagerPtr state_idle
  = Ret (Some (ErrStartSSR ErrSpawnFailed)) state_idle
      [EvDb QueryTheme true; EvRLock; EvRUnlock; EvDb BeginTx true;
       EvDb TxClearCurrent true; EvDb TxSetCurrent true; EvRLock; EvRUnlock;
       EvLock; EvStat "/themes/theme-a/server.js";
       EvOpenFile "/themes/theme-a/ssr.log"; EvSpawn "/themes/theme-a" 3000;
       EvUnlock; EvTxRollback].
Proof. vm_compute. reflexivity. Qed.

(** The same when the target was running before the call, exits by itself
    while the other themes are stopped, and cannot be started again. *)
Lemma switch_with_target_gone_and_failing_spawn :
  live (processes (mgr state_running_not_current) !! "theme-a") = true
  /\ SwitchToSSRTheme world_exit_then_spawn_fails 1 "theme-a" ManagerPtr
       state_running_not_current
     = Ret (Some (ErrStartSSR ErrSpawnFailed)) state_idle
         [EvDb QueryTheme true; EvRLock; EvRUnlock; EvDb BeginTx true;
          EvDb TxClearCurrent true; EvDb TxSetCurrent true; EvRLock; EvRUnlock;
          EvLock; EvStat "/themes/theme-a/server.js";
          EvOpenFile "/themes/theme-a/ssr.log"; EvSpawn "/themes/theme-a" 3000;
          EvUnlock; EvTxRollback].
Proof. split; vm_compute; reflexivity. Qed.

(** When the commit fails, the process that was just started is stopped
    again, and the state is the idle one. *)
Lemma switch_with_failing_commit :
  SwitchToSSRTheme world_commit_fails 1 "theme-a" ManagerPtr state_idle
  = Ret (Some ErrCommit) state_idle
      [EvDb QueryTheme true; EvRLock; EvRUnlock; EvDb BeginTx true;
       EvDb TxClearCurrent true; EvDb TxSetCurrent true; EvRLock; EvRUnlock;
       EvLock; EvStat "/themes/theme-a/server.js";
       EvOpenFile "/themes/theme-a/ssr.log"; EvSpawn "/themes/theme-a" 3000;
       EvGoReaper "theme-a" 4242; EvGoWaitForReady "theme-a" 3000; EvUnlock;
       EvDb TxCommit false;
       EvLock; EvSignalTerm 4242; EvWaitTimeout 4242 (5 * Second); EvUnlock].
Proof. vm_compute. reflexivity. Qed.

(** When nothing fails, the flag is set and the theme runs on port 3000. *)
Lemma switch_succeeds :
  let o := SwitchToSSRTheme world_a 1 "theme-a" ManagerPtr state_idle in
  result o = Some None
  /\ db (final o) = [row_a true]
  /\ processes (mgr (final o)) !! "theme-a"
     = Some {| cmd := {| Process := Some 4242 |}; port := 3000; startedAt := 0 |}.
Proof. vm_compute. repeat split. Qed.

(** C6 at the failing input: one live process that ignores the termination
    signal.  [StopAll] signals it, waits, and never returns: it does not
    kill, the registry keeps its entry and the write lock is never
    released.  [Stop] on the same input kills after its bounded wait,
    returns nil and leaves the registry empty. *)
Lemma StopAll_waits_for_ever_where_Stop_kills :
  StopAll world_stubborn state_active
    = Hang state_active [EvLock; EvSignalTerm 4242; EvWait 4242]
  /\ result (ListRunning world_stubborn
               (final (StopAll world_stubborn state_active))) = Some ["theme-a"]
  /\ Stop world_stubborn "theme-a" state_active
    = Ret None (state_of ∅ true)
          [EvLock; EvSignalTerm 4242; EvWaitTimeout 4242 (5 * Second);
           EvKill 4242; EvUnlock].
Proof. vm_compute. repeat split. Qed.

(** C7, counterexample.  Every probe fails after 1.9 seconds (within the 2
    seconds of the HTTP client), the lock is free and the sleeps are exact:
    the prober returns, timed out, 31.9 seconds after it started. *)
Lemma prober_returns_after_31_seconds :
  punctual env_slow
  /\ option_map (fun r => (pr_result r, pr_elapsed r))
                (waitForReady 31 env_slow "theme-a" 3001)
     = Some (ProbeTimedOut, 31900000000)
  /\ 31 * Second < 31900000000.
Proof.
  split; [|split].
  - intros k. simpl. unfold httpTimeout, Second. lia.
  - vm_compute. reflexivity.
  - reflexivity.
Qed.

Lemma env_slow_punctual : punctual env_slow.
Proof. intros k. simpl. unfold httpTimeout, Second. lia. Defined.

(** Without a bound on the wait for the lock there is no bound on the
    prober: on a busy registry the last probe starts 32 seconds after the
    start, and the prober returns after 35 seconds, as the bounds for a
    lock granted within 4 seconds allow. *)
Lemma prober_is_late_when_the_lock_is_contended :
  timely 4000000000 0 env_contended
  /\ option_map (fun r => (pr_result r, pr_elapsed r,
                           last (List.filter is_probe (pr_events r))))
                (waitForReady 31 env_contended "theme-a" 3001)
     = Some (ProbeTimedOut, 35000000000,
             Some (32000000000, EvHttpGet 3001)).
Proof.
  split.
  - intros k. simpl. unfold httpTimeout, Second. lia.
  - vm_compute. reflexivity.
Qed.

Lemma waitForReady_returns_within_33_seconds_witness :
  causal env_slow
  /\ exists r,
       (forall fuel : nat, (31 <= fuel)%nat ->
          waitForReady fuel env_slow "theme-a" 3001 = Some r)
       /\ pr_elapsed r < maxTimeout + httpTimeout + checkInterval
       /\ (forall t p, (t, EvHttpGet p) ∈ pr_events r -> t < maxTimeout).
Proof.
  split; [exact (punctual_causal env_slow env_slow_punctual)|].
  destruct (waitForReady_returns_within_33_seconds env_slow "theme-a" 3001
              (punctual_causal env_slow env_slow_punctual))
    as (r & Hr & _ & _ & _ & _ & Hp).
  exists r. split; [exact Hr|]. exact (Hp env_slow_punctual).
Defined.

(** C9, counterexample.  [Start] spawns the runtime, [Stop] waits up to
    five seconds for the process, and [StopAll] waits for it to exit, all
    between taking the write lock and releasing it. *)
Lemma lifecycle_calls_block_under_lock :
  events (Start world_a "theme-a" 3001 state_idle)
    = [EvLock; EvStat "/themes/theme-a/server.js";
       EvOpenFile "/themes/theme-a/ssr.log"; EvSpawn "/themes/theme-a" 3001;
       EvGoReaper "theme-a" 4242; EvGoWaitForReady "theme-a" 3001; EvUnlock]
  /\ lock_discipline false (events (Start world_a "theme-a" 3001 state_idle))
     = false
  /\ lock_discipline false (events (Stop world_a "theme-a" state_active))
     = false
  /\ lock_discipline false (events (StopAll world_a state_active)) = false.
Proof. vm_compute. repeat split. Qed.

(** * Further properties *)

(** ** The registry through its lookups *)

Lemma with_processes_same (s : State) :
  with_processes (processes (mgr s)) s = s.
Proof. destruct s as [[dir ps base] d]. reflexivity. Qed.

Lemma running_names_NoDup (w : World) (ps : gmap string runningTheme) :
  faithful_range w ->
  NoDup (map fst (filter (fun nr => live (Some (snd nr)) = true)
                         (map_range w ps))).
Proof.
  intros Hr. change (map fst ?l) with (fst <$> l).
  eapply sublist_NoDup; [|apply fmap_sublist, sublist_filter].
  rewrite (Hr ps). apply NoDup_fst_map_to_list.
Qed.

(** X1. [ListRunning] changes nothing and returns each theme that
    [IsRunning] accepts exactly once, whatever order the map is ranged in;
    entries whose process handle is nil are left out. *)
Theorem ListRunning_lists_each_live_theme_once (w : World) (s : State) :
  faithful_range w ->
  exists l,
    ListRunning w s = Ret l s [EvRLock; EvRUnlock]
    /\ NoDup l
    /\ forall name, name ∈ l <-> result (IsRunning name s) = Some true.
Proof.
  intros Hr. rewrite ListRunning_unfold. eexists. split; [reflexivity|].
  split; [by apply running_names_NoDup|].
  intros name. rewrite IsRunning_unfold. simpl.
  rewrite (ListRunning_elem w s name Hr). split; congruence.
Qed.

Lemma ListRunning_lists_each_live_theme_once_witness :
  faithful_range world_a
  /\ exists l,
       ListRunning world_a state_active = Ret l state_active [EvRLock; EvRUnlock]
       /\ NoDup l
       /\ forall name,
            name ∈ l <-> result (IsRunning name state_active) = Some true.
Proof.
  split; [exact world_a_faithful|].
  exact (ListRunning_lists_each_live_theme_once world_a state_active
           world_a_faithful).
Defined.

(** X2. [GetRunningTheme] returns nil exactly when no entry of the registry
    is live, that is, exactly when [ListRunning] returns nothing; when it
    returns a theme, that theme is live and the port is the one registered
    for it. *)
Theorem GetRunningTheme_nil_iff_nothing_running (w : World) (s : State) :
  faithful_range w ->
  (result (GetRunningTheme w s) = Some None
     <-> forall name, live (processes (mgr s) !! name) = false)
  /\ (result (GetRunningTheme w s) = Some None
     <-> result (ListRunning w s) = Some [])
  /\ (forall ti, result (GetRunningTheme w s) = Some (Some ti) ->
        Status ti = StatusRunning
        /\ result (IsRunning (Name ti) s) = Some true
        /\ result (GetPort (Name ti) s) = Some (Port ti)).
Proof.
  intros Hr.
  assert (Hnil : filter (fun nr : string * runningTheme =>
                           live (Some (snd nr)) = true)
                        (map_range w (processes (mgr s))) = []
                 <-> forall name, live (processes (mgr s) !! name) = false).
  { split.
    - intros Hf name.
      destruct (live (processes (mgr s) !! name)) eqn:Hl; [|done].
      apply (ListRunning_elem w s name Hr) in Hl. rewrite Hf in Hl.
      by apply elem_of_nil in Hl.
    - intros Hall.
      destruct (filter _ _) as [|[name rt] l] eqn:Hf; [done|].
      assert (Hin : name ∈ map fst (filter (fun nr : string * runningTheme =>
                                       live (Some (snd nr)) = true)
                                    (map_range w (processes (mgr s))))).
      { rewrite Hf. simpl. apply elem_of_cons. by left. }
      apply (ListRunning_elem w s name Hr) in Hin. by rewrite Hall in Hin. }
  split; [|split].
  - rewrite GetRunningTheme_unfold. cbn [result]. rewrite <- Hnil.
    destruct (filter _ _) as [|[name rt] l]; split; try done; discriminate.
  - rewrite GetRunningTheme_unfold, ListRunning_unfold. cbn [result].
    destruct (filter _ _) as [|[name rt] l]; split; try done; discriminate.
  - intros ti Hti.
    destruct (GetRunningTheme_live w s ti Hr Hti) as (rt & Hrt & Hl & Hp).
    rewrite IsRunning_unfold, GetPort_unfold, Hrt, Hl, Hp. cbn [result].
    split; [|done].
    rewrite GetRunningTheme_unfold in Hti. cbn [result] in Hti.
    destruct (filter _ _) as [|[name rt'] l]; [discriminate|].
    by injection Hti as <-.
Qed.

Lemma GetRunningTheme_nil_iff_nothing_running_witness :
  faithful_range world_a
  /\ (result (GetRunningTheme world_a state_idle) = Some None
      <-> result (ListRunning world_a state_idle) = Some []).
Proof.
  split; [exact world_a_faithful|].
  exact (proj1 (proj2 (GetRunningTheme_nil_iff_nothing_running world_a
                         state_idle world_a_faithful))).
Defined.

(** X3. After a [Start] that returned nil the lookups agree with it:
    [IsRunning] is true, [GetPort] is the port that was passed,
    [ListRunning] lists the theme, and the answers for every other theme
    are what they were. *)
Theorem Start_then_lookups (w : World) (s : State) (themeName : string)
    (port : Z) :
  faithful_range w ->
  result (Start w themeName port s) = Some None ->
  let s' := final (Start w themeName port s) in
  result (IsRunning themeName s') = Some true
  /\ result (GetPort themeName s') = Some port
  /\ (exists l, result (ListRunning w s') = Some l /\ themeName ∈ l)
  /\ (forall other, other <> themeName ->
        IsRunning other s' = Ret (live (processes (mgr s) !! other)) s'
                                 [EvRLock; EvRUnlock]
        /\ result (GetPort other s') = result (GetPort other s))
  /\ db s' = db s.
Proof.
  intros Hr Hok s'.
  assert (Hs' : exists pid,
    s' = with_processes
           (<[themeName := {| cmd := {| Process := Some pid |}; port := port;
                              startedAt := time_Now w |}]> (processes (mgr s))) s).
  { subst s'. revert Hok. rewrite Start_unfold. cbv zeta.
    destruct (live _); [discriminate|].
    destruct (os_Stat w _); try discriminate;
      destruct (cmd_Start w _ port) as [pid|]; try discriminate;
      intros _; by exists pid. }
  destruct Hs' as [pid Hs']. rewrite Hs'.
  set (s1 := with_processes _ s).
  assert (Hlook : processes (mgr s1) !! themeName
                  = Some {| cmd := {| Process := Some pid |}; port := port;
                            startedAt := time_Now w |}).
  { subst s1. simpl. apply lookup_insert_eq. }
  assert (Hother : forall other, other <> themeName ->
            processes (mgr s1) !! other = processes (mgr s) !! other).
  { intros other Hne. subst s1. simpl. by apply lookup_insert_ne. }
  split; [by rewrite IsRunning_unfold, Hlook|].
  split; [by rewrite GetPort_unfold, Hlook|].
  split.
  { rewrite ListRunning_unfold. eexists. split; [reflexivity|].
    apply (ListRunning_elem w s1 themeName Hr). by rewrite Hlook. }
  split; [|done].
  intros other Hne. rewrite IsRunning_unfold, !GetPort_unfold.
  by rewrite (Hother other Hne).
Qed.

Lemma Start_then_lookups_witness :
  let s' := final (Start world_a "theme-a" 3001 state_idle) in
  result (IsRunning "theme-a" s') = Some true
  /\ result (GetPort "theme-a" s') = Some 3001.
Proof.
  pose proof (Start_then_lookups world_a state_idle "theme-a" 3001
                world_a_faithful eq_refl) as H.
  exact (conj (proj1 H) (proj1 (proj2 H))).
Defined.

(** X4. Starting a theme that had no entry and stopping it again gives
    back the state from before the [Start], whether the process went away
    by itself or had to be killed. *)
Theorem Start_then_Stop_restores_state (w : World) (s : State)
    (themeName : string) (port : Z) :
  processes (mgr s) !! themeName = None ->
  result (Start w themeName port s) = Some None ->
  result (Stop w themeName (final (Start w themeName port s))) = Some None
  /\ final (Stop w themeName (final (Start w themeName port s))) = s.
Proof.
  intros Hnone. rewrite Start_unfold. cbv zeta. rewrite Hnone.
  change (live None) with false. cbv iota.
  destruct (os_Stat w _); try discriminate;
    destruct (cmd_Start w _ port) as [pid|]; try discriminate; intros _;
    simpl final; rewrite Stop_unfold; simpl;
    rewrite lookup_insert_eq; simpl; (split; [done|]);
    unfold with_processes; simpl; rewrite delete_insert_id by done;
    apply with_processes_same.
Qed.

Lemma Start_then_Stop_restores_state_witness :
  final (Stop world_a "theme-a" (final (Start world_a "theme-a" 3001 state_idle)))
  = state_idle.
Proof.
  exact (proj2 (Start_then_Stop_restores_state world_a state_idle "theme-a"
                  3001 eq_refl eq_refl)).
Defined.

(** X5. [Stop] touches its own theme only: every other entry of the
    registry and the stored flags are as before.  A second [Stop] of the
    same theme finds nothing to do: it returns "theme not running" and
    leaves the state alone. *)
Theorem Stop_frame_and_repeat (w : World) (s : State) (themeName : string) :
  let s' := final (Stop w themeName s) in
  (forall other, other <> themeName ->
     processes (mgr s') !! other = processes (mgr s) !! other)
  /\ db s' = db s
  /\ themesDir (mgr s') = themesDir (mgr s)
  /\ Stop w themeName s' = Ret (Some ErrNotRunning) s' [EvLock; EvUnlock].
Proof.
  intros s'. subst s'. rewrite Stop_unfold.
  destruct (processes (mgr s) !! themeName) as [rt|] eqn:Hrt.
  - destruct (Process (cmd rt)) as [pid|] eqn:Hp; simpl.
    + split; [intros other Hne; by apply lookup_delete_ne|].
      split; [done|]. split; [done|].
      rewrite Stop_unfold. simpl. by rewrite lookup_delete_eq.
    + split; [done|]. split; [done|]. split; [done|].
      rewrite Stop_unfold, Hrt, Hp. reflexivity.
  - simpl. split; [done|]. split; [done|]. split; [done|].
    rewrite Stop_unfold, Hrt. reflexivity.
Qed.

(** X6. Once its process has exited, the reaper deletes the entry that is
    registered under its theme name.  It does not look at the process the
    entry holds, so an entry made by a later [Start] of the same theme is
    deleted as well.  The deletion is idempotent with [Stop]: on a registry
    without the entry the reaper changes nothing, and after the reaper
    [Stop] answers "theme not running". *)
Theorem reaper_deletes_by_name (w : World) (s : State) (themeName : string)
    (pid : Z) :
  proc_Wait w pid <> None ->
  let o := reaper w themeName pid s in
  result o = Some tt
  /\ final o = with_processes (delete themeName (processes (mgr s))) s
  /\ result (IsRunning themeName (final o)) = Some false
  /\ (processes (mgr s) !! themeName = None -> final o = s)
  /\ result (Stop w themeName (final o)) = Some (Some ErrNotRunning).
Proof.
  intros Hw o.
  assert (Ho : o = Ret tt
                 (with_processes (delete themeName (processes (mgr s))) s)
                 [EvWait pid; EvLock; EvUnlock]).
  { subst o. unfold reaper.
    destruct (proc_Wait w pid) as [d|]; [reflexivity|done]. }
  rewrite Ho. cbn [result final].
  split; [done|]. split; [done|]. split.
  { rewrite IsRunning_unfold. simpl. by rewrite lookup_delete_eq. }
  split.
  { intros Hnone. rewrite delete_id by done. apply with_processes_same. }
  rewrite Stop_unfold. simpl. by rewrite lookup_delete_eq.
Qed.

(** The process 4242 has exited; the registry holds theme-a with the
    process 5151 of a later start.  The reaper of 4242 removes it. *)
Lemma reaper_deletes_by_name_witness :
  let s := state_of {[ "theme-a" := {| cmd := {| Process := Some 5151 |};
                                       port := 3001; startedAt := 7 |} ]} true in
  result (IsRunning "theme-a" s) = Some true
  /\ result (IsRunning "theme-a" (final (reaper world_a "theme-a" 4242 s)))
     = Some false.
Proof.
  split; [reflexivity|].
  refine (proj1 (proj2 (proj2 (reaper_deletes_by_name world_a _ "theme-a" 4242 _)))).
  discriminate.
Defined.

(** ** [Uninstall], [GetStatus], [ListInstalled] *)

Lemma Uninstall_unfold (h : Host) (w : World) (themeName : string) (s : State) :
  Uninstall h w themeName s =
  let r := if os_RemoveAll h (Join (themesDir (mgr s)) themeName)
           then None else Some ErrRemoveTheme in
  match processes (mgr s) !! themeName with
  | Some rt =>
      match Process (cmd rt) with
      | Some pid =>
          match proc_Wait w pid with
          | Some _ =>
              Ret r (with_processes (delete themeName (processes (mgr s))) s)
                  [EvLock; EvSignalTerm pid; EvWait pid; EvUnlock]
          | None => Hang s [EvLock; EvSignalTerm pid; EvWait pid]
          end
      | None => Ret r s [EvLock; EvUnlock]
      end
  | None => Ret r s [EvLock; EvUnlock]
  end.
Proof.
  unfold Uninstall. run_op.
  destruct (processes (mgr s) !! themeName) as [rt|]; simpl.
  - destruct (Process (cmd rt)) as [pid|]; simpl.
    + destruct (proc_Wait w pid); simpl; [|reflexivity].
      destruct (os_RemoveAll h _); reflexivity.
    + destruct (os_RemoveAll h _); reflexivity.
  - destruct (os_RemoveAll h _); reflexivity.
Qed.

(** X7. [Uninstall] blocks for ever, holding the write lock and leaving the
    registry as it was, exactly when the theme is live and its process
    never exits after the termination signal: it never kills.  When it
    returns, its result is that of removing the directory, and in either
    case the theme is no longer running, the other entries are untouched
    and so are the stored flags: a removal that fails leaves the theme
    stopped. *)
Theorem Uninstall_stops_then_removes (h : Host) (w : World) (s : State)
    (themeName : string) :
  let o := Uninstall h w themeName s in
  (returned o = false <->
     exists rt pid, processes (mgr s) !! themeName = Some rt
                    /\ Process (cmd rt) = Some pid /\ proc_Wait w pid = None)
  /\ (returned o = false ->
        final o = s /\ held_after false (events o) = true)
  /\ (returned o = true ->
        result o = Some (if os_RemoveAll h (Join (themesDir (mgr s)) themeName)
                         then None else Some ErrRemoveTheme)
        /\ result (IsRunning themeName (final o)) = Some false
        /\ (forall other, other <> themeName ->
              processes (mgr (final o)) !! other = processes (mgr s) !! other)
        /\ db (final o) = db s)
  /\ Forall (fun e => match e with
                      | EvKill _ | EvWaitTimeout _ _ => False
                      | _ => True
                      end) (events o).
Proof.
  intros o. subst o. rewrite Uninstall_unfold. cbv zeta.
  rewrite IsRunning_unfold. unfold live.
  destruct (processes (mgr s) !! themeName) as [rt|] eqn:Hrt.
  - destruct (Process (cmd rt)) as [pid|] eqn:Hp.
    + destruct (proc_Wait w pid) as [d|] eqn:Hw; simpl.
      * split.
        { split; [discriminate|]. intros (rt' & pid' & [= <-] & Hp' & Hw').
          congruence. }
        split; [discriminate|]. split.
        { intros _. rewrite lookup_delete_eq. split; [done|].
          split; [done|]. split; [|done].
          intros other Hne. by apply lookup_delete_ne. }
        by repeat constructor.
      * split; [split; [eauto|done]|]. split; [done|].
        split; [discriminate|]. by repeat constructor.
    + simpl. split.
      { split; [discriminate|]. intros (rt' & pid' & [= <-] & Hp' & _).
        congruence. }
      split; [discriminate|]. split.
      { intros _. rewrite Hrt, Hp. done. }
      by repeat constructor.
  - simpl. split.
    { split; [discriminate|]. intros (rt' & pid' & Hrt' & _). discriminate. }
    split; [discriminate|]. split.
    { intros _. rewrite Hrt. done. }
    by repeat constructor.
Qed.

Lemma getStatusUnlocked_outcome (h : Host) (w : World) (themeName : string)
    (s : State) :
  exists st,
    getStatusUnlocked h w themeName s
      = Ret st s [EvStat (Join (themesDir (mgr s)) themeName)]
    /\ Name (Info st) = themeName
    /\ (Status (Info st) = StatusNotInstalled
        <-> os_Stat w (Join (themesDir (mgr s)) themeName) = StatNotExist)
    /\ (Status (Info st) = StatusRunning
        <-> os_Stat w (Join (themesDir (mgr s)) themeName) <> StatNotExist
            /\ live (processes (mgr s) !! themeName) = true)
    /\ Status (Info st) <> StatusError
    /\ Port (Info st) =
         match Status (Info st), processes (mgr s) !! themeName with
         | StatusRunning, Some rt => port rt
         | _, _ => 0
         end
    /\ (is_Some (StartedAt st) <-> Status (Info st) = StatusRunning)
    /\ (is_Some (InstalledAt st)
        <-> os_Stat w (Join (themesDir (mgr s)) themeName) = StatOk).
Proof.
  unfold getStatusUnlocked. run_op.
  destruct (os_Stat w (Join (themesDir (mgr s)) themeName)) eqn:Hst; simpl.
  2: { eexists. split; [reflexivity|]. simpl.
       repeat split; try done; try (intros [? ?]; done);
         try (intros [? ?]; discriminate); try discriminate. }
  all: unfold live;
    destruct (processes (mgr s) !! themeName) as [rt|] eqn:Hrt; simpl;
    [destruct (Process (cmd rt)) as [pid|] eqn:Hp; simpl|].
  all: eexists; (split; [reflexivity|]); simpl.
  all: repeat split; try done; try discriminate;
    try (intros [? ?]; done); try (intros [? ?]; discriminate);
    try (intros _; eauto); try (by intros [? ?]).
Qed.

(** X8. [GetStatus] changes nothing and never answers "error".  It answers
    "not installed" exactly when the directory of the theme does not exist,
    and "running" exactly when the directory is there and [IsRunning] is
    true: a theme that runs while its directory is gone is reported as not
    installed.  The port is the one [GetPort] returns when the status is
    "running", and 0 in every other status. *)
Theorem GetStatus_reports_directory_and_registry (h : Host) (w : World)
    (s : State) (themeName : string) :
  exists st,
    GetStatus h w themeName s
      = Ret st s [EvRLock; EvStat (Join (themesDir (mgr s)) themeName); EvRUnlock]
    /\ Name (Info st) = themeName
    /\ Status (Info st) <> StatusError
    /\ (Status (Info st) = StatusNotInstalled
        <-> os_Stat w (Join (themesDir (mgr s)) themeName) = StatNotExist)
    /\ (Status (Info st) = StatusRunning
        <-> os_Stat w (Join (themesDir (mgr s)) themeName) <> StatNotExist
            /\ result (IsRunning themeName s) = Some true)
    /\ (Status (Info st) = StatusRunning ->
          result (GetPort themeName s) = Some (Port (Info st)))
    /\ (Status (Info st) <> StatusRunning -> Port (Info st) = 0).
Proof.
  destruct (getStatusUnlocked_outcome h w themeName s)
    as (st & Hst & Hname & Hni & Hrun & Herr & Hport & _).
  exists st. split.
  { unfold GetStatus. revert Hst.
    generalize (getStatusUnlocked h w themeName). intros G Hst.
    run_op. rewrite Hst. reflexivity. }
  split; [done|]. split; [done|]. split; [done|].
  rewrite IsRunning_unfold, GetPort_unfold. cbn [result]. split.
  { rewrite Hrun. split; intros [? ?]; split; congruence. }
  split.
  - intros Hr. rewrite Hport, Hr. apply Hrun in Hr as [_ Hl].
    destruct (processes (mgr s) !! themeName) as [rt|]; [|done].
    by rewrite Hl.
  - intros Hr. rewrite Hport. by destruct (Status (Info st)).
Qed.

Lemma collect_listable (h : Host) (w : World) (s : State)
    (entries : list (string * bool)) :
  exists l t,
    collect entries (fun entry =>
      if (snd entry : bool) then
        emit (EvStat (Join (Join (themesDir (mgr s)) (fst entry)) "server.js")) ;;;
        match os_Stat w (Join (Join (themesDir (mgr s)) (fst entry)) "server.js") with
        | StatOk => st <- getStatusUnlocked h w (fst entry) ;; ret (Some st)
        | _ => ret None
        end
      else ret None) s = Ret l s t
    /\ map (fun st => Name (Info st)) l
       = map fst (List.filter (listable w (themesDir (mgr s))) entries).
Proof.
  induction entries as [|[name isdir] entries IH].
  - exists [], []. done.
  - destruct IH as (l & t & IH & Hnames).
    cbn [collect]. revert IH.
    match goal with
    | |- context [collect entries ?b] => generalize (collect entries b)
    end.
    intros C IH. unfold listable at 1. cbn [List.filter fst snd].
    destruct isdir; cbn [andb].
    2: { run_op. rewrite IH. simpl. eauto. }
    destruct (os_Stat w (Join (Join (themesDir (mgr s)) name) "server.js"))
      eqn:Hst.
    2,3: run_op; rewrite ?Hst; simpl; rewrite IH; simpl; eauto.
    destruct (getStatusUnlocked_outcome h w name s) as (st & Hg & Hname & _).
    revert Hg. generalize (getStatusUnlocked h w name). intros G Hg.
    run_op. rewrite ?Hst. simpl.
    rewrite Hg. simpl. rewrite IH. simpl.
    eexists _, _. split; [reflexivity|]. simpl. by rewrite Hname, Hnames.
Qed.

(** X9. [ListInstalled] changes nothing.  A themes directory that does not
    exist gives the empty list and no error, any other read error is
    returned.  Otherwise the themes listed are, in order, the directories in
    which server.js can be stat-ed, and [Start] never answers "not
    installed" for a listed theme. *)
Theorem ListInstalled_lists_startable_directories (h : Host) (w : World)
    (s : State) :
  match os_ReadDir h (themesDir (mgr s)) with
  | DirNotExist => ListInstalled h w s = Ret (inl []) s [EvRLock; EvRUnlock]
  | DirOtherError =>
      ListInstalled h w s = Ret (inr ErrReadDir) s [EvRLock; EvRUnlock]
  | DirEntries entries =>
      exists l t,
        ListInstalled h w s = Ret (inl l) s t
        /\ map (fun st => Name (Info st)) l
           = map fst (List.filter (listable w (themesDir (mgr s))) entries)
        /\ forall st port, st ∈ l ->
             result (Start w (Name (Info st)) port s)
               <> Some (Some ErrNotInstalled)
  end.
Proof.
  unfold ListInstalled.
  destruct (os_ReadDir h (themesDir (mgr s))) as [entries| |] eqn:Hrd.
  2,3: run_op; rewrite Hrd; reflexivity.
  destruct (collect_listable h w s entries) as (l & t & Hc & Hnames).
  exists l, (EvRLock :: t ++ [EvRUnlock]). split; [|split; [exact Hnames|]].
  - run_op. rewrite Hrd.
    unfold bind, ret, emit in Hc. simpl in Hc. rewrite Hc.
    simpl. by rewrite app_nil_r.
  - intros st port Hin.
    assert (Hn : In (Name (Info st))
                   (map fst (List.filter (listable w (themesDir (mgr s)))
                                         entries))).
    { rewrite <- Hnames. apply (in_map (fun st => Name (Info st))).
      by apply list_elem_of_In. }
    apply in_map_iff in Hn as ([name isdir] & Heq & Hin').
    apply List.filter_In in Hin' as [_ Hl].
    unfold listable in Hl. simpl in Heq, Hl. subst name.
    apply andb_prop in Hl as [_ Hl].
    rewrite Start_unfold. cbv zeta. unfold serverJS_path.
    destruct (live _); [discriminate|].
    destruct (os_Stat w _); try discriminate;
      destruct (cmd_Start w _ port); discriminate.
Qed.

(** The loop of [StopAll] either runs through, and then every process it
    met exits when signalled, or it hangs on a process that does not; in
    both cases the state is the one it started from. *)
Lemma StopAll_loop_outcome (w : World) (l : list (string * runningTheme))
    (s : State) :
  (exists t,
     foreach l (StopAll_body w) s = Ret tt s t
     /\ forall nr pid, nr ∈ l -> Process (cmd (snd nr)) = Some pid ->
                       proc_Wait w pid <> None)
  \/ (exists t nr pid,
        foreach l (StopAll_body w) s = Hang s t
        /\ nr ∈ l /\ Process (cmd (snd nr)) = Some pid
        /\ proc_Wait w pid = None).
Proof.
  induction l as [|nr l IH].
  { left. exists []. split; [done|]. intros nr pid Hin. by apply elem_of_nil in Hin. }
  assert (Hb : StopAll_body w nr s =
                match Process (cmd (snd nr)) with
                | Some pid =>
                    match proc_Wait w pid with
                    | Some _ => Ret tt s [EvSignalTerm pid; EvWait pid]
                    | None => Hang s [EvSignalTerm pid; EvWait pid]
                    end
                | None => Ret tt s []
                end).
  { unfold StopAll_body. destruct (Process (cmd (snd nr))); [|done].
    destruct (proc_Wait w _); by run_op. }
  cbn [foreach]. unfold bind. rewrite Hb. clear Hb.
  destruct (Process (cmd (snd nr))) as [pid|] eqn:Hp.
  - destruct (proc_Wait w pid) as [d|] eqn:Hd.
    + destruct IH as [(t & -> & Hall)|(t & nr' & pid' & -> & Hin & Hp' & Hd')].
      * left. eexists. split; [reflexivity|].
        intros nr' pid' [->|Hin]%elem_of_cons Hp'; [|by eapply Hall].
        rewrite Hp in Hp'. injection Hp' as <-. by rewrite Hd.
      * right. eexists _, nr', pid'. split; [reflexivity|].
        split; [apply elem_of_cons; by right|done].
    + right. eexists _, nr, pid. split; [reflexivity|].
      split; [apply elem_of_cons; by left|done].
  - destruct IH as [(t & -> & Hall)|(t & nr' & pid' & -> & Hin & Hp' & Hd')].
    + left. eexists. split; [reflexivity|].
      intros nr' pid' [->|Hin]%elem_of_cons Hp'; [congruence|by eapply Hall].
    + right. eexists _, nr', pid'. split; [reflexivity|].
      split; [apply elem_of_cons; by right|done].
Qed.

(** X10. [StopAll] returns exactly when every process of the registry
    exits once it has been signalled.  When it returns, the result is nil
    and the registry is empty; when it does not, the state is the one it
    started from: the registry keeps all its entries. *)
Theorem StopAll_returns_iff_every_process_exits (w : World) (s : State) :
  faithful_range w ->
  let o := StopAll w s in
  (returned o = true <->
   forall name rt pid, processes (mgr s) !! name = Some rt ->
                       Process (cmd rt) = Some pid -> proc_Wait w pid <> None)
  /\ (returned o = true ->
      result o = Some None /\ processes (mgr (final o)) = ∅)
  /\ (returned o = false -> final o = s).
Proof.
  intros Hr o. subst o. rewrite StopAll_unfold.
  destruct (StopAll_loop_outcome w (map_range w (processes (mgr s))) s)
    as [(t & -> & Hall)|(t & [name rt] & pid & -> & Hin & Hp & Hd)];
    cbn [returned result final].
  - split; [|done]. split; [|done].
    intros _ name rt pid Hrt Hp. apply (Hall (name, rt)); [|done].
    by apply range_elem.
  - split; [|done]. split; [done|].
    intros Hall. exfalso. apply (range_elem w) in Hin; [|done].
    by apply (Hall name rt pid).
Qed.

Lemma StopAll_returns_iff_every_process_exits_witness :
  returned (StopAll world_a state_active) = true
  /\ returned (StopAll world_stubborn state_active) = false.
Proof.
  split.
  - apply (proj1 (StopAll_returns_iff_every_process_exits world_a state_active
                    world_a_faithful)).
    intros name rt pid _ _. discriminate.
  - reflexivity.
Defined.

Lemma waitForReady_loop_probe_count (env : nat -> tick) (themeName : string)
    (port : Z) :
  causal env ->
  forall (fuel : nat) (n : nat) (i : nat) (elapsed : Z)
         (evs : list (Z * event)) (r : probe_report),
  waitForReady_loop fuel env i themeName port elapsed evs = Some r ->
  maxTimeout - elapsed <= Z.of_nat n * checkInterval ->
  (probes (pr_events r) <= probes evs + n)%nat.
Proof.
  intros Hc. induction fuel as [|fuel IH]; intros n i elapsed evs r H Hleft;
    [discriminate|].
  cbn [waitForReady_loop] in H.
  destruct (Z.leb_spec maxTimeout elapsed) as [Hge|Hlt].
  { injection H as <-. simpl. lia. }
  destruct (negb (live (tick_processes (env i) !! themeName))).
  { injection H as <-. simpl. rewrite probes_app.
    change (probes [_; _]) with 0%nat. lia. }
  assert (Hn : (1 <= n)%nat).
  { destruct n; [|lia]. unfold checkInterval in Hleft. lia. }
  destruct (negb (tick_probe_err (env i))).
  { injection H as <-. simpl. rewrite probes_app.
    change (probes [_; _; _]) with 1%nat. lia. }
  destruct (Hc i) as (Hlw & Hpt & Hos).
  apply (IH (n - 1)%nat) in H.
  - rewrite !probes_app in H.
    change (probes [_; _; _]) with 1%nat in H.
    change (probes [_]) with 0%nat in H. lia.
  - unfold checkInterval, Second in *. lia.
Qed.

(** X11. Whatever the durations of the lock, of the probes and of the
    sleeps, as long as none is negative, the prober returns and has issued
    at most 30 probes: one per second of the 30 seconds it may wait. *)
Theorem waitForReady_issues_at_most_30_probes (env : nat -> tick)
    (themeName : string) (port : Z) :
  causal env ->
  exists r,
    (forall fuel : nat, (31 <= fuel)%nat ->
       waitForReady fuel env themeName port = Some r)
    /\ (probes (pr_events r) <= 30)%nat.
Proof.
  intros Hc.
  destruct (waitForReady_always_returns env themeName port Hc) as [r Hr].
  exists r. split; [exact Hr|].
  specialize (Hr 31%nat ltac:(lia)). unfold waitForReady in Hr.
  apply (waitForReady_loop_probe_count env themeName port Hc _ 30%nat) in Hr.
  - exact Hr.
  - unfold maxTimeout, checkInterval, Second. lia.
Qed.

Lemma waitForReady_issues_at_most_30_probes_witness :
  causal env_slow
  /\ exists r,
       (forall fuel : nat, (31 <= fuel)%nat ->
          waitForReady fuel env_slow "theme-a" 3001 = Some r)
       /\ (probes (pr_events r) <= 30)%nat.
Proof.
  assert (Hc : causal env_slow) by (intros k; simpl; lia).
  split; [exact Hc|].
  exact (waitForReady_issues_at_most_30_probes env_slow "theme-a" 3001 Hc).
Defined.

(** ** More on the proxy middleware *)

Lemma prefix_app (a b c : string) :
  String.prefix a b = true -> String.prefix a (b ++ c)%string = true.
Proof.
  revert b. induction a as [|x a IH]; intros b H;
    [by destruct (b ++ c)%string|].
  destruct b as [|y b]; [discriminate|]. simpl in *.
  destruct (Ascii.ascii_dec x y); [by apply IH|discriminate].
Qed.

Lemma prefix_app_l (a b c : string) :
  String.prefix (a ++ b)%string c = true -> String.prefix a c = true.
Proof.
  revert c. induction a as [|x a IH]; intros c H; [by destruct c|].
  destruct c as [|y c]; [discriminate|]. simpl in *.
  destruct (Ascii.ascii_dec x y); [by apply IH|discriminate].
Qed.

(** X12. Apart from the five well-known files, the exclusion set is closed
    under going down: when a path is excluded because of its prefix, so is
    every path that extends it.  No path under /static/ or /assets/ is
    excluded. *)
Theorem exclusion_set_is_closed_under_subpaths (path : string) :
  shouldSkipSSRProxy path = true ->
  path ∉ exactPaths ->
  forall rest,
    shouldSkipSSRProxy (path ++ rest)%string = true
    /\ shouldSkipSSRProxy ("/static/" ++ rest)%string = false
    /\ shouldSkipSSRProxy ("/assets/" ++ rest)%string = false.
Proof.
  intros Hskip Hex rest. split; [|split; reflexivity].
  apply shouldSkipSSRProxy_spec in Hskip as [Hin|(p & Hin & Hp)]; [done|].
  apply shouldSkipSSRProxy_spec. right. exists p. split; [done|].
  by apply prefix_app.
Qed.

Lemma exclusion_set_is_closed_under_subpaths_witness :
  shouldSkipSSRProxy "/api/themes" = true
  /\ shouldSkipSSRProxy "/api/themes/1/start" = true.
Proof.
  split; [reflexivity|].
  refine (proj1 (exclusion_set_is_closed_under_subpaths "/api/themes"
                   eq_refl _ "/1/start")).
  unfold exactPaths. intros Hin.
  repeat (apply elem_of_cons in Hin as [Hin|Hin]; [discriminate|]).
  by apply elem_of_nil in Hin.
Defined.

(** X13. What the router calls an admin path (/admin, /login and what lies
    below them) is in the exclusion set of the proxy: the middleware hands
    such a request on without reading the flag or the registry, and the
    router does not use an external theme for it. *)
Theorem admin_paths_are_never_proxied (w : World) (ssrManager : ManagerRef)
    (ssrThemeChecker : option (Op (string * bool))) (path : string) (s : State) :
  isAdminPath path = true ->
  shouldSkipSSRProxy path = true
  /\ SSRProxyMiddleware w ssrManager ssrThemeChecker path s = Ret Next s []
  /\ shouldUseExternalTheme w path = false.
Proof.
  intros Hadmin.
  assert (Hskip : shouldSkipSSRProxy path = true).
  { apply shouldSkipSSRProxy_spec. right.
    unfold isAdminPath, adminPrefixes in Hadmin. simpl in Hadmin.
    rewrite orb_false_r in Hadmin.
    apply orb_prop in Hadmin as [H|H]; apply orb_prop in H as [H|H].
    - apply String.eqb_eq in H. subst. exists "/admin".
      split; [|reflexivity]. unfold skipPrefixes. set_solver.
    - exists "/admin". split; [unfold skipPrefixes; set_solver|].
      by apply (prefix_app_l "/admin" "/").
    - apply String.eqb_eq in H. subst. exists "/login".
      split; [|reflexivity]. unfold skipPrefixes. set_solver.
    - exists "/login". split; [unfold skipPrefixes; set_solver|].
      by apply (prefix_app_l "/login" "/"). }
  split; [done|]. split.
  - unfold SSRProxyMiddleware. destruct ssrManager; [done|]. by rewrite Hskip.
  - unfold shouldUseExternalTheme. by rewrite Hadmin.
Qed.

Lemma admin_paths_are_never_proxied_witness :
  isAdminPath "/admin/dashboard" = true
  /\ SSRProxyMiddleware world_a ManagerPtr
       (Some (GetCurrentSSRThemeName world_a 1)) "/admin/dashboard" state_active
     = Ret Next state_active [].
Proof.
  split; [reflexivity|].
  exact (proj1 (proj2 (admin_paths_are_never_proxied world_a ManagerPtr
                         (Some (GetCurrentSSRThemeName world_a 1))
                         "/admin/dashboard" state_active eq_refl))).
Defined.

(** The first row of the user that is marked current and is an SSR theme:
    what the catalog lookup of the middleware finds. *)
Lemma GetCurrentSSRThemeName_unfold (w : World) (userID : Z) (s : State) :
  GetCurrentSSRThemeName w userID s =
  Ret (if db_fails w QueryCurrentSsr then ("", false)
       else match List.find (fun r => (UserID r =? userID) && IsCurrent r
                                      && is_ssr (Deploy r)) (db s) with
            | Some theme => (ThemeName theme, true)
            | None => ("", false)
            end) s [EvDb QueryCurrentSsr (negb (db_fails w QueryCurrentSsr))].
Proof.
  unfold GetCurrentSSRThemeName, db_stmt. run_op.
  destruct (db_fails w QueryCurrentSsr); simpl; [reflexivity|].
  destruct (List.find _ (db s)); reflexivity.
Qed.

(** X14. With the catalog lookup as its checker, the middleware forwards a
    request exactly when the path is outside the exclusion set, the lookup
    succeeds and finds a current SSR row of the user, the registry holds a
    live entry under the name of that row, and the port of the entry is not
    negative; the target is that entry.  In particular a failing lookup, a
    missing entry or a negative port make the request fall through. *)
Theorem catalog_checker_forwards_exactly_when (w : World) (userID : Z)
    (path : string) (s : State) (ti : ThemeInfo) :
  result (SSRProxyMiddleware w ManagerPtr
            (Some (GetCurrentSSRThemeName w userID)) path s) = Some (Proxy ti)
  <-> shouldSkipSSRProxy path = false
      /\ db_fails w QueryCurrentSsr = false
      /\ exists row rt,
           List.find (fun r => (UserID r =? userID) && IsCurrent r
                               && is_ssr (Deploy r)) (db s) = Some row
           /\ processes (mgr s) !! ThemeName row = Some rt
           /\ live (Some rt) = true
           /\ 0 <= port rt
           /\ ti = {| Name := ThemeName row; Status := StatusRunning;
                      Port := port rt |}.
Proof.
  unfold SSRProxyMiddleware.
  destruct (shouldSkipSSRProxy path); [split; [discriminate|by intros [? _]]|].
  unfold bind at 1. rewrite GetCurrentSSRThemeName_unfold.
  destruct (db_fails w QueryCurrentSsr);
    [split; [discriminate|by intros (_ & ? & _)]|].
  destruct (List.find _ (db s)) as [row|] eqn:Hfind.
  2: { split; [discriminate|]. by intros (_ & _ & row & rt & ? & _). }
  cbn [fst snd negb]. unfold bind at 1. rewrite IsRunning_unfold.
  destruct (live (processes (mgr s) !! ThemeName row)) eqn:Hl.
  2: { unfold serve. run_op. split; [discriminate|].
       intros (_ & _ & row' & rt' & [= <-] & Hrt' & Hl' & _).
       rewrite Hrt' in Hl. congruence. }
  destruct (processes (mgr s) !! ThemeName row) as [rt|] eqn:Hrt;
    [|by unfold live in Hl].
  unfold bind at 1. rewrite GetPort_unfold, Hrt, Hl. unfold serve. cbn [Port].
  unfold url_Parse_ok.
  destruct (Z.leb_spec 0 (port rt)) as [Hp|Hp].
  - run_op. split.
    + intros [= <-]. split; [done|]. split; [done|]. exists row, rt. done.
    + intros (_ & _ & row' & rt' & [= <-] & Hrt' & _ & _ & ->).
      congruence.
  - split; [discriminate|].
    intros (_ & _ & row' & rt' & [= <-] & Hrt' & _ & Hp' & _).
    assert (rt' = rt) as -> by congruence. lia.
Qed.

(** X15. The middleware only reads.  With the catalog lookup as its
    checker, or with no checker at all, it always returns, leaves the
    registry and the stored flags as they were, never takes the write lock
    and never acts on a process. *)
Theorem middleware_only_reads (w : World) (ssrManager : ManagerRef)
    (userID : Z) (installed : bool) (path : string) (s : State) :
  let o := SSRProxyMiddleware w ssrManager
             (if installed then Some (GetCurrentSSRThemeName w userID) else None)
             path s in
  returned o = true
  /\ final o = s
  /\ Forall (fun e => e <> EvLock /\ e <> EvUnlock /\ process_action e = false)
            (events o).
Proof.
  assert (H : exists r t,
            SSRProxyMiddleware w ssrManager
              (if installed then Some (GetCurrentSSRThemeName w userID) else None)
              path s = Ret r s t
            /\ Forall (fun e => e <> EvLock /\ e <> EvUnlock
                                /\ process_action e = false) t).
  { unfold SSRProxyMiddleware.
    destruct ssrManager; [by eexists _, _|].
    destruct (shouldSkipSSRProxy path); [by eexists _, _|].
    destruct installed.
    - unfold bind at 1. rewrite GetCurrentSSRThemeName_unfold.
      destruct (db_fails w QueryCurrentSsr); [unfold serve; run_op; eexists _, _; (split; [reflexivity|]);
        apply List.Forall_forall; intros e He; simpl in He;
        by destruct_or!; subst|].
      destruct (List.find _ (db s)) as [row|]; [|unfold serve; run_op; eexists _, _; (split; [reflexivity|]);
        apply List.Forall_forall; intros e He; simpl in He;
        by destruct_or!; subst].
      cbn [fst snd negb]. unfold bind at 1. rewrite IsRunning_unfold.
      destruct (live _); [|unfold serve; run_op; eexists _, _; (split; [reflexivity|]);
        apply List.Forall_forall; intros e He; simpl in He;
        by destruct_or!; subst].
      unfold bind at 1. rewrite GetPort_unfold. unfold serve. cbn [Port].
      destruct (url_Parse_ok _); unfold serve; run_op; eexists _, _; (split; [reflexivity|]);
        apply List.Forall_forall; intros e He; simpl in He;
        by destruct_or!; subst.
    - unfold bind at 1. rewrite GetRunningTheme_unfold.
      destruct (filter _ _) as [|[name rt] l]; [unfold serve; run_op; eexists _, _; (split; [reflexivity|]);
        apply List.Forall_forall; intros e He; simpl in He;
        by destruct_or!; subst|].
      unfold serve. cbn [Port].
      destruct (url_Parse_ok _); unfold serve; run_op; eexists _, _; (split; [reflexivity|]);
        apply List.Forall_forall; intros e He; simpl in He;
        by destruct_or!; subst. }
  intros o. subst o. destruct H as (r & t & -> & H). done.
Qed.

(** ** The catalog of installed themes *)

Lemma set_IsCurrent_same (r : UserInstalledTheme) (b : bool) :
  IsCurrent r = b -> set_IsCurrent b r = r.
Proof. intros <-. by destruct r. Qed.

Lemma clear_current_true_eq (userID : Z) (d : list UserInstalledTheme) :
  clear_current_true userID d = clear_current userID d.
Proof.
  unfold clear_current_true, clear_current. apply map_ext. intros r.
  destruct (UserID r =? userID); [|done].
  destruct (IsCurrent r) eqn:E; [done|]. simpl.
  symmetry. by apply set_IsCurrent_same.
Qed.

Lemma current_rows_clear_current (userID : Z) (d : list UserInstalledTheme) :
  current_rows userID (clear_current userID d) = [].
Proof.
  unfold current_rows, clear_current.
  induction d as [|r d IH]; [done|]. simpl.
  destruct (UserID r =? userID) eqn:E; simpl; rewrite E; simpl; [done|].
  exact IH.
Qed.

Lemma clear_current_other_users (userID : Z) (d : list UserInstalledTheme)
    (r : UserInstalledTheme) :
  In r d -> UserID r <> userID -> In r (clear_current userID d).
Proof.
  intros Hin Hu. unfold clear_current. apply in_map_iff. exists r.
  split; [|done]. destruct (Z.eqb_spec (UserID r) userID); done.
Qed.

Lemma clear_current_ids (userID : Z) (d : list UserInstalledTheme) :
  map ID (clear_current userID d) = map ID d.
Proof.
  unfold clear_current. rewrite map_map. apply map_ext. intros r.
  by destruct (UserID r =? userID).
Qed.

(** X16. [ClearAllThemeCurrentStatus] touches the stored flags only: it
    always returns and leaves the registry alone.  When its update fails
    nothing is changed; otherwise the table is the one the update of
    [SwitchToOfficial] writes, in which no row of the user is current, the
    rows of the other users are as they were and no row is added, removed
    or given another ID. *)
Theorem ClearAllThemeCurrentStatus_clears_flags_of_that_user_only
    (c : Catalog) (userID : Z) (s : State) :
  let o := ClearAllThemeCurrentStatus c userID s in
  returned o = true /\ mgr (final o) = mgr s /\ events o = []
  /\ if stmt_fails c ClearCurrentOfUser
     then result o = Some (Some ErrClearStatus) /\ final o = s
     else result o = Some None
          /\ db (final o) = clear_current userID (db s)
          /\ current_rows userID (db (final o)) = []
          /\ (forall r, In r (db s) -> UserID r <> userID -> In r (db (final o)))
          /\ map ID (db (final o)) = map ID (db s).
Proof.
  intros o. subst o. unfold ClearAllThemeCurrentStatus.
  destruct (stmt_fails c ClearCurrentOfUser); run_op; [done|].
  rewrite clear_current_true_eq. split_and!; try done.
  - apply current_rows_clear_current.
  - apply clear_current_other_users.
  - apply clear_current_ids.
Qed.

Lemma unset_current_lowers (id : Z) (d : list UserInstalledTheme)
    (r : UserInstalledTheme) :
  In r (unset_current id d) -> IsCurrent r = true -> In r d.
Proof.
  unfold unset_current. intros Hin Hc.
  apply in_map_iff in Hin as (r0 & <- & Hin).
  destruct (ID r0 =? id); [discriminate|done].
Qed.

Lemma clear_current_lowers (userID : Z) (d : list UserInstalledTheme)
    (r : UserInstalledTheme) :
  In r (clear_current userID d) -> IsCurrent r = true -> In r d.
Proof.
  unfold clear_current. intros Hin Hc.
  apply in_map_iff in Hin as (r0 & <- & Hin).
  destruct (UserID r0 =? userID); [discriminate|done].
Qed.

(** The repair loop of [FixThemeCurrentStatus] over the rows [l]. *)
Lemma fix_loop_outcome (c : Catalog) (body : UserInstalledTheme -> Op unit)
    (l : list UserInstalledTheme) (s : State) :
  (forall theme s0,
     body theme s0 =
     Ret tt (if update_one_fails c (ID theme) then s0
             else {| mgr := mgr s0; db := unset_current (ID theme) (db s0) |})
         []) ->
  exists s',
    foreach l body s = Ret tt s' []
    /\ mgr s' = mgr s
    /\ db s' = fold_left (fun d theme =>
                            if update_one_fails c (ID theme) then d
                            else unset_current (ID theme) d) l (db s).
Proof.
  intros Hbody.
  revert s. induction l as [|theme l IH]; intros s; cbn [foreach fold_left].
  { by exists s. }
  unfold bind at 1. rewrite Hbody.
  destruct (update_one_fails c (ID theme)).
  - destruct (IH s) as (s' & -> & Hm & Hd). by exists s'.
  - destruct (IH {| mgr := mgr s; db := unset_current (ID theme) (db s) |})
      as (s' & -> & Hm & Hd). by exists s'.
Qed.

Lemma FixThemeCurrentStatus_static (w : World) (c : Catalog) (userID : Z)
    (s : State) :
  static_mode_active w = true ->
  stmt_fails c QueryCurrentThemes = false ->
  exists s',
    FixThemeCurrentStatus w c userID s = Ret None s' []
    /\ mgr s' = mgr s
    /\ db s' = fold_left (fun d theme =>
                            if update_one_fails c (ID theme) then d
                            else unset_current (ID theme) d)
                         (tl (current_rows userID (db s))) (db s).
Proof.
  intros Hs Hq. unfold FixThemeCurrentStatus. rewrite Hs, Hq.
  cbn [negb andb]. unfold bind at 1, get_db. unfold bind at 1.
  match goal with
  | |- context [foreach ?l ?b ?s0] =>
      destruct (fix_loop_outcome c b l s0) as (s' & Hl & Hm & Hd);
        [intros theme s1; by destruct (update_one_fails c (ID theme))|];
        rewrite Hl
  end.
  exists s'. done.
Qed.

Lemma fix_loop_lowers (c : Catalog) (l d : list UserInstalledTheme)
    (r : UserInstalledTheme) :
  In r (fold_left (fun d theme =>
                     if update_one_fails c (ID theme) then d
                     else unset_current (ID theme) d) l d) ->
  IsCurrent r = true -> In r d.
Proof.
  revert d. induction l as [|theme l IH]; intros d Hin Hc; [done|].
  simpl in Hin. apply IH in Hin; [|done].
  destruct (update_one_fails c (ID theme)); [done|].
  by apply unset_current_lowers in Hin.
Qed.

(** X17. [FixThemeCurrentStatus] only ever lowers flags: it always returns,
    leaves the registry alone, and a row that is current afterwards was
    current, and the same, before.  Outside static mode it changes nothing
    when the existence check finds a current SSR row of the user, however
    many rows are current; when the check finds none, or fails, it clears
    every flag of the user, unless that update fails. *)
Theorem FixThemeCurrentStatus_only_lowers_flags (w : World) (c : Catalog)
    (userID : Z) (s : State) :
  let o := FixThemeCurrentStatus w c userID s in
  let found := existsb (fun r => (UserID r =? userID) && IsCurrent r
                                 && is_ssr (Deploy r)) (db s) in
  returned o = true /\ mgr (final o) = mgr s
  /\ (forall r, In r (db (final o)) -> IsCurrent r = true -> In r (db s))
  /\ (static_mode_active w = false ->
      if negb (stmt_fails c ExistCurrentSsr) && found
      then result o = Some None /\ final o = s
      else if stmt_fails c ClearCurrentOfUser
      then result o = Some (Some ErrFixStatus) /\ final o = s
      else result o = Some None /\ db (final o) = clear_current userID (db s)).
Proof.
  intros o found. subst o found. unfold FixThemeCurrentStatus.
  destruct (static_mode_active w) eqn:Hs.
  - cbn [negb andb].
    destruct (stmt_fails c QueryCurrentThemes) eqn:Hq; [by run_op|].
    destruct (FixThemeCurrentStatus_static w c userID s Hs Hq)
      as (s' & Hfix & Hm & Hd).
    unfold FixThemeCurrentStatus in Hfix. rewrite Hs, Hq in Hfix.
    cbn [negb andb] in Hfix. rewrite Hfix. simpl.
    split_and!; try done.
    intros r. rewrite Hd. apply fix_loop_lowers.
  - cbn [negb andb].
    destruct (stmt_fails c ExistCurrentSsr); cbn [negb andb].
    + destruct (stmt_fails c ClearCurrentOfUser); run_op; [done|].
      rewrite clear_current_true_eq. split_and!; try done.
      intros r. apply clear_current_lowers.
    + run_op. destruct (existsb _ (db s)); simpl; [done|].
      destruct (stmt_fails c ClearCurrentOfUser); simpl; [done|].
      rewrite clear_current_true_eq. split_and!; try done.
      intros r. apply clear_current_lowers.
Qed.

Lemma unique_ids_filter (p : UserInstalledTheme -> bool)
    (d : list UserInstalledTheme) :
  NoDup (map ID d) -> NoDup (map ID (List.filter p d)).
Proof.
  induction d as [|r d IH]; [done|]. simpl. intros Hnd.
  apply NoDup_cons in Hnd as [Hr Hnd].
  destruct (p r); simpl; [|by apply IH].
  apply NoDup_cons. split; [|by apply IH].
  intros Hin%list_elem_of_In. apply Hr. apply list_elem_of_In.
  apply in_map_iff in Hin as (r' & Hid & Hin).
  apply List.filter_In in Hin as [Hin _].
  apply in_map_iff. by exists r'.
Qed.

Lemma current_rows_unset_current (userID id : Z) (d : list UserInstalledTheme) :
  current_rows userID (unset_current id d)
  = List.filter (fun r => negb (ID r =? id)) (current_rows userID d).
Proof.
  unfold current_rows, unset_current.
  induction d as [|r d IH]; [done|]. simpl.
  destruct (ID r =? id) eqn:E; simpl.
  - rewrite andb_false_r.
    destruct ((UserID r =? userID) && IsCurrent r); simpl; rewrite ?E; simpl;
      exact IH.
  - destruct ((UserID r =? userID) && IsCurrent r); simpl; rewrite ?E; simpl;
      by rewrite IH.
Qed.

Lemma current_rows_fix_loop (c : Catalog) (userID : Z)
    (l d : list UserInstalledTheme) :
  current_rows userID
    (fold_left (fun d theme => if update_one_fails c (ID theme) then d
                               else unset_current (ID theme) d) l d)
  = List.filter (fun r => forallb (fun theme => update_one_fails c (ID theme)
                                                || negb (ID r =? ID theme)) l)
                (current_rows userID d).
Proof.
  revert d. induction l as [|theme l IH]; intros d; simpl.
  { induction (current_rows userID d) as [|r rs IHr]; [done|].
    simpl. by rewrite <- IHr. }
  rewrite IH. destruct (update_one_fails c (ID theme)); simpl; [done|].
  rewrite current_rows_unset_current.
  induction (current_rows userID d) as [|r rs IHr]; [done|]. simpl.
  destruct (ID r =? ID theme); simpl; [exact IHr|].
  destruct (forallb _ l); by rewrite IHr.
Qed.

Lemma repaired_when_id_differs (f : Z -> bool) (r : UserInstalledTheme)
    (l : list UserInstalledTheme) :
  ~ In (ID r) (map ID l) ->
  forallb (fun theme => f (ID theme) || negb (ID r =? ID theme)) l = true.
Proof.
  intros Hr. apply forallb_forall. intros theme Hin.
  destruct (Z.eqb_spec (ID r) (ID theme)) as [E|E]; [|by rewrite orb_true_r].
  exfalso. apply Hr. rewrite E. by apply in_map.
Qed.

Lemma repaired_unless_update_failed (f : Z -> bool) (r : UserInstalledTheme)
    (l : list UserInstalledTheme) :
  NoDup (map ID l) -> In r l ->
  forallb (fun theme => f (ID theme) || negb (ID r =? ID theme)) l = f (ID r).
Proof.
  induction l as [|a l IH]; [done|]. simpl. intros Hnd Hin.
  apply NoDup_cons in Hnd as [Ha Hnd]. rewrite list_elem_of_In in Ha.
  destruct Hin as [->|Hin].
  - rewrite Z.eqb_refl, orb_false_r.
    rewrite repaired_when_id_differs; [|done]. apply andb_true_r.
  - rewrite IH; [|done..].
    destruct (Z.eqb_spec (ID r) (ID a)) as [E|E]; [|by rewrite orb_true_r].
    exfalso. apply Ha. rewrite <- E. by apply in_map.
Qed.

(** X18. In static mode, on a table with unique IDs and when the query for
    the current rows succeeds, [FixThemeCurrentStatus] returns nil and keeps
    as current the first row the query gave and, besides it, only rows whose
    update failed: when every update succeeds, at most one row of the user
    is current afterwards, and one is if one was. *)
Theorem FixThemeCurrentStatus_keeps_the_first_current_row (w : World)
    (c : Catalog) (userID : Z) (s : State) :
  static_mode_active w = true ->
  stmt_fails c QueryCurrentThemes = false ->
  NoDup (map ID (db s)) ->
  let o := FixThemeCurrentStatus w c userID s in
  result o = Some None
  /\ current_rows userID (db (final o))
     = match current_rows userID (db s) with
       | [] => []
       | first :: others =>
           first :: List.filter (fun theme => update_one_fails c (ID theme)) others
       end
  /\ ((forall id, update_one_fails c id = false) ->
      current_rows userID (db (final o)) = firstn 1 (current_rows userID (db s))).
Proof.
  intros Hs Hq Hnd o. subst o.
  destruct (FixThemeCurrentStatus_static w c userID s Hs Hq)
    as (s' & -> & Hm & Hd).
  cbn [result final]. split; [done|].
  assert (Hrows : current_rows userID (db s')
     = match current_rows userID (db s) with
       | [] => []
       | first :: others =>
           first :: List.filter (fun theme => update_one_fails c (ID theme)) others
       end).
  { rewrite Hd, current_rows_fix_loop.
    pose proof (unique_ids_filter
                  (fun r => (UserID r =? userID) && IsCurrent r) _ Hnd) as Hcur.
    fold (current_rows userID (db s)) in Hcur.
    destruct (current_rows userID (db s)) as [|first others]; [done|].
    simpl in Hcur. apply NoDup_cons in Hcur as [Hfirst Hothers].
    rewrite list_elem_of_In in Hfirst.
    cbn [tl List.filter]. rewrite repaired_when_id_differs; [|done].
    f_equal. apply filter_ext_in. intros r Hin.
    by apply repaired_unless_update_failed. }
  split; [exact Hrows|].
  intros Hok. rewrite Hrows.
  destruct (current_rows userID (db s)) as [|first others]; [done|].
  simpl. f_equal. clear -Hok.
  induction others as [|r rs IH]; [done|]. simpl. by rewrite Hok.
Qed.

Lemma FixThemeCurrentStatus_keeps_the_first_current_row_witness :
  current_rows 1 (db (state_ab true true)) = rows_ab true true
  /\ current_rows 1
       (db (final (FixThemeCurrentStatus world_static catalog_ok 1
                     (state_ab true true))))
     = firstn 1 (rows_ab true true).
Proof.
  split; [reflexivity|].
  refine (proj2 (proj2 (FixThemeCurrentStatus_keeps_the_first_current_row
                          world_static catalog_ok 1 (state_ab true true)
                          eq_refl eq_refl _)) _).
  - cbv [state_ab rows_ab db map ID].
    apply NoDup_cons_2; [|apply NoDup_singleton].
    intros H%elem_of_cons. by destruct H as [H|H%elem_of_nil].
  - reflexivity.
Defined.

Lemma find_theme_row (userID : Z) (themeName : string)
    (d : list UserInstalledTheme) (theme : UserInstalledTheme) :
  find_theme userID themeName d = Some theme ->
  In theme d /\ UserID theme = userID /\ ThemeName theme = themeName.
Proof.
  unfold find_theme. intros H. apply find_some in H as [Hin H].
  apply andb_prop in H as [Hu Hn].
  apply Z.eqb_eq in Hu. apply String.eqb_eq in Hn. done.
Qed.

Lemma find_theme_app (userID : Z) (themeName : string)
    (d d' : list UserInstalledTheme) :
  find_theme userID themeName (d ++ d')
  = match find_theme userID themeName d with
    | Some theme => Some theme
    | None => find_theme userID themeName d'
    end.
Proof.
  unfold find_theme. induction d as [|r d IH]; [done|]. simpl.
  by destruct ((UserID r =? userID) && String.eqb (ThemeName r) themeName).
Qed.

(** X19. [InstallSSRTheme] records a theme without activating it.  It
    always returns and leaves the registry alone; the rows that were there
    stay, and for every user the current rows are the same as before.  An
    error leaves the table as it was.  After a success the user has a row
    of that name: the one that was found, or else a new SSR row that is not
    current; installing the same theme again adds no second row. *)
Theorem InstallSSRTheme_records_the_theme_without_activating_it
    (c : Catalog) (userID : Z) (themeName version : string) (marketID : Z)
    (s : State) :
  let o := InstallSSRTheme c userID themeName version marketID s in
  returned o = true /\ mgr (final o) = mgr s /\ events o = []
  /\ (forall u, current_rows u (db (final o)) = current_rows u (db s))
  /\ (forall r, In r (db s) -> In r (db (final o)))
  /\ (result o <> Some None -> final o = s)
  /\ (result o = Some None ->
      (exists theme,
         find_theme userID themeName (db (final o)) = Some theme
         /\ (find_theme userID themeName (db s) = Some theme
             \/ find_theme userID themeName (db s) = None
                /\ IsCurrent theme = false /\ Deploy theme = DeployTypeSsr))
      /\ final (InstallSSRTheme c userID themeName version marketID (final o))
         = final o).
Proof.
  intros o. subst o. unfold InstallSSRTheme.
  destruct (stmt_fails c ExistTheme) eqn:He; [by run_op|].
  destruct (find_theme userID themeName (db s)) as [theme|] eqn:Hfind.
  - destruct (stmt_fails c UpdateThemeVersion) eqn:Hu; run_op;
      rewrite Hfind; simpl; rewrite ?Hu; simpl; split_and!; try done.
    intros _. split; [exists theme; rewrite Hfind; auto|].
    by rewrite Hfind.
  - destruct (stmt_fails c CreateTheme) eqn:Hc; run_op; rewrite Hfind; simpl;
      rewrite ?Hc; simpl; split_and!; try done.
    + intros u. unfold current_rows. rewrite List.filter_app. simpl.
      rewrite andb_false_r. apply app_nil_r.
    + intros r Hin. apply in_or_app. by left.
    + intros _. rewrite find_theme_app, Hfind.
      unfold find_theme at 1 2. simpl.
      rewrite Z.eqb_refl, String.eqb_refl. simpl.
      split; [eexists; split; [reflexivity|right; done]|].
      by destruct (stmt_fails c UpdateThemeVersion).
Qed.

Lemma unique_ids_inj (d : list UserInstalledTheme) (r r' : UserInstalledTheme) :
  NoDup (map ID d) -> In r d -> In r' d -> ID r = ID r' -> r = r'.
Proof.
  induction d as [|x d IH]; intros Hnd Hr Hr' Hid; [done|].
  simpl in Hnd. apply NoDup_cons in Hnd as [Hx Hnd].
  rewrite list_elem_of_In in Hx.
  destruct Hr as [->|Hr], Hr' as [->|Hr']; [done| | |by apply IH].
  - exfalso. apply Hx. rewrite Hid. by apply in_map.
  - exfalso. apply Hx. rewrite <- Hid. by apply in_map.
Qed.

(** X20. On a table with unique IDs [UninstallSSRTheme] deletes at most
    the row it found, and never a current one.  It always returns and
    leaves the registry alone; it adds no row; every current row and every
    row of another user stays; an error leaves the table as it was.  A
    success with a row found means that row was not current and is gone;
    with no row found the call succeeds and changes nothing. *)
Theorem UninstallSSRTheme_never_deletes_a_current_row (c : Catalog)
    (userID : Z) (themeName : string) (s : State) :
  NoDup (map ID (db s)) ->
  let o := UninstallSSRTheme c userID themeName s in
  returned o = true /\ mgr (final o) = mgr s /\ events o = []
  /\ (forall r, In r (db (final o)) -> In r (db s))
  /\ (forall r, In r (db s) -> IsCurrent r = true -> In r (db (final o)))
  /\ (forall r, In r (db s) -> UserID r <> userID -> In r (db (final o)))
  /\ (result o <> Some None -> final o = s)
  /\ (result o = Some None ->
      forall theme, find_theme userID themeName (db s) = Some theme ->
                    IsCurrent theme = false /\ ~ In theme (db (final o)))
  /\ (stmt_fails c QueryFirstTheme = false ->
      find_theme userID themeName (db s) = None ->
      result o = Some None /\ final o = s).
Proof.
  intros Hnd o. subst o. unfold UninstallSSRTheme.
  destruct (stmt_fails c QueryFirstTheme) eqn:Hq; [by run_op|].
  destruct (find_theme userID themeName (db s)) as [theme|] eqn:Hfind;
    [|run_op; rewrite Hfind; simpl; split_and!; done].
  destruct (find_theme_row _ _ _ _ Hfind) as (Hin & Hu & Hn).
  destruct (IsCurrent theme) eqn:Hcur;
    [run_op; rewrite Hfind; simpl; rewrite Hcur; simpl; split_and!; done|].
  destruct (stmt_fails c DeleteTheme) eqn:Hd;
    run_op; rewrite Hfind; simpl; rewrite Hcur; simpl; rewrite ?Hd; simpl;
    [split_and!; done|].
  unfold delete_row. split_and!; try done.
  - intros r Hr. by apply List.filter_In in Hr as [Hr _].
  - intros r Hr Hc. apply List.filter_In. split; [done|].
    destruct (Z.eqb_spec (ID r) (ID theme)) as [E|E]; [|done].
    assert (r = theme) by by apply (unique_ids_inj (db s)). congruence.
  - intros r Hr Hc. apply List.filter_In. split; [done|].
    destruct (Z.eqb_spec (ID r) (ID theme)) as [E|E]; [|done].
    assert (r = theme) by by apply (unique_ids_inj (db s)). congruence.
  - intros _ theme' [= <-]. split; [done|].
    intros Hr. apply List.filter_In in Hr as [_ Hr].
    by rewrite Z.eqb_refl in Hr.
Qed.

Lemma UninstallSSRTheme_never_deletes_a_current_row_witness :
  In (row_a true) (db (final (UninstallSSRTheme catalog_ok 1 "theme-a"
                                state_active))).
Proof.
  refine (proj1 (proj2 (proj2 (proj2 (proj2
            (UninstallSSRTheme_never_deletes_a_current_row catalog_ok 1
               "theme-a" state_active _))))) (row_a true) _ eq_refl).
  - apply NoDup_singleton.
  - simpl. by left.
Defined.

Lemma status_map_fold (l : list UserInstalledTheme) (m0 : gmap string bool) :
  let m := fold_left (fun (m : gmap string bool) theme =>
                        <[ThemeName theme := IsCurrent theme]> m) l m0 in
  (forall r, In r l -> is_Some (m !! ThemeName r))
  /\ (forall name, is_Some (m0 !! name) -> is_Some (m !! name))
  /\ (forall name b, m !! name = Some b ->
        m0 !! name = Some b
        \/ exists r, In r l /\ ThemeName r = name /\ IsCurrent r = b).
Proof.
  revert m0. induction l as [|x l IH]; intros m0; simpl.
  { split_and!; [done|done|auto]. }
  destruct (IH (<[ThemeName x := IsCurrent x]> m0)) as (H1 & H2 & H3).
  split_and!.
  - intros r [->|Hr]; [|by apply H1].
    apply H2. rewrite lookup_insert_eq. by eexists.
  - intros name Hn. apply H2.
    destruct (decide (ThemeName x = name)) as [<-|Hne].
    + rewrite lookup_insert_eq. by eexists.
    + by rewrite lookup_insert_ne.
  - intros name b Hm. apply H3 in Hm as [Hm|(r & Hr & Hn & Hb)].
    + destruct (decide (ThemeName x = name)) as [<-|Hne].
      * rewrite lookup_insert_eq in Hm. injection Hm as <-.
        right. exists x. auto.
      * rewrite lookup_insert_ne in Hm; auto.
    + right. exists r. auto.
Qed.

(** X21. [GetSSRThemeCurrentStatus] reads only: the state is as before and
    nothing is emitted.  When its query fails it returns the error;
    otherwise the keys of the map it returns are exactly the names of the
    SSR rows of the user, and the value under a name is the flag of one of
    the rows of that name. *)
Theorem GetSSRThemeCurrentStatus_maps_the_ssr_rows (c : Catalog) (userID : Z)
    (s : State) :
  let o := GetSSRThemeCurrentStatus c userID s in
  final o = s /\ events o = []
  /\ if stmt_fails c QuerySsrThemes
     then result o = Some (inr ErrQueryStatus)
     else exists m,
       result o = Some (inl m)
       /\ (forall name,
             is_Some (m !! name) <->
             exists r, In r (db s) /\ UserID r = userID
                       /\ is_ssr (Deploy r) = true /\ ThemeName r = name)
       /\ (forall name b,
             m !! name = Some b ->
             exists r, In r (db s) /\ UserID r = userID
                       /\ is_ssr (Deploy r) = true /\ ThemeName r = name
                       /\ IsCurrent r = b).
Proof.
  intros o. subst o. unfold GetSSRThemeCurrentStatus.
  destruct (stmt_fails c QuerySsrThemes); run_op; [done|].
  split; [done|]. split; [done|]. eexists. split; [reflexivity|].
  destruct (status_map_fold
              (List.filter (fun r => (UserID r =? userID) && is_ssr (Deploy r))
                           (db s)) ∅) as (H1 & _ & H3).
  assert (Hrow : forall r,
            In r (List.filter (fun r => (UserID r =? userID)
                                        && is_ssr (Deploy r)) (db s))
            <-> In r (db s) /\ UserID r = userID /\ is_ssr (Deploy r) = true).
  { intros r. rewrite List.filter_In, andb_true_iff, Z.eqb_eq. tauto. }
  assert (Hval : forall name b,
            fold_left (fun (m : gmap string bool) theme =>
                         <[ThemeName theme := IsCurrent theme]> m)
                      (List.filter (fun r => (UserID r =? userID)
                                             && is_ssr (Deploy r)) (db s)) ∅
              !! name = Some b ->
            exists r, In r (db s) /\ UserID r = userID
                      /\ is_ssr (Deploy r) = true /\ ThemeName r = name
                      /\ IsCurrent r = b).
  { intros name b Hm. apply H3 in Hm as [Hm|(r & Hr & Hn & Hb)].
    - by rewrite lookup_empty in Hm.
    - apply Hrow in Hr as (? & ? & ?). exists r. auto. }
  split; [|exact Hval].
  intros name. split.
  - intros [b Hm]. apply Hval in Hm as (r & ? & ? & ? & ? & _). exists r. auto.
  - intros (r & Hr & Hu & Hs & <-). apply H1. apply Hrow. auto.
Qed.

(** ** Activation and deactivation, end to end *)

Lemma no_current_row_without_the_target (userID : Z)
    (theme : UserInstalledTheme) (d : list UserInstalledTheme) :
  ~ In (ID theme) (map ID d) ->
  current_rows userID (set_current (ID theme) (clear_current userID d)) = [].
Proof.
  unfold current_rows, set_current, clear_current.
  induction d as [|r d IH]; [done|]. simpl. intros Hnot.
  assert (Hid : (ID r =? ID theme) = false).
  { apply Z.eqb_neq. intros E. apply Hnot. by left. }
  rewrite IH by tauto.
  destruct (UserID r =? userID) eqn:Hu; simpl;
    repeat (progress (rewrite ?Hid, ?Hu; simpl)); done.
Qed.

(** The two updates of an activation, on a table with unique IDs: the only
    current row of the user is the target. *)
Lemma current_rows_after_switch (userID : Z) (theme : UserInstalledTheme)
    (d : list UserInstalledTheme) :
  NoDup (map ID d) -> In theme d -> UserID theme = userID ->
  current_rows userID (set_current (ID theme) (clear_current userID d))
  = [set_IsCurrent true theme].
Proof.
  intros Hnd Hin Hu. induction d as [|r d IH]; [done|].
  simpl in Hnd. apply NoDup_cons in Hnd as [Hr Hnd].
  rewrite list_elem_of_In in Hr.
  destruct Hin as [->|Hin].
  - pose proof (no_current_row_without_the_target userID theme d Hr) as Hrest.
    unfold current_rows, set_current, clear_current in *. simpl.
    assert (Hub : (UserID theme =? userID) = true) by by apply Z.eqb_eq.
    rewrite Hrest.
    repeat (progress (rewrite ?Hub, ?Z.eqb_refl; simpl)). done.
  - assert (Hid : (ID r =? ID theme) = false).
    { apply Z.eqb_neq. intros E. apply Hr. rewrite E. by apply in_map. }
    specialize (IH Hnd Hin).
    unfold current_rows, set_current, clear_current in *. simpl.
    rewrite IH.
    destruct (UserID r =? userID) eqn:Hur; simpl;
      repeat (progress (rewrite ?Hid, ?Hur; simpl)); done.
Qed.

Lemma other_users_after_switch (userID : Z) (theme r : UserInstalledTheme)
    (d : list UserInstalledTheme) :
  NoDup (map ID d) -> In theme d -> UserID theme = userID ->
  In r d -> UserID r <> userID ->
  In r (set_current (ID theme) (clear_current userID d)).
Proof.
  intros Hnd Hin Hu Hr Hru. unfold set_current, clear_current.
  rewrite map_map. apply in_map_iff. exists r. split; [|done].
  destruct (Z.eqb_spec (UserID r) userID); [done|].
  destruct (Z.eqb_spec (ID r) (ID theme)) as [E|E]; [|done].
  assert (r = theme) by by apply (unique_ids_inj d). congruence.
Qed.

Lemma find_among_current_rows (userID : Z) (d : list UserInstalledTheme) :
  List.find (fun r => (UserID r =? userID) && IsCurrent r && is_ssr (Deploy r)) d
  = List.find (fun r => is_ssr (Deploy r)) (current_rows userID d).
Proof.
  unfold current_rows. induction d as [|r d IH]; [done|]. simpl.
  destruct ((UserID r =? userID) && IsCurrent r); simpl; [|exact IH].
  destruct (is_ssr (Deploy r)); [done|exact IH].
Qed.

(** Step 4 of [SwitchToSSRTheme] with a manager, on the registry. *)
Lemma ensure_started_registry (w : World) (themeName : string) (s1 : State) :
  exists r s' t,
    (running <- IsRunning themeName ;;
     if (running : bool) then ret None else Start w themeName 3000) s1
      = Ret r s' t
    /\ match r with
       | None =>
           (forall n, n <> themeName ->
              processes (mgr s') !! n = processes (mgr s1) !! n)
           /\ exists rt,
                processes (mgr s') !! themeName = Some rt
                /\ live (Some rt) = true
                /\ (live (processes (mgr s1) !! themeName) = false ->
                    port rt = 3000)
       | Some _ => True
       end.
Proof.
  unfold bind at 1. rewrite IsRunning_unfold.
  destruct (live (processes (mgr s1) !! themeName)) eqn:Hl.
  - exists None, s1, ([EvRLock; EvRUnlock] ++ []). split; [reflexivity|].
    split; [done|].
    destruct (processes (mgr s1) !! themeName) as [rt|]; [|by unfold live in Hl].
    exists rt. split; [done|]. split; [done|]. discriminate.
  - rewrite Start_unfold. cbv zeta. rewrite Hl.
    destruct (os_Stat w (serverJS_path s1 themeName)) eqn:Hstat.
    2: { by eexists _, _, _. }
    all: destruct (cmd_Start w (Join (themesDir (mgr s1)) themeName) 3000)
           as [pid|] eqn:Hsp; [|by eexists _, _, _].
    all: eexists _, _, _; (split; [reflexivity|]); simpl.
    all: split; [intros n Hn; by rewrite lookup_insert_ne|].
    all: eexists; split; [apply lookup_insert_eq|]; done.
Qed.

(** What a successful activation with a manager leaves behind. *)
Lemma SwitchToSSRTheme_success_state (w : World) (userID : Z)
    (themeName : string) (ssrManager : ManagerRef) (s : State) :
  faithful_range w -> ssrManager = ManagerPtr ->
  match SwitchToSSRTheme w userID themeName ssrManager s with
  | Ret None s' _ =>
      (exists theme, find_theme userID themeName (db s) = Some theme
         /\ db s' = set_current (ID theme) (clear_current userID (db s)))
      /\ (forall n, n <> themeName -> live (processes (mgr s') !! n) = false)
      /\ exists rt,
           processes (mgr s') !! themeName = Some rt
           /\ live (Some rt) = true
           /\ (live (processes (mgr s) !! themeName) = false
               \/ themeName ∈ exits_meanwhile w -> port rt = 3000)
  | _ => True
  end.
Proof.
  intros Hr Hptr. unfold SwitchToSSRTheme, db_stmt.
  assert (H1 : forall s1, exists s' t,
    (match ssrManager with
     | NilManager => ret tt
     | ManagerPtr =>
         runningThemes <- ListRunning w ;;
         meanwhile w ;;;
         foreach runningThemes (fun name =>
           if negb (String.eqb name themeName)
           then Stop w name ;;; ret tt
           else ret tt)
     end) s1 = Ret tt s' t
    /\ forall n,
         processes (mgr s') !! n =
           if bool_decide (n ∈ exits_meanwhile w) then None
           else if live (processes (mgr s1) !! n)
                   && negb (String.eqb n themeName) then None
           else processes (mgr s1) !! n).
  { intros s1. subst ssrManager.
    destruct (list_then_sweep w (fun name => negb (String.eqb name themeName)) s1)
      as (s' & t & HF & _ & _ & Hps & _ & _).
    exists s', t. split; [exact HF|]. by apply Hps. }
  assert (H2 : forall s1, exists r s' t,
    (match ssrManager with
     | NilManager => ret None
     | ManagerPtr =>
         running <- IsRunning themeName ;;
         if (running : bool) then ret None else Start w themeName 3000
     end) s1 = Ret r s' t
    /\ match r with
       | None =>
           (forall n, n <> themeName ->
              processes (mgr s') !! n = processes (mgr s1) !! n)
           /\ exists rt,
                processes (mgr s') !! themeName = Some rt
                /\ live (Some rt) = true
                /\ (live (processes (mgr s1) !! themeName) = false ->
                    port rt = 3000)
       | Some _ => True
       end).
  { intros s1. subst ssrManager. apply ensure_started_registry. }
  revert H1 H2.
  generalize (match ssrManager with
     | NilManager => ret tt
     | ManagerPtr =>
         runningThemes <- ListRunning w ;;
         meanwhile w ;;;
         foreach runningThemes (fun name =>
           if negb (String.eqb name themeName)
           then Stop w name ;;; ret tt
           else ret tt)
     end).
  generalize (match ssrManager with
     | NilManager => ret None
     | ManagerPtr =>
         running <- IsRunning themeName ;;
         if (running : bool) then ret None else Start w themeName 3000
     end).
  generalize (match ssrManager with
     | NilManager => ret tt
     | ManagerPtr => Stop w themeName ;;; ret tt
     end).
  intros B3 B2 B1 H1 H2.
  destruct (db_fails w QueryTheme) eqn:Fq; [by run_op|].
  run_op.
  destruct (find_theme userID themeName (db s)) as [theme|] eqn:Hfind; [|done].
  destruct (H1 s) as (s1 & t1 & -> & Hps1).
  destruct (db_fails w BeginTx); simpl; [done|].
  destruct (db_fails w TxClearCurrent); simpl; [done|].
  destruct (db_fails w TxSetCurrent); simpl; [done|].
  destruct (H2 s1) as (r & s2 & t2 & -> & Hr2).
  destruct r as [e|]; simpl; [done|].
  destruct Hr2 as (Hframe & rt & Hrt & Hlive & Hport).
  destruct (db_fails w TxCommit); simpl; [by destruct (B3 s2)|].
  split; [by exists theme|]. split.
  - intros n Hn. rewrite Hframe, Hps1 by done.
    destruct (bool_decide (n ∈ exits_meanwhile w)); [done|].
    destruct (live (processes (mgr s) !! n)) eqn:Hl; [|simpl; exact Hl].
    destruct (String.eqb_spec n themeName); done.
  - exists rt. split; [done|]. split; [done|].
    intros Hwas. apply Hport. rewrite Hps1.
    destruct (bool_decide (themeName ∈ exits_meanwhile w)) eqn:Hx; [done|].
    apply bool_decide_eq_false in Hx.
    rewrite String.eqb_refl, andb_false_r. by destruct Hwas.
Qed.

(** X22. A successful activation with a manager, on a table with unique
    IDs, leaves exactly one flag and exactly one runtime: the row found for
    the target is the only current row of the user, the rows of the other
    users are as they were, the target has a live entry in the registry (on
    port 3000 when this call had to start it), and no other theme is
    live. *)
Theorem SwitchToSSRTheme_success_leaves_one_flag_and_one_runtime (w : World)
    (userID : Z) (themeName : string) (s : State) :
  faithful_range w ->
  NoDup (map ID (db s)) ->
  let o := SwitchToSSRTheme w userID themeName ManagerPtr s in
  result o = Some None ->
  exists theme rt,
    find_theme userID themeName (db s) = Some theme
    /\ current_rows userID (db (final o)) = [set_IsCurrent true theme]
    /\ (forall r, In r (db s) -> UserID r <> userID -> In r (db (final o)))
    /\ processes (mgr (final o)) !! themeName = Some rt
    /\ live (Some rt) = true
    /\ (live (processes (mgr s) !! themeName) = false -> port rt = 3000)
    /\ (forall n, n <> themeName ->
          live (processes (mgr (final o)) !! n) = false).
Proof.
  intros Hr Hnd o Hres. subst o.
  pose proof (SwitchToSSRTheme_success_state w userID themeName ManagerPtr s
                Hr eq_refl) as H.
  destruct (SwitchToSSRTheme w userID themeName ManagerPtr s)
    as [[e|] s' t|]; try discriminate.
  destruct H as ((theme & Hfind & Hdb) & Hothers & rt & Hrt & Hl & Hport).
  destruct (find_theme_row _ _ _ _ Hfind) as (Hin & Hu & Hn).
  exists theme, rt. cbn [final]. rewrite Hdb. split_and!; try done.
  - by apply current_rows_after_switch.
  - intros r. by apply other_users_after_switch.
  - auto.
Qed.

Lemma SwitchToSSRTheme_success_leaves_one_flag_and_one_runtime_witness :
  exists theme rt,
    find_theme 1 "theme-a" (db state_idle) = Some theme
    /\ current_rows 1 (db (final (SwitchToSSRTheme world_a 1 "theme-a"
                                    ManagerPtr state_idle)))
       = [set_IsCurrent true theme]
    /\ port rt = 3000.
Proof.
  destruct (SwitchToSSRTheme_success_leaves_one_flag_and_one_runtime
              world_a 1 "theme-a" state_idle world_a_faithful
              (NoDup_singleton _) eq_refl)
    as (theme & rt & Hfind & Hrows & _ & _ & _ & Hport & _).
  exists theme, rt. split; [exact Hfind|]. split; [exact Hrows|].
  apply Hport. reflexivity.
Defined.

Lemma GetRunningTheme_of_the_only_live_theme (w : World) (s : State)
    (name : string) (rt : runningTheme) :
  faithful_range w ->
  processes (mgr s) !! name = Some rt ->
  live (Some rt) = true ->
  (forall n, n <> name -> live (processes (mgr s) !! n) = false) ->
  GetRunningTheme w s =
  Ret (Some {| Name := name; Status := StatusRunning; Port := port rt |}) s
      [EvRLock; EvRUnlock].
Proof.
  intros Hr Hrt Hl Honly. rewrite GetRunningTheme_unfold.
  destruct (filter _ _) as [|[n r] l] eqn:Hf.
  - assert (Hin : name ∈ map fst (filter (fun nr : string * runningTheme =>
                                     live (Some (snd nr)) = true)
                                   (map_range w (processes (mgr s))))).
    { apply ListRunning_elem; [done|]. by rewrite Hrt. }
    rewrite Hf in Hin. by apply elem_of_nil in Hin.
  - assert (Hin : (n, r) ∈ filter (fun nr : string * runningTheme =>
                                     live (Some (snd nr)) = true)
                                  (map_range w (processes (mgr s)))).
    { rewrite Hf. apply elem_of_cons. by left. }
    apply list_elem_of_filter in Hin as [Hlr Hin]. simpl in Hlr.
    apply (range_elem w) in Hin; [|done].
    destruct (decide (n = name)) as [->|Hne].
    + rewrite Hrt in Hin. by injection Hin as <-.
    + specialize (Honly n Hne). rewrite Hin in Honly. congruence.
Qed.

(** X23. After a successful activation with a manager, on a table with
    unique IDs, a request outside the exclusion set reaches the runtime of
    the target, on the port of its registry entry (if that port is not
    negative).  Without a checker this holds as it is; with the catalog
    lookup as checker it holds when the lookup succeeds and the row of the
    target is an SSR row, and otherwise the request falls through although
    the runtime is up. *)
Theorem after_activation_requests_reach_the_target (w : World) (userID : Z)
    (themeName path : string) (s : State) :
  faithful_range w ->
  NoDup (map ID (db s)) ->
  let o := SwitchToSSRTheme w userID themeName ManagerPtr s in
  result o = Some None ->
  shouldSkipSSRProxy path = false ->
  exists theme rt,
    find_theme userID themeName (db s) = Some theme
    /\ processes (mgr (final o)) !! themeName = Some rt
    /\ let target :=
         if url_Parse_ok (port rt)
         then Proxy {| Name := themeName; Status := StatusRunning;
                       Port := port rt |}
         else Next in
       result (SSRProxyMiddleware w ManagerPtr None path (final o))
         = Some target
       /\ result (SSRProxyMiddleware w ManagerPtr
                    (Some (GetCurrentSSRThemeName w userID)) path (final o))
          = Some (if negb (db_fails w QueryCurrentSsr) && is_ssr (Deploy theme)
                  then target else Next).
Proof.
  intros Hr Hnd o Hres Hskip. subst o.
  pose proof (SwitchToSSRTheme_success_state w userID themeName ManagerPtr s
                Hr eq_refl) as H.
  destruct (SwitchToSSRTheme w userID themeName ManagerPtr s)
    as [[e|] s' t|]; try discriminate.
  destruct H as ((theme & Hfind & Hdb) & Hothers & rt & Hrt & Hl & Hport).
  destruct (find_theme_row _ _ _ _ Hfind) as (Hin & Hu & Hn).
  exists theme, rt. cbn [final]. split; [done|]. split; [done|].
  cbv zeta. unfold SSRProxyMiddleware. rewrite Hskip. split.
  - unfold bind at 1.
    rewrite (GetRunningTheme_of_the_only_live_theme w s' themeName rt)
      by done.
    unfold serve. cbn [Port].
    destruct (url_Parse_ok (port rt)); by run_op.
  - unfold bind at 1. rewrite GetCurrentSSRThemeName_unfold.
    destruct (db_fails w QueryCurrentSsr); [done|].
    rewrite find_among_current_rows, Hdb.
    rewrite current_rows_after_switch by done.
    cbn [List.find set_IsCurrent Deploy].
    destruct (is_ssr (Deploy theme)); [|done].
    cbn [fst snd negb andb].
    change (ThemeName (set_IsCurrent true theme)) with (ThemeName theme).
    rewrite Hn.
    unfold bind at 1. rewrite IsRunning_unfold, Hrt, Hl.
    unfold bind at 1. rewrite GetPort_unfold, Hrt, Hl.
    unfold serve. cbn [Port].
    destruct (url_Parse_ok (port rt)); by run_op.
Qed.

Lemma after_activation_requests_reach_the_target_witness :
  exists theme rt,
    find_theme 1 "theme-a" (db state_idle) = Some theme
    /\ processes (mgr (final (SwitchToSSRTheme world_a 1 "theme-a" ManagerPtr
                                state_idle))) !! "theme-a" = Some rt.
Proof.
  destruct (after_activation_requests_reach_the_target
              world_a 1 "theme-a" "/posts/hello" state_idle world_a_faithful
              (NoDup_singleton _) eq_refl eq_refl)
    as (theme & rt & Hfind & Hrt & _).
  exists theme, rt. split; [exact Hfind|exact Hrt].
Defined.

(** What [SwitchToOfficial] leaves behind. *)
Lemma SwitchToOfficial_outcome (w : World) (userID : Z)
    (ssrManager : ManagerRef) (s : State) :
  exists r s' t,
    SwitchToOfficial w userID ssrManager s = Ret r s' t
    /\ (r <> None -> s' = s)
    /\ (r = None ->
        db s' = clear_current userID (db s)
        /\ (faithful_range w -> ssrManager = ManagerPtr ->
            forall name, live (processes (mgr s') !! name) = false)).
Proof.
  unfold SwitchToOfficial, db_stmt.
  destruct (db_fails w UpdateClearCurrent) eqn:Hf.
  { run_op. eexists _, _, _. split; [reflexivity|]. split; [done|]. discriminate. }
  assert (Hsweep : forall s1, exists s' t,
    (match ssrManager with
     | NilManager => ret tt
     | ManagerPtr =>
         runningThemes <- ListRunning w ;;
         meanwhile w ;;;
         foreach runningThemes (fun themeName => Stop w themeName ;;; ret tt)
     end) s1 = Ret tt s' t
    /\ db s' = db s1
    /\ (faithful_range w -> ssrManager = ManagerPtr ->
        forall name, live (processes (mgr s') !! name) = false)).
  { intros s1. destruct ssrManager.
    - exists s1, []. split; [reflexivity|]. split; [done|]. discriminate.
    - destruct (list_then_sweep w (fun _ => true) s1)
        as (s' & t & HF & Hdb & _ & Hps & _ & _).
      exists s', t. split; [exact HF|]. split; [done|].
      intros Hr _ name. rewrite (Hps Hr).
      destruct (bool_decide _); [done|].
      destruct (live (processes (mgr s1) !! name)) eqn:Hl; simpl; done. }
  revert Hsweep.
  generalize (match ssrManager with
     | NilManager => ret tt
     | ManagerPtr =>
         runningThemes <- ListRunning w ;;
         meanwhile w ;;;
         foreach runningThemes (fun themeName => Stop w themeName ;;; ret tt)
     end).
  intros sweep Hsweep.
  destruct (static_mode_active w); run_op;
    match goal with
    | |- context [sweep ?s1] =>
        destruct (Hsweep s1) as (s' & t & -> & Hdb & Hlive)
    end; simpl.
  all: eexists _, _, _; (split; [reflexivity|]); (split; [done|]).
  all: intros _; split; [exact Hdb|exact Hlive].
Qed.

Lemma GetRunningTheme_when_nothing_is_live (w : World) (s : State) :
  faithful_range w ->
  (forall name, live (processes (mgr s) !! name) = false) ->
  GetRunningTheme w s = Ret None s [EvRLock; EvRUnlock].
Proof.
  intros Hr Hall. rewrite GetRunningTheme_unfold.
  destruct (filter _ _) as [|[n r] l] eqn:Hf; [done|].
  assert (Hin : n ∈ map fst (filter (fun nr : string * runningTheme =>
                                live (Some (snd nr)) = true)
                              (map_range w (processes (mgr s))))).
  { rewrite Hf. simpl. apply elem_of_cons. by left. }
  apply (ListRunning_elem w s n Hr) in Hin. by rewrite Hall in Hin.
Qed.

(** X24. After a successful [SwitchToOfficial] no request is forwarded.
    With the catalog lookup as checker this holds for every path and
    whatever manager the switch was given, so also when it was given none
    and the runtimes are still up; without a checker it holds when the
    switch stopped the runtimes itself. *)
Theorem after_deactivation_no_request_is_forwarded (w : World) (userID : Z)
    (ssrManager middlewareManager : ManagerRef) (path : string) (s : State) :
  let o := SwitchToOfficial w userID ssrManager s in
  result o = Some None ->
  result (SSRProxyMiddleware w middlewareManager
            (Some (GetCurrentSSRThemeName w userID)) path (final o))
    = Some Next
  /\ (faithful_range w -> ssrManager = ManagerPtr ->
      result (SSRProxyMiddleware w middlewareManager None path (final o))
        = Some Next).
Proof.
  intros o Hres. subst o.
  destruct (SwitchToOfficial_outcome w userID ssrManager s)
    as (r & s' & t & Heq & _ & Hnone).
  rewrite Heq in *. cbn [result final] in *. injection Hres as ->.
  destruct (Hnone eq_refl) as [Hdb Hlive].
  unfold SSRProxyMiddleware.
  destruct middlewareManager; [done|].
  destruct (shouldSkipSSRProxy path); [done|]. split.
  - unfold bind at 1. rewrite GetCurrentSSRThemeName_unfold.
    destruct (db_fails w QueryCurrentSsr); [done|].
    by rewrite Hdb, find_clear_current.
  - intros Hr Hptr. unfold bind at 1.
    rewrite GetRunningTheme_when_nothing_is_live by auto.
    by unfold serve.
Qed.

Lemma after_deactivation_no_request_is_forwarded_witness :
  result (SSRProxyMiddleware world_a ManagerPtr
            (Some (GetCurrentSSRThemeName world_a 1)) "/posts/hello"
            (final (SwitchToOfficial world_a 1 NilManager state_active)))
    = Some Next.
Proof.
  exact (proj1 (after_deactivation_no_request_is_forwarded world_a 1
                  NilManager ManagerPtr "/posts/hello" state_active eq_refl)).
Defined.

(** X25. [SwitchToTheme] on a theme that is not the official one never
    uses the manager: it always returns, the registry is as before, and
    the call neither takes the registry lock nor acts on a process, so a
    runtime that was up stays up.  An error leaves the stored flags as they
    were.  A success means the theme was installed with its files in place,
    and the table is the one the two updates of the transaction give; with
    unique IDs the row found is then the only current row of the user. *)
Theorem SwitchToTheme_leaves_the_runtimes_alone (h : Host) (w : World)
    (userID : Z) (themeName : string) (ssrManager : ManagerRef) (s : State) :
  isOfficialTheme themeName = false ->
  let o := SwitchToTheme h w userID themeName ssrManager s in
  returned o = true
  /\ mgr (final o) = mgr s
  /\ Forall (fun e => process_action e = false /\ lock_event e = false)
            (events o)
  /\ (result o <> Some None -> db (final o) = db s)
  /\ (result o = Some None ->
      exists theme,
        find_theme userID themeName (db s) = Some theme
        /\ validateThemeFiles w (Join ThemesDirName themeName) = true
        /\ db (final o) = set_current (ID theme) (clear_current userID (db s))
        /\ (NoDup (map ID (db s)) ->
            current_rows userID (db (final o)) = [set_IsCurrent true theme])).
Proof.
  intros Hoff o. subst o.
  assert (H : exists r s' t,
    SwitchToTheme h w userID themeName ssrManager s = Ret r s' t
    /\ mgr s' = mgr s
    /\ Forall (fun e => process_action e = false /\ lock_event e = false) t
    /\ (r <> None -> db s' = db s)
    /\ (r = None ->
        exists theme,
          find_theme userID themeName (db s) = Some theme
          /\ validateThemeFiles w (Join ThemesDirName themeName) = true
          /\ db s' = set_current (ID theme) (clear_current userID (db s)))).
  { unfold SwitchToTheme, db_stmt, restore_backup. rewrite Hoff.
    destruct (db_fails w QueryTheme);
      [run_op; eexists _, _, _; split; [reflexivity|];
       split_and!; try done; repeat constructor|].
    run_op.
    destruct (find_theme userID themeName (db s)) as [theme|] eqn:Hfind;
      [|eexists _, _, _; split; [reflexivity|];
        split_and!; try done; repeat constructor].
    destruct (validateThemeFiles w (Join ThemesDirName themeName)) eqn:Hv;
      simpl;
      [|eexists _, _, _; split; [reflexivity|];
        split_and!; try done; repeat constructor].
    destruct (static_mode_active w), (backup_ok h),
      (copy_theme_ok h (Join ThemesDirName themeName)),
      (db_fails w BeginTx), (db_fails w TxClearCurrent),
      (db_fails w TxSetCurrent), (db_fails w TxCommit); simpl.
    all: eexists _, _, _; (split; [reflexivity|]).
    all: split_and!; try done; try (repeat constructor).
    all: intros _; exists theme; done. }
  destruct H as (r & s' & t & -> & Hm & Ht & Herr & Hok).
  cbn [returned final events result]. split_and!; try done.
  - intros Hne. apply Herr. congruence.
  - intros [= ->]. destruct (Hok eq_refl) as (theme & Hfind & Hv & Hdb).
    exists theme. split_and!; try done.
    intros Hnd. rewrite Hdb.
    destruct (find_theme_row _ _ _ _ Hfind) as (Hin & Hu & _).
    by apply current_rows_after_switch.
Qed.

Lemma SwitchToTheme_leaves_the_runtimes_alone_witness :
  isOfficialTheme "theme-a" = false
  /\ mgr (final (SwitchToTheme host_a world_static 1 "theme-a" ManagerPtr
                   state_active))
     = mgr state_active.
Proof.
  split; [reflexivity|].
  exact (proj1 (proj2 (SwitchToTheme_leaves_the_runtimes_alone host_a
                         world_static 1 "theme-a" ManagerPtr state_active
                         eq_refl))).
Defined.

(** X26. [UninstallTheme] refuses the official theme, and in static mode
    it refuses a row marked current and spares every current row (on a
    table with unique IDs); there an error leaves the table as it was.
    Outside static mode the flag of the row counts for nothing: when the
    statements succeed the row found is deleted, current or not.  The call
    always returns, leaves the registry alone and never raises a flag;
    after a success no row carries the ID of the row found. *)
Theorem UninstallTheme_spares_the_theme_in_use_in_static_mode_only
    (w : World) (c : Catalog) (userID : Z) (themeName : string) (s : State) :
  NoDup (map ID (db s)) ->
  let o := UninstallTheme w c userID themeName s in
  returned o = true /\ mgr (final o) = mgr s /\ events o = []
  /\ (isOfficialTheme themeName = true ->
      result o = Some (Some ErrUninstallOfficial) /\ final o = s)
  /\ (forall r, In r (db (final o)) -> IsCurrent r = true -> In r (db s))
  /\ (static_mode_active w = true ->
      (forall r, In r (db s) -> IsCurrent r = true -> In r (db (final o)))
      /\ (result o <> Some None -> final o = s))
  /\ (result o = Some None ->
      exists theme,
        find_theme userID themeName (db s) = Some theme
        /\ (forall r, In r (db (final o)) -> ID r <> ID theme)
        /\ (static_mode_active w = true -> IsCurrent theme = false))
  /\ (static_mode_active w = false ->
      isOfficialTheme themeName = false ->
      stmt_fails c QueryFirstTheme = false ->
      stmt_fails c DeleteTheme = false ->
      forall theme, find_theme userID themeName (db s) = Some theme ->
                    result o = Some None).
Proof.
  intros Hnd o. subst o. unfold UninstallTheme.
  destruct (isOfficialTheme themeName) eqn:Hoff; [by run_op|].
  destruct (stmt_fails c QueryFirstTheme) eqn:Hq; [by run_op|].
  destruct (find_theme userID themeName (db s)) as [theme|] eqn:Hfind;
    [|run_op; rewrite Hfind; simpl; split_and!; done].
  destruct (find_theme_row _ _ _ _ Hfind) as (Hin & Hu & Hn).
  assert (Hdel : forall d r, In r (delete_row (ID theme) d) -> ID r <> ID theme).
  { intros d r Hr. apply List.filter_In in Hr as [_ Hr].
    by destruct (Z.eqb_spec (ID r) (ID theme)). }
  assert (Hsub : forall d r, In r (delete_row (ID theme) d) -> In r d).
  { intros d r Hr. by apply List.filter_In in Hr as [Hr _]. }
  destruct (static_mode_active w) eqn:Hs, (IsCurrent theme) eqn:Hcur,
    (stmt_fails c DeleteTheme) eqn:Hd;
    try destruct (update_one_fails c (ID theme)) eqn:Hup;
    run_op; rewrite Hfind; simpl; rewrite ?Hcur, ?Hup; simpl;
    rewrite ?Hd; simpl; split_and!; try done; try (by eauto).
  all: try (intros r Hr Hc; apply Hsub in Hr;
            first [exact Hr | by apply unset_current_lowers in Hr]).
  all: try (intros r Hr Hc; apply unset_current_lowers in Hr; done).
  all: try (intros _; exists theme; split_and!; eauto; done).
  all: intros _; split; [|done].
  all: intros r Hr Hc; apply List.filter_In; split; [done|].
  all: destruct (Z.eqb_spec (ID r) (ID theme)) as [E|E]; [|done].
  all: assert (r = theme) by by apply (unique_ids_inj (db s)).
  all: congruence.
Qed.

Lemma UninstallTheme_spares_the_theme_in_use_in_static_mode_only_witness :
  IsCurrent (row_a true) = true
  /\ find_theme 1 "theme-a" (db state_active) = Some (row_a true)
  /\ result (UninstallTheme world_a catalog_ok 1 "theme-a" state_active)
     = Some None.
Proof.
  split; [reflexivity|]. split; [reflexivity|].
  exact (proj2 (proj2 (proj2 (proj2 (proj2 (proj2 (proj2
           (UninstallTheme_spares_the_theme_in_use_in_static_mode_only
              world_a catalog_ok 1 "theme-a" state_active
              (NoDup_singleton _))))))))
           eq_refl eq_refl eq_refl eq_refl (row_a true) eq_refl).
Defined.

(** ** Synchronising the catalog with the themes directory *)

Lemma sync_entry_step (w : World) (c : Catalog) (userID : Z)
    (themesDir : string) (entry : string * bool) (s : State) :
  sync_entry w c userID themesDir entry s
  = Ret tt {| mgr := mgr s;
              db := sync_step w c userID themesDir (db s) entry |} [].
Proof.
  unfold sync_entry, sync_step. destruct s as [m d]. simpl.
  destruct (snd entry); simpl; [|done].
  destruct (os_Stat w _); [|done|].
  all: run_op.
  all: destruct (stmt_fails_for c ExistTheme (fst entry)); [done|].
  all: destruct (find_theme userID (fst entry) d).
  all: try (by destruct (stmt_fails_for c UpdateDeployType (fst entry))).
  all: by destruct (stmt_fails_for c CreateTheme (fst entry)).
Qed.

Lemma sync_loop (w : World) (c : Catalog) (userID : Z) (themesDir : string)
    (entries : list (string * bool)) (s : State) :
  foreach entries (sync_entry w c userID themesDir) s
  = Ret tt {| mgr := mgr s;
              db := fold_left (sync_step w c userID themesDir) entries (db s) |}
        [].
Proof.
  revert s. induction entries as [|e l IH]; intros s; cbn [foreach fold_left].
  { by destruct s. }
  unfold bind at 1. rewrite sync_entry_step, IH. done.
Qed.

Lemma current_rows_set_deploy_ssr (u userID : Z) (themeName : string)
    (d : list UserInstalledTheme) :
  map row_key (current_rows u (set_deploy_ssr userID themeName d))
  = map row_key (current_rows u d).
Proof.
  unfold current_rows, set_deploy_ssr.
  induction d as [|r d IH]; [done|]. simpl.
  destruct ((UserID r =? userID) && String.eqb (ThemeName r) themeName); simpl;
    destruct ((UserID r =? u) && IsCurrent r); simpl; by rewrite IH.
Qed.

Lemma sync_step_current_rows (w : World) (c : Catalog) (userID : Z)
    (themesDir : string) (d : list UserInstalledTheme) (entry : string * bool)
    (u : Z) :
  map row_key (current_rows u (sync_step w c userID themesDir d entry))
  = map row_key (current_rows u d).
Proof.
  unfold sync_step.
  destruct (snd entry); simpl; [|done].
  destruct (os_Stat w _); [|done|].
  all: destruct (stmt_fails_for c ExistTheme (fst entry)); [done|].
  all: destruct (find_theme userID (fst entry) d).
  all: try (destruct (stmt_fails_for c UpdateDeployType (fst entry));
            [done|apply current_rows_set_deploy_ssr]).
  all: destruct (stmt_fails_for c CreateTheme (fst entry)); [done|].
  all: unfold current_rows; rewrite List.filter_app; simpl.
  all: by rewrite andb_false_r, app_nil_r.
Qed.

Lemma sync_step_other_users (w : World) (c : Catalog) (userID : Z)
    (themesDir : string) (d : list UserInstalledTheme) (entry : string * bool)
    (r : UserInstalledTheme) :
  In r d -> UserID r <> userID ->
  In r (sync_step w c userID themesDir d entry).
Proof.
  intros Hin Hu. unfold sync_step.
  destruct (snd entry); simpl; [|done].
  assert (Hset : In r (set_deploy_ssr userID (fst entry) d)).
  { unfold set_deploy_ssr. apply in_map_iff. exists r. split; [|done].
    by destruct (Z.eqb_spec (UserID r) userID). }
  destruct (os_Stat w _); [|done|].
  all: destruct (stmt_fails_for c ExistTheme (fst entry)); [done|].
  all: destruct (find_theme userID (fst entry) d).
  all: try (by destruct (stmt_fails_for c UpdateDeployType (fst entry))).
  all: destruct (stmt_fails_for c CreateTheme (fst entry)); [done|].
  all: apply in_or_app; by left.
Qed.

Lemma find_theme_set_deploy_ssr (userID : Z) (themeName name : string)
    (d : list UserInstalledTheme) (theme : UserInstalledTheme) :
  find_theme userID themeName d = Some theme ->
  exists theme',
    find_theme userID themeName (set_deploy_ssr userID name d) = Some theme'.
Proof.
  unfold find_theme, set_deploy_ssr.
  induction d as [|r d IH]; [done|]. simpl.
  destruct ((UserID r =? userID) && String.eqb (ThemeName r) themeName) eqn:E.
  - intros _.
    destruct ((UserID r =? userID) && String.eqb (ThemeName r) name);
      simpl; rewrite E; eauto.
  - intros H.
    destruct ((UserID r =? userID) && String.eqb (ThemeName r) name);
      simpl; rewrite E; by apply IH.
Qed.

Lemma set_deploy_ssr_rows (userID : Z) (name : string)
    (d : list UserInstalledTheme) (r' : UserInstalledTheme) :
  In r' (set_deploy_ssr userID name d) ->
  exists r, In r d /\ UserID r = UserID r' /\ ThemeName r = ThemeName r'
            /\ (Deploy r' = Deploy r
                \/ UserID r = userID /\ ThemeName r = name
                   /\ Deploy r' = DeployTypeSsr).
Proof.
  unfold set_deploy_ssr. intros Hin.
  apply in_map_iff in Hin as (r & <- & Hin). exists r. split; [done|].
  destruct ((UserID r =? userID) && String.eqb (ThemeName r) name) eqn:E;
    simpl; [|auto].
  apply andb_prop in E as [Hu Hn].
  apply Z.eqb_eq in Hu. apply String.eqb_eq in Hn. auto 10.
Qed.

Lemma set_deploy_ssr_matched (userID : Z) (name : string)
    (d : list UserInstalledTheme) (r' : UserInstalledTheme) :
  In r' (set_deploy_ssr userID name d) ->
  UserID r' = userID -> ThemeName r' = name -> Deploy r' = DeployTypeSsr.
Proof.
  unfold set_deploy_ssr. intros Hin Hu Hn.
  apply in_map_iff in Hin as (r & <- & Hin).
  destruct ((UserID r =? userID) && String.eqb (ThemeName r) name) eqn:E;
    [done|].
  apply andb_false_iff in E as [E|E].
  - by apply Z.eqb_neq in E.
  - by apply String.eqb_neq in E.
Qed.

Lemma sync_step_keeps_registered (w : World) (c : Catalog) (userID : Z)
    (themesDir : string) (d : list UserInstalledTheme) (entry : string * bool)
    (name : string) :
  registered_as_ssr userID name d ->
  registered_as_ssr userID name (sync_step w c userID themesDir d entry).
Proof.
  intros [[theme Hfind] Hall]. unfold sync_step.
  destruct (snd entry); simpl; [|by split; eauto].
  assert (Hset : registered_as_ssr userID name
                   (set_deploy_ssr userID (fst entry) d)).
  { split; [by eapply find_theme_set_deploy_ssr|].
    intros r' Hin Hu Hn.
    apply set_deploy_ssr_rows in Hin as (r & Hin & Hu' & Hn' & [Hd|(_ & _ & Hd)]);
      [|done].
    rewrite Hd. apply Hall; congruence. }
  assert (Hadd : forall row, Deploy row = DeployTypeSsr ->
                   registered_as_ssr userID name (d ++ [row])).
  { intros row Hrow. split.
    - rewrite find_theme_app, Hfind. eauto.
    - intros r Hin Hu Hn. apply in_app_or in Hin as [Hin|[<-|[]]]; auto. }
  destruct (os_Stat w _); [|by split; eauto|].
  all: destruct (stmt_fails_for c ExistTheme (fst entry)); [by split; eauto|].
  all: destruct (find_theme userID (fst entry) d).
  all: try (destruct (stmt_fails_for c UpdateDeployType (fst entry));
            [by split; eauto|exact Hset]).
  all: destruct (stmt_fails_for c CreateTheme (fst entry)); [by split; eauto|].
  all: by apply Hadd.
Qed.

Lemma sync_step_registers (w : World) (c : Catalog) (userID : Z)
    (themesDir : string) (d : list UserInstalledTheme) (entry : string * bool) :
  (forall stmt name, stmt_fails_for c stmt name = false) ->
  snd entry = true ->
  os_Stat w (Join (Join themesDir (fst entry)) "server.js") <> StatNotExist ->
  registered_as_ssr userID (fst entry) (sync_step w c userID themesDir d entry).
Proof.
  intros Hok Hdir Hstat. unfold sync_step. rewrite Hdir, !Hok. simpl.
  assert (Hboth : registered_as_ssr userID (fst entry)
    match find_theme userID (fst entry) d with
    | Some _ => set_deploy_ssr userID (fst entry) d
    | None => d ++ [{| ID := fresh_id c d; UserID := userID;
                       ThemeName := fst entry; IsCurrent := false;
                       Deploy := DeployTypeSsr |}]
    end).
  { destruct (find_theme userID (fst entry) d) as [theme|] eqn:Hfind.
    - split; [by eapply find_theme_set_deploy_ssr|].
      intros r' Hin Hu Hn. by eapply set_deploy_ssr_matched.
    - split.
      + rewrite find_theme_app, Hfind. unfold find_theme. simpl.
        rewrite Z.eqb_refl, String.eqb_refl. simpl. eauto.
      + intros r Hin Hu Hn. apply in_app_or in Hin as [Hin|[<-|[]]]; [|done].
        exfalso. unfold find_theme in Hfind.
        eapply find_none in Hfind; [|exact Hin]. simpl in Hfind.
        apply andb_false_iff in Hfind as [E|E].
        * apply Z.eqb_neq in E. done.
        * apply String.eqb_neq in E. done. }
  by destruct (os_Stat w _).
Qed.

Lemma sync_fold_current_rows (w : World) (c : Catalog) (userID : Z)
    (themesDir : string) (entries : list (string * bool))
    (d : list UserInstalledTheme) (u : Z) :
  map row_key (current_rows u
                 (fold_left (sync_step w c userID themesDir) entries d))
  = map row_key (current_rows u d).
Proof.
  revert d. induction entries as [|e l IH]; intros d; [done|]. simpl.
  rewrite IH. apply sync_step_current_rows.
Qed.

Lemma sync_fold_other_users (w : World) (c : Catalog) (userID : Z)
    (themesDir : string) (entries : list (string * bool))
    (d : list UserInstalledTheme) (r : UserInstalledTheme) :
  In r d -> UserID r <> userID ->
  In r (fold_left (sync_step w c userID themesDir) entries d).
Proof.
  revert d. induction entries as [|e l IH]; intros d Hin Hu; [done|]. simpl.
  apply IH; [|done]. by apply sync_step_other_users.
Qed.

Lemma sync_fold_keeps_registered (w : World) (c : Catalog) (userID : Z)
    (themesDir : string) (entries : list (string * bool))
    (d : list UserInstalledTheme) (name : string) :
  registered_as_ssr userID name d ->
  registered_as_ssr userID name
    (fold_left (sync_step w c userID themesDir) entries d).
Proof.
  revert d. induction entries as [|e l IH]; intros d H; [done|]. simpl.
  apply IH. by apply sync_step_keeps_registered.
Qed.

(** X27. [SyncSSRThemesFromFileSystem] adds rows and sets deploy types and
    nothing else: it always returns and leaves the registry alone; for
    every user the current rows are the same as before in every column but
    the deploy type, and the rows of the other users are untouched.  When
    the directory can be read and no statement fails, the call returns nil
    and every directory in it that has a server.js is registered
    afterwards: the user has a row of that name, and each of their rows of
    that name is an SSR row. *)
Theorem SyncSSRThemesFromFileSystem_registers_the_startable_themes
    (h : Host) (w : World) (c : Catalog) (userID : Z) (themesDir : string)
    (s : State) :
  let o := SyncSSRThemesFromFileSystem h w c userID themesDir s in
  returned o = true /\ mgr (final o) = mgr s /\ events o = []
  /\ (forall u, map row_key (current_rows u (db (final o)))
                = map row_key (current_rows u (db s)))
  /\ (forall r, In r (db s) -> UserID r <> userID -> In r (db (final o)))
  /\ (forall entries,
        os_ReadDir h themesDir = DirEntries entries ->
        (forall stmt name, stmt_fails_for c stmt name = false) ->
        result o = Some None
        /\ forall entry,
             In entry entries -> snd entry = true ->
             os_Stat w (Join (Join themesDir (fst entry)) "server.js")
               <> StatNotExist ->
             registered_as_ssr userID (fst entry) (db (final o))).
Proof.
  intros o. subst o. unfold SyncSSRThemesFromFileSystem.
  destruct (os_ReadDir h themesDir) as [entries| |]; [|by destruct s..].
  unfold bind. rewrite sync_loop. cbn [returned final events result mgr db ret].
  split_and!; try done.
  - intros u. apply sync_fold_current_rows.
  - intros r. apply sync_fold_other_users.
  - intros entries' [= <-] Hok. split; [done|].
    generalize (db s). clear s.
    induction entries as [|e l IH]; intros d entry Hin Hdir Hstat; [done|].
    simpl. destruct Hin as [->|Hin].
    + apply sync_fold_keeps_registered. by apply sync_step_registers.
    + by apply IH.
Qed.
